(** * Procurement pipeline: net demand and supplier-order derivation

    A shallow embedding of the SQL that the Airflow DAG
    [airflow/dags/procurement_pipeline_dag.py] sends to Presto, of the
    Python code that inspects the answers, and proofs about both.

    Tables are bags of rows, written as lists; every result that does not
    go through an ORDER BY is only meaningful up to permutation.  Joins are
    list comprehensions, GROUP BY collects the distinct keys and aggregates
    the rows of each key, and the scalar expressions follow Presto's typing
    rules (see [order_quantity]).

    The scripts around the DAG are embedded as well: the seeding scripts
    of [scripts/data_generation], with their random draws as arguments;
    the tasks and the upload script that run external commands, over an
    abstract machine that answers each command; and the table printer of
    [scripts/analyze_data.py]. *)

From Stdlib Require Import ZArith String Ascii DecimalString DecimalPos DecimalNat.
From stdpp Require Import base tactics option list strings sorting.

Local Open Scope Z_scope.

(* ===================================================================== *)
(** * Relational operators *)
(* ===================================================================== *)

(** Join conditions are two-place predicates written as abstractions;
    their decision procedures are found after a beta step. *)
Global Hint Extern 0 (Decision ((fun _ => _) _ _)) =>
  progress cbv beta : typeclass_instances.

Module Sql.

Section Joins.
Context {A B : Type}.
Variable on : A → B → Prop.
Context `{∀ a b, Decision (on a b)}.

(** [l JOIN r ON on]: every pair of rows that satisfies the condition. *)
Definition inner_join (l : list A) (r : list B) : list (A * B) :=
  a ← l; (λ b, (a, b)) <$> filter (on a) r.

(** The right-hand side of a LEFT JOIN for one left row: the partners, or
    a single NULL (here [None]) when there is none. *)
Definition partners_or_null (ms : list B) : list (option B) :=
  match ms with
  | [] => [None]
  | _ => Some <$> ms
  end.

(** [l LEFT JOIN r ON on]: as [inner_join], but a left row without a
    partner is kept once, with NULL for the right side. *)
Definition left_join (l : list A) (r : list B) : list (A * option B) :=
  a ← l; (λ b, (a, b)) <$> partners_or_null (filter (on a) r).
End Joins.

(** [SUM(e)] over the rows of one group; the sum of an INTEGER column is a
    BIGINT, which rows of 32-bit values cannot overflow, so the sum is
    taken in [Z]. *)
Definition sum (l : list Z) : Z := foldr Z.add 0 l.

(** [COALESCE(x, d)]. *)
Definition coalesce {A} (x : option A) (d : A) : A := default d x.

(** [GREATEST(a, b)]. *)
Definition greatest (a b : Z) : Z := Z.max a b.

(** [SELECT k, agg FROM l GROUP BY k]: one output row per distinct key,
    built from the rows that carry the key. *)
Definition group_by {A K R} `{EqDecision K}
    (key : A → K) (agg : K → list A → R) (l : list A) : list R :=
  (λ k, agg k (filter (λ a, key a = k) l)) <$> remove_dups (key <$> l).

(** [COUNT(DISTINCT e)]. *)
Definition count_distinct {K} `{EqDecision K} (l : list K) : Z :=
  Z.of_nat (length (remove_dups l)).

End Sql.

(* ===================================================================== *)
(** * Data model *)
(* ===================================================================== *)

(** ** Master data (PostgreSQL, [postgresql.public.*]) *)

Record Product := {
  p_product_id : Z;
  p_sku : string;
  p_product_name : string;
  p_is_active : bool
}.

Record Supplier := {
  s_supplier_id : Z;
  s_supplier_code : string;
  s_supplier_name : string;
  s_is_active : bool
}.

Record SupplierProduct := {
  sp_supplier_id : Z;
  sp_product_id : Z;
  sp_is_primary_supplier : bool
}.

Record ReplenishmentRule := {
  r_product_id : Z;
  r_safety_stock : Z;
  r_min_order_quantity : Z;
  r_pack_size : Z;
  r_case_size : Z;
  r_max_order_quantity : Z;
  r_reorder_point : Z
}.

Record Postgres := {
  products : list Product;
  suppliers : list Supplier;
  supplier_products : list SupplierProduct;
  replenishment_rules : list ReplenishmentRule
}.

(** ** Daily partitions (Hive external tables over the day's JSON files) *)

Record OrderLine := {
  ol_order_id : string;
  ol_pos_store_id : string;
  ol_sku : string;
  ol_quantity : Z;
  ol_order_date : string
}.

Record StockRecord := {
  st_warehouse_code : string;
  st_sku : string;
  st_available_stock : Z;
  st_reserved_stock : Z;
  st_snapshot_date : string
}.

(** ** Derived rows *)

(** A row of [hive.default.net_demand]. *)
Record NetDemand := {
  nd_sku : string;
  nd_product_name : string;
  nd_aggregated_orders : Z;
  nd_available_stock : Z;
  nd_reserved_stock : Z;
  nd_safety_stock : Z;
  nd_net_demand : Z;
  nd_case_size : Z;
  nd_min_order_quantity : Z
}.

(** A row of the supplier-order file. *)
Record SupplierOrderLine := {
  so_supplier_code : string;
  so_supplier_name : string;
  so_sku : string;
  so_product_name : string;
  so_net_demand : Z;
  so_case_size : Z;
  so_order_quantity : Z
}.

(** The Hive catalog the tasks read and write: the two tables that
    [create_hive_tables] declares over the day's files, and the table
    [net_demand] that [calculate_net_demand] creates and
    [cleanup_temp_tables] drops. *)
Record Hive := {
  orders : list OrderLine;
  stock : list StockRecord;
  net_demand : option (list NetDemand)
}.

Global Instance Product_eq_dec : EqDecision Product.
Proof. solve_decision. Defined.
Global Instance Supplier_eq_dec : EqDecision Supplier.
Proof. solve_decision. Defined.
Global Instance SupplierProduct_eq_dec : EqDecision SupplierProduct.
Proof. solve_decision. Defined.
Global Instance ReplenishmentRule_eq_dec : EqDecision ReplenishmentRule.
Proof. solve_decision. Defined.
Global Instance NetDemand_eq_dec : EqDecision NetDemand.
Proof. solve_decision. Defined.
Global Instance SupplierOrderLine_eq_dec : EqDecision SupplierOrderLine.
Proof. solve_decision. Defined.

(* ===================================================================== *)
(** * Task 5: [calculate_net_demand] *)
(* ===================================================================== *)

(** [SELECT sku, SUM(quantity) as total_quantity
     FROM hive.default.orders GROUP BY sku] *)
Record OrderTotals := {
  o_sku : string;
  o_total_quantity : Z
}.

Definition orders_by_sku (ol : list OrderLine) : list OrderTotals :=
  Sql.group_by ol_sku
    (λ k rows, {| o_sku := k;
                  o_total_quantity := Sql.sum (ol_quantity <$> rows) |})
    ol.

(** [SELECT sku, SUM(available_stock) as total_available,
            SUM(reserved_stock) as total_reserved
     FROM hive.default.stock GROUP BY sku] *)
Record StockTotals := {
  stk_sku : string;
  stk_total_available : Z;
  stk_total_reserved : Z
}.

Definition stock_by_sku (st : list StockRecord) : list StockTotals :=
  Sql.group_by st_sku
    (λ k rows, {| stk_sku := k;
                  stk_total_available := Sql.sum (st_available_stock <$> rows);
                  stk_total_reserved := Sql.sum (st_reserved_stock <$> rows) |})
    st.

(** The SELECT list of the net-demand query, for one joined row
    [(p, r, o, s)]; [o] and [s] are NULL when the LEFT JOIN found no
    partner. *)
Definition select_net_demand
    (p : Product) (r : ReplenishmentRule)
    (o : option OrderTotals) (s : option StockTotals) : NetDemand :=
  let total_quantity := Sql.coalesce (o_total_quantity <$> o) 0 in
  let total_available := Sql.coalesce (stk_total_available <$> s) 0 in
  let total_reserved := Sql.coalesce (stk_total_reserved <$> s) 0 in
  {| nd_sku := p_sku p;
     nd_product_name := p_product_name p;
     nd_aggregated_orders := total_quantity;
     nd_available_stock := total_available;
     nd_reserved_stock := total_reserved;
     nd_safety_stock := r_safety_stock r;
     nd_net_demand :=
       Sql.greatest
         (total_quantity + r_safety_stock r
            - (total_available - total_reserved))
         0;
     nd_case_size := r_case_size r;
     nd_min_order_quantity := r_min_order_quantity r |}.

(** The body of [CREATE TABLE hive.default.net_demand AS SELECT ...]:
    products JOIN replenishment_rules, LEFT JOIN the two aggregates,
    WHERE p.is_active = TRUE. *)
Definition net_demand_query
    (pg : Postgres) (ol : list OrderLine) (st : list StockRecord)
    : list NetDemand :=
  let o := orders_by_sku ol in
  let s := stock_by_sku st in
  let p_r :=
    Sql.inner_join (λ p r, p_product_id p = r_product_id r)
      (products pg) (replenishment_rules pg) in
  let p_r_o :=
    Sql.left_join (λ pr o, p_sku pr.1 = o_sku o) p_r o in
  let p_r_o_s :=
    Sql.left_join (λ pro s, p_sku pro.1.1 = stk_sku s) p_r_o s in
  let rows := filter (λ row, p_is_active row.1.1.1 = true) p_r_o_s in
  (λ row, select_net_demand row.1.1.1 row.1.1.2 row.1.2 row.2) <$> rows.

(** What a Python task function does: it returns a value, or raises. *)
Inductive outcome (A : Type) : Type :=
  | Returned (a : A)
  | Raised (msg : string).
Arguments Returned {A} a.
Arguments Raised {A} msg.

(** [calculate_net_demand]: drops [hive.default.net_demand] if it exists,
    creates it from the query, and returns [True].  The two CSV exports to
    HDFS around the query do not change the catalog. *)
Definition calculate_net_demand (pg : Postgres) (hive : Hive)
    : Hive * outcome bool :=
  ({| orders := orders hive;
      stock := stock hive;
      net_demand := Some (net_demand_query pg (orders hive) (stock hive)) |},
   Returned true).

(* ===================================================================== *)
(** * Task 6: [generate_supplier_orders] *)
(* ===================================================================== *)

(** Why Presto rejects a query at run time. *)
Inductive sql_error : Type :=
  | DIVISION_BY_ZERO
  | NUMERIC_VALUE_OUT_OF_RANGE
  | TABLE_NOT_FOUND.

(** The answer to a query: its value, or the error that made it fail. *)
Inductive query (A : Type) : Type :=
  | Ok (a : A)
  | Failed (e : sql_error).
Arguments Ok {A} a.
Arguments Failed {A} e.

Definition query_bind {A B} (m : query A) (k : A → query B) : query B :=
  match m with
  | Ok a => k a
  | Failed e => Failed e
  end.

Notation "x ←? m ; k" := (query_bind m (λ x, k))
  (at level 20, m at level 100, k at level 200, only parsing).

(** Evaluates [f] on every row; the query fails as soon as one row does. *)
Fixpoint traverse {A B} (f : A → query B) (l : list A) : query (list B) :=
  match l with
  | [] => Ok []
  | a :: l' =>
      b ←? f a;
      bs ←? traverse f l';
      Ok (b :: bs)
  end.

(** ** The expression
    [CAST(CEIL(nd.net_demand * 1.0 / nd.case_size) * nd.case_size AS INTEGER)]

    Presto reads the literal [1.0] as a DECIMAL(2,1), not as a DOUBLE.
    [nd.net_demand] is a BIGINT, so the product is a DECIMAL(21,1); a
    DECIMAL(p,s) is carried below as its unscaled integer, the value times
    10^s.  Dividing a DECIMAL(21,1) by an INTEGER (a DECIMAL(10,0)) gives a
    DECIMAL of scale max(1,0) = 1: the quotient is kept to ONE decimal
    digit, rounded half up, and a zero divisor is an error. *)

Definition INTEGER_MIN : Z := - 2 ^ 31.
Definition INTEGER_MAX : Z := 2 ^ 31 - 1.

(** Quotient of two integers rounded to the nearest integer, ties away
    from zero. *)
Definition div_round_half_up (a b : Z) : Z :=
  Z.sgn a * Z.sgn b * ((2 * Z.abs a + Z.abs b) / (2 * Z.abs b)).

(** [x * 1.0] for a BIGINT [x]: the unscaled value of the DECIMAL(21,1). *)
Definition times_1_0 (x : Z) : Z := x * 10.

(** [d / c] for a DECIMAL(_,1) [d] and an INTEGER [c]: a DECIMAL(_,1). *)
Definition decimal1_div_integer (d c : Z) : query Z :=
  if decide (c = 0) then Failed DIVISION_BY_ZERO
  else Ok (div_round_half_up d c).

(** [CEIL(d)] for a DECIMAL(_,1) [d]: the least integer not below d/10. *)
Definition ceil_decimal1 (d : Z) : Z := - ((- d) / 10).

(** [CAST(v AS INTEGER)] for an integral DECIMAL [v]. *)
Definition cast_as_integer (v : Z) : query Z :=
  if decide (INTEGER_MIN ≤ v ≤ INTEGER_MAX) then Ok v
  else Failed NUMERIC_VALUE_OUT_OF_RANGE.

Definition order_quantity (net_demand case_size : Z) : query Z :=
  q ←? decimal1_div_integer (times_1_0 net_demand) case_size;
  cast_as_integer (ceil_decimal1 q * case_size).

(** The SELECT list of the supplier-order query. *)
Definition select_supplier_order (s : Supplier) (nd : NetDemand)
    : query SupplierOrderLine :=
  oq ←? order_quantity (nd_net_demand nd) (nd_case_size nd);
  Ok {| so_supplier_code := s_supplier_code s;
        so_supplier_name := s_supplier_name s;
        so_sku := nd_sku nd;
        so_product_name := nd_product_name nd;
        so_net_demand := nd_net_demand nd;
        so_case_size := nd_case_size nd;
        so_order_quantity := oq |}.

(** VARCHAR values compare byte by byte, which is [String.compare]. *)
Definition order_by_compare (a b : SupplierOrderLine) : comparison :=
  match String.compare (so_supplier_code a) (so_supplier_code b) with
  | Eq => String.compare (so_sku a) (so_sku b)
  | c => c
  end.

(** [ORDER BY s.supplier_code, nd.sku]: [a] may come before [b]. *)
Definition order_by_le (a b : SupplierOrderLine) : Prop :=
  order_by_compare a b ≠ Gt.

Global Instance order_by_le_dec : RelDecision order_by_le.
Proof. intros a b. unfold order_by_le. solve_decision. Defined.

(** FROM net_demand nd JOIN products p JOIN supplier_products sp
    JOIN suppliers s WHERE sp.is_primary_supplier = TRUE
    AND nd.net_demand > 0. *)
Definition supplier_orders_rows (pg : Postgres) (nd : list NetDemand)
    : list (NetDemand * Product * SupplierProduct * Supplier) :=
  let nd_p :=
    Sql.inner_join (λ nd p, nd_sku nd = p_sku p) nd (products pg) in
  let nd_p_sp :=
    Sql.inner_join (λ x sp, p_product_id x.2 = sp_product_id sp)
      nd_p (supplier_products pg) in
  let nd_p_sp_s :=
    Sql.inner_join (λ x s, sp_supplier_id x.2 = s_supplier_id s)
      nd_p_sp (suppliers pg) in
  filter
    (λ row, sp_is_primary_supplier row.1.2 = true
            ∧ 0 < nd_net_demand row.1.1.1)
    nd_p_sp_s.

Definition supplier_orders_query (pg : Postgres) (nd : list NetDemand)
    : query (list SupplierOrderLine) :=
  lines ←? traverse (λ row, select_supplier_order row.2 row.1.1.1)
             (supplier_orders_rows pg nd);
  Ok (merge_sort order_by_le lines).

(** [generate_supplier_orders]: runs the query against the catalog and
    raises when Presto reports a failure, with what presto-cli wrote to
    its error output in the message; otherwise the rows are written to
    [supplier_orders_<date>.csv], locally and to HDFS.  The value kept
    here is the rows of that file.  [presto_stderr e] is [result.stderr]
    of this run when the query fails with the error [e]. *)
Definition generate_supplier_orders (presto_stderr : sql_error → string)
    (pg : Postgres) (hive : Hive) : outcome (list SupplierOrderLine) :=
  let result :=
    match net_demand hive with
    | Some nd => supplier_orders_query pg nd
    | None => Failed TABLE_NOT_FOUND
    end in
  match result with
  | Ok lines => Returned lines
  | Failed e =>
      Raised ("Supplier order generation failed: " +:+ presto_stderr e)
  end.

(** [cleanup_temp_tables]: DROP TABLE IF EXISTS hive.default.net_demand. *)
Definition cleanup_temp_tables (hive : Hive) : Hive * outcome bool :=
  ({| orders := orders hive; stock := stock hive; net_demand := None |},
   Returned true).

(* ===================================================================== *)
(** * Task 4: [validate_data_quality] *)
(* ===================================================================== *)

(** ** The Python string operations the task applies to [result.stdout] *)

Module Py.

(** [needle in hay]. *)
Fixpoint contains (needle hay : string) : bool :=
  String.prefix needle hay ||
  match hay with
  | EmptyString => false
  | String _ hay' => contains needle hay'
  end.

(** The characters [str.strip()] removes, among the 7-bit ones: TAB, LF,
    VT, FF, CR, the four separators FS GS RS US, and the space. *)
Definition is_space (c : ascii) : bool :=
  let n := nat_of_ascii c in
  ((9 <=? n) && (n <=? 13) || (28 <=? n) && (n <=? 32))%nat.

Fixpoint lstrip (s : string) : string :=
  match s with
  | EmptyString => EmptyString
  | String c s' => if is_space c then lstrip s' else s
  end.

Fixpoint rstrip (s : string) : string :=
  match s with
  | EmptyString => EmptyString
  | String c s' =>
      match rstrip s' with
      | EmptyString => if is_space c then EmptyString else String c EmptyString
      | t => String c t
      end
  end.

(** [s.strip()]. *)
Definition strip (s : string) : string := lstrip (rstrip s).

(** What [subprocess.run(..., text=True)] makes of the output of a
    command: every CR LF and every other CR becomes one LF. *)
Definition CR : ascii := "013"%char.

Fixpoint universal_newlines (s : string) : string :=
  match s with
  | EmptyString => EmptyString
  | String c s' =>
      if decide (c = CR)
      then String "010"%char
             match s' with
             | String "010"%char s'' => universal_newlines s''
             | _ => universal_newlines s'
             end
      else String c (universal_newlines s')
  end.

(** [s.split(sep)] for a one-character separator: never an empty list. *)
Fixpoint split (sep : ascii) (s : string) : list string :=
  match s with
  | EmptyString => [EmptyString]
  | String c s' =>
      if decide (c = sep) then EmptyString :: split sep s'
      else match split sep s' with
           | [] => [String c EmptyString]
           | field :: fields => String c field :: fields
           end
  end.

End Py.

(** ** What [presto-cli --execute] prints: CSV without a header line, the
    default output format of batch mode.  Every value is wrapped in double
    quotes, a double quote inside a value is doubled, rows end in LF. *)

Module PrestoCli.

Definition dquote : ascii := "034"%char.
Definition comma : ascii := ","%char.
Definition LF : ascii := "010"%char.

Fixpoint escape (s : string) : string :=
  match s with
  | EmptyString => EmptyString
  | String c s' =>
      if decide (c = dquote) then String dquote (String dquote (escape s'))
      else String c (escape s')
  end.

Definition csv_field (s : string) : string :=
  String dquote (escape s +:+ String dquote EmptyString).

Fixpoint csv_row (fields : list string) : string :=
  match fields with
  | [] => String LF EmptyString
  | [f] => csv_field f +:+ String LF EmptyString
  | f :: fs => csv_field f +:+ String comma (csv_row fs)
  end.

Definition csv (rows : list (list string)) : string :=
  foldr (λ row out, csv_row row +:+ out) EmptyString rows.

(** A BIGINT or INTEGER value in decimal notation. *)
Definition show_integer (z : Z) : string :=
  NilZero.string_of_int (Z.to_int z).

End PrestoCli.

(** [SELECT COUNT(DISTINCT p.sku) as unmapped_skus
     FROM products p LEFT JOIN supplier_products sp
       ON p.product_id = sp.product_id
     WHERE sp.supplier_id IS NULL AND p.is_active = TRUE] *)
Definition unmapped_skus_query (pg : Postgres) : Z :=
  let p_sp :=
    Sql.left_join (λ p sp, p_product_id p = sp_product_id sp)
      (products pg) (supplier_products pg) in
  let rows :=
    filter
      (λ row, sp_supplier_id <$> row.2 = None ∧ p_is_active row.1 = true)
      p_sp in
  Sql.count_distinct ((λ row, p_sku row.1) <$> rows).

(** [SELECT sku, SUM(quantity) as total_demand FROM hive.default.orders
     GROUP BY sku HAVING SUM(quantity) > 1000] *)
Definition demand_spike_query (ol : list OrderLine) : list (string * Z) :=
  filter (λ row, 1000 < row.2)
    (Sql.group_by ol_sku
       (λ k rows, (k, Sql.sum (ol_quantity <$> rows))) ol).

(** [result.stdout] of the two checks: what presto-cli prints, as
    [subprocess.run] hands it over in text mode. *)
Definition unmapped_skus_stdout (pg : Postgres) : string :=
  Py.universal_newlines
    (PrestoCli.csv [[PrestoCli.show_integer (unmapped_skus_query pg)]]).

Definition demand_spike_stdout (ol : list OrderLine) : string :=
  Py.universal_newlines
    (PrestoCli.csv
       ((λ row, [row.1; PrestoCli.show_integer row.2])
          <$> demand_spike_query ol)).

Definition WARNING_unmapped : string :=
  "WARNING: Products without supplier mappings detected".
Definition INFO_spike : string :=
  "INFO: Abnormal demand spike detected for some SKUs".

(** The text the first check looks for: a quoted zero. *)
Definition quoted_zero : string :=
  String PrestoCli.dquote (String "0"%char (String PrestoCli.dquote EmptyString)).

(** [validate_data_quality]: the list [exceptions] it prints, and its
    return value.  Neither check raises. *)
Definition validate_data_quality (pg : Postgres) (hive : Hive)
    : list string * outcome bool :=
  let exceptions := [] in
  let stdout := unmapped_skus_stdout pg in
  let exceptions :=
    if negb (Py.contains quoted_zero stdout)
    then exceptions ++ [WARNING_unmapped]
    else exceptions in
  let stdout := demand_spike_stdout (orders hive) in
  let exceptions :=
    if (1 <? length (Py.split PrestoCli.LF (Py.strip stdout)))%nat
    then exceptions ++ [INFO_spike]
    else exceptions in
  (exceptions, Returned true).

(* ===================================================================== *)
(** * The DAG: validate >> calculate >> generate >> cleanup *)
(* ===================================================================== *)

(** What one run leaves behind: the findings of the quality task and the
    result of the order task, if the run got that far. *)
Record DagRun := {
  run_exceptions : list string;
  run_supplier_orders : outcome (list SupplierOrderLine);
  run_catalog : Hive
}.

(** A task runs only when the one before it returned. *)
Definition run_dag (presto_stderr : sql_error → string)
    (pg : Postgres) (hive : Hive) : DagRun :=
  let '(exceptions, validated) := validate_data_quality pg hive in
  match validated with
  | Raised msg =>
      {| run_exceptions := exceptions;
         run_supplier_orders := Raised msg;
         run_catalog := hive |}
  | Returned _ =>
      let '(hive1, calculated) := calculate_net_demand pg hive in
      match calculated with
      | Raised msg =>
          {| run_exceptions := exceptions;
             run_supplier_orders := Raised msg;
             run_catalog := hive1 |}
      | Returned _ =>
          match generate_supplier_orders presto_stderr pg hive1 with
          | Raised msg =>
              {| run_exceptions := exceptions;
                 run_supplier_orders := Raised msg;
                 run_catalog := hive1 |}
          | Returned lines =>
              {| run_exceptions := exceptions;
                 run_supplier_orders := Returned lines;
                 run_catalog := (cleanup_temp_tables hive1).1 |}
          end
      end
  end.

(* ===================================================================== *)
(** * Quantities the requirements are stated in *)
(* ===================================================================== *)

(** The day's ordered quantity of a SKU, over all stores. *)
Definition aggregated_orders (ol : list OrderLine) (sku : string) : Z :=
  Sql.sum (ol_quantity <$> filter (λ l, ol_sku l = sku) ol).

(** The stock of a SKU, over all warehouses. *)
Definition total_available (st : list StockRecord) (sku : string) : Z :=
  Sql.sum (st_available_stock <$> filter (λ x, st_sku x = sku) st).

Definition total_reserved (st : list StockRecord) (sku : string) : Z :=
  Sql.sum (st_reserved_stock <$> filter (λ x, st_sku x = sku) st).

(** The NetDemand entry of a product under a rule. *)
Definition net_demand_entry (ol : list OrderLine) (st : list StockRecord)
    (p : Product) (r : ReplenishmentRule) : NetDemand :=
  let ao := aggregated_orders ol (p_sku p) in
  let av := total_available st (p_sku p) in
  let rs := total_reserved st (p_sku p) in
  {| nd_sku := p_sku p;
     nd_product_name := p_product_name p;
     nd_aggregated_orders := ao;
     nd_available_stock := av;
     nd_reserved_stock := rs;
     nd_safety_stock := r_safety_stock r;
     nd_net_demand := Z.max (ao + r_safety_stock r - (av - rs)) 0;
     nd_case_size := r_case_size r;
     nd_min_order_quantity := r_min_order_quantity r |}.

Definition has_rule (pg : Postgres) (p : Product) : Prop :=
  ∃ r, r ∈ replenishment_rules pg ∧ p_product_id p = r_product_id r.

(** The primary-supplier links of a SKU, each with the product and the
    supplier it connects. *)
Definition primary_supplier_links (pg : Postgres) (sku : string)
    : list (Product * SupplierProduct * Supplier) :=
  filter (λ x, sp_is_primary_supplier x.1.2 = true)
    (Sql.inner_join (λ x s, sp_supplier_id x.2 = s_supplier_id s)
       (Sql.inner_join (λ p sp, p_product_id p = sp_product_id sp)
          (filter (λ p, sku = p_sku p) (products pg))
          (supplier_products pg))
       (suppliers pg)).

(** The quantity of an order line whose rounding is defined. *)
Definition the_order_quantity (n : NetDemand) : Z :=
  match order_quantity (nd_net_demand n) (nd_case_size n) with
  | Ok q => q
  | Failed _ => 0
  end.

(** The order line of a NetDemand entry and a supplier. *)
Definition supplier_order_line (s : Supplier) (n : NetDemand)
    : SupplierOrderLine :=
  {| so_supplier_code := s_supplier_code s;
     so_supplier_name := s_supplier_name s;
     so_sku := nd_sku n;
     so_product_name := nd_product_name n;
     so_net_demand := nd_net_demand n;
     so_case_size := nd_case_size n;
     so_order_quantity := the_order_quantity n |}.

(** The lines of a SKU in an order file. *)
Definition lines_of_sku (sku : string) (lines : list SupplierOrderLine)
    : list SupplierOrderLine :=
  filter (λ l, so_sku l = sku) lines.

(** The entries of a SKU that ask for replenishment. *)
Definition positive_entries (sku : string) (nd : list NetDemand)
    : list NetDemand :=
  filter (λ n, nd_sku n = sku ∧ 0 < nd_net_demand n) nd.

(** The text of the order file: the rows as [presto-cli] prints them
    and [subprocess.run] hands them over in text mode. *)
Definition supplier_orders_csv (lines : list SupplierOrderLine) : string :=
  Py.universal_newlines
    (PrestoCli.csv
       ((λ l, [so_supplier_code l; so_supplier_name l; so_sku l;
               so_product_name l;
               PrestoCli.show_integer (so_net_demand l);
               PrestoCli.show_integer (so_case_size l);
               PrestoCli.show_integer (so_order_quantity l)]) <$> lines)).

(** The order file a run leaves behind, if the order task returned. *)
Definition order_file (run : DagRun) : option string :=
  match run_supplier_orders run with
  | Returned lines => Some (supplier_orders_csv lines)
  | Raised _ => None
  end.

(** The supplier links of a product, primary or not. *)
Definition supplier_links (pg : Postgres) (p : Product)
    : list SupplierProduct :=
  filter (λ sp, p_product_id p = sp_product_id sp) (supplier_products pg).

(** Case-rounding as the requirements word it: the least multiple of the
    case size that covers the demand. *)
Definition ceil_div (n c : Z) : Z := - ((- n) / c).
Definition round_up_to_case (n c : Z) : Z := ceil_div n c * c.

(** The rounding of every row with positive demand is defined and fits
    an INTEGER. *)
Definition rounding_defined (nd : list NetDemand) : Prop :=
  ∀ n, n ∈ nd → 0 < nd_net_demand n →
    1 ≤ nd_case_size n ∧ nd_net_demand n + nd_case_size n ≤ INTEGER_MAX.

(** The uniqueness constraints of the master data that the inserts rely
    on: [ON CONFLICT (sku)], [ON CONFLICT (product_id)] on the rules and
    [ON CONFLICT (supplier_code)]. *)
Record unique_keys (pg : Postgres) : Prop := {
  unique_sku : NoDup (p_sku <$> products pg);
  unique_rule : NoDup (r_product_id <$> replenishment_rules pg);
  unique_supplier_code : NoDup (s_supplier_code <$> suppliers pg)
}.

(** Two snapshots hold the same tables when they hold the same rows;
    the order in which a table stores its rows is not part of the data. *)
Record same_tables (pg pg' : Postgres) : Prop := {
  same_products : products pg ≡ₚ products pg';
  same_suppliers : suppliers pg ≡ₚ suppliers pg';
  same_supplier_products : supplier_products pg ≡ₚ supplier_products pg';
  same_rules : replenishment_rules pg ≡ₚ replenishment_rules pg'
}.

(** The rows the net-demand query is built from. *)
Definition active_products_with_rules (pg : Postgres)
    : list (Product * ReplenishmentRule) :=
  filter (λ pr, p_is_active pr.1 = true)
    (Sql.inner_join (λ p r, p_product_id p = r_product_id r)
       (products pg) (replenishment_rules pg)).

(* ===================================================================== *)
(** * A day of sample data *)
(* ===================================================================== *)

Module Sample.

(** What presto-cli writes to its error output for a failed query; the
    query id differs from run to run. *)
Definition presto_stderr (e : sql_error) : string :=
  "Query 20260101_220000_00001_abcde failed: "
    +:+ match e with
        | DIVISION_BY_ZERO => "Division by zero"
        | NUMERIC_VALUE_OUT_OF_RANGE => "Out of range for integer"
        | TABLE_NOT_FOUND => "Table hive.default.net_demand does not exist"
        end.

Definition milk : Product :=
  {| p_product_id := 1; p_sku := "SKU00001";
     p_product_name := "Dairy Milk"; p_is_active := true |}.
Definition bread : Product :=
  {| p_product_id := 2; p_sku := "SKU00002";
     p_product_name := "Rye Bread"; p_is_active := true |}.
Definition retired_tea : Product :=
  {| p_product_id := 3; p_sku := "SKU00003";
     p_product_name := "Green Tea"; p_is_active := false |}.

(** A rule for product [pid] with the given safety stock and case size. *)
Definition rule (pid safety case : Z) : ReplenishmentRule :=
  {| r_product_id := pid; r_safety_stock := safety;
     r_min_order_quantity := 1; r_pack_size := 1; r_case_size := case;
     r_max_order_quantity := 500; r_reorder_point := 50 |}.

Definition acme : Supplier :=
  {| s_supplier_id := 7; s_supplier_code := "SUP001";
     s_supplier_name := "Acme Dairy Products"; s_is_active := true |}.
Definition zenith : Supplier :=
  {| s_supplier_id := 8; s_supplier_code := "SUP002";
     s_supplier_name := "Zenith Bakery"; s_is_active := false |}.

Definition link (sid pid : Z) (primary : bool) : SupplierProduct :=
  {| sp_supplier_id := sid; sp_product_id := pid;
     sp_is_primary_supplier := primary |}.

Definition order (sku : string) (qty : Z) : OrderLine :=
  {| ol_order_id := "ORD2026010100100000"; ol_pos_store_id := "POS001";
     ol_sku := sku; ol_quantity := qty; ol_order_date := "2026-01-01" |}.

Definition snapshot (sku : string) (available reserved : Z) : StockRecord :=
  {| st_warehouse_code := "WH001"; st_sku := sku;
     st_available_stock := available; st_reserved_stock := reserved;
     st_snapshot_date := "2026-01-01" |}.

Definition day (ol : list OrderLine) (st : list StockRecord) : Hive :=
  {| orders := ol; stock := st; net_demand := None |}.

(** Milk with a rule of the given case size, supplied by Acme. *)
Definition milk_from_acme (case : Z) : Postgres :=
  {| products := [milk; retired_tea];
     suppliers := [acme; zenith];
     supplier_products := [link 7 1 true];
     replenishment_rules := [rule 1 20 case; rule 3 10 6] |}.

(** Milk and bread, both with rules; bread comes from the inactive
    Zenith, milk from Acme. *)
Definition two_products : Postgres :=
  {| products := [milk; bread];
     suppliers := [acme; zenith];
     supplier_products := [link 7 1 true; link 8 2 true];
     replenishment_rules := [rule 1 20 12; rule 2 10 6] |}.

(** The same tables with their rows stored in another order. *)
Definition two_products_reordered : Postgres :=
  {| products := [bread; milk];
     suppliers := [zenith; acme];
     supplier_products := [link 8 2 true; link 7 1 true];
     replenishment_rules := [rule 2 10 6; rule 1 20 12] |}.

(** Milk with two primary suppliers. *)
Definition milk_two_primaries : Postgres :=
  {| products := [milk];
     suppliers := [acme; zenith];
     supplier_products := [link 7 1 true; link 8 1 true];
     replenishment_rules := [rule 1 20 12] |}.

(** Milk whose only supplier link is not primary. *)
Definition milk_no_primary : Postgres :=
  {| products := [milk];
     suppliers := [acme; zenith];
     supplier_products := [link 7 1 false];
     replenishment_rules := [rule 1 20 12] |}.

End Sample.

(** Strings of decimal digits. *)
Definition is_digit (c : ascii) : bool :=
  let n := nat_of_ascii c in ((48 <=? n) && (n <=? 57))%nat.

Fixpoint digits_only (s : string) : bool :=
  match s with
  | EmptyString => true
  | String c s' => is_digit c && digits_only s'
  end.

(** The active products without a primary supplier, as the requirements
    count them. *)
Definition products_without_primary_supplier (pg : Postgres)
    : list Product :=
  filter
    (λ p, p_is_active p = true
          ∧ filter (λ sp, sp_is_primary_supplier sp = true)
              (supplier_links pg p) = [])
    (products pg).

(** The rows of the net-demand query that carry the SKU of [p], among
    the products [l]; and the rows of one product. *)
Definition entries_of (pg : Postgres) (p : Product) (l : list Product)
    : list (Product * ReplenishmentRule) :=
  filter (λ pr, p_sku pr.1 = p_sku p ∧ p_is_active pr.1 = true)
    (Sql.inner_join (λ p r, p_product_id p = r_product_id r)
       l (replenishment_rules pg)).

Definition rules_of (pg : Postgres) (a : Product)
    : list (Product * ReplenishmentRule) :=
  (λ r, (a, r))
    <$> filter (λ r, p_product_id a = r_product_id r) (replenishment_rules pg).

(** The master data with another table of replenishment rules. *)
Definition with_rules (pg : Postgres) (rules : list ReplenishmentRule)
    : Postgres :=
  {| products := products pg;
     suppliers := suppliers pg;
     supplier_products := supplier_products pg;
     replenishment_rules := rules |}.

(** A rule with other order limits: the columns the two queries do not
    combine into a quantity. *)
Definition set_order_limits (min pack max reorder : Z)
    (r : ReplenishmentRule) : ReplenishmentRule :=
  {| r_product_id := r_product_id r;
     r_safety_stock := r_safety_stock r;
     r_min_order_quantity := min;
     r_pack_size := pack;
     r_case_size := r_case_size r;
     r_max_order_quantity := max;
     r_reorder_point := reorder |}.

(** How often a character occurs in a string. *)
Fixpoint count_char (c : ascii) (s : string) : nat :=
  match s with
  | EmptyString => 0
  | String a s' => (if decide (a = c) then 1 else 0) + count_char c s'
  end.

(* ===================================================================== *)
(** * The seeding scripts ([scripts/data_generation]) *)
(* ===================================================================== *)

(** ** Python formatting and the [random] module

    A call of [random] or of Faker is an outside draw; the draws of one
    call site are a stream indexed by the iteration that makes the call. *)

Module PyGen.

(** [str(n)] for a natural number. *)
Definition str_of_nat (n : nat) : string :=
  NilEmpty.string_of_uint (Nat.to_uint n).

Fixpoint zeros (k : nat) : string :=
  match k with
  | O => EmptyString
  | S k' => String "0"%char (zeros k')
  end.

(** [f"{n:0<w>d}"]: the decimal digits, padded with zeros on the left up
    to [w] characters. *)
Definition format_0d (w n : nat) : string :=
  zeros (w - String.length (str_of_nat n)) +:+ str_of_nat n.

(** [s[:k]]. *)
Definition slice_to (k : nat) (s : string) : string := String.substring 0 k s.

(** [random.choice(l)] for a non-empty [l]; [d] stands for the IndexError
    of an empty one. *)
Definition choice {A} (draw : nat) (d : A) (l : list A) : A :=
  nth (draw `mod` length l)%nat l d.

(** [random.randint(a, b)]. *)
Definition randint (draw : nat) (a b : Z) : Z :=
  a + Z.of_nat draw `mod` (b - a + 1).

(** [random.sample(l, k)] for [k <= len(l)]: [k] elements of [l] at
    distinct positions, picked by a stream of draws. *)
Fixpoint sample {A} (draws : nat → nat) (l : list A) (k : nat) : list A :=
  match k with
  | O => []
  | S k' =>
      let i := (draws 0 `mod` length l)%nat in
      match l !! i with
      | Some x => x :: sample (λ j, draws (S j)) (delete i l) k'
      | None => []
      end
  end.

End PyGen.

(** [INSERT INTO t ... VALUES ... ON CONFLICT (key) DO NOTHING], run by
    [executemany] for one row after the other. *)
Definition insert_on_conflict_do_nothing {A K} `{EqDecision K}
    (key : A → K) (table rows : list A) : list A :=
  foldl (λ t r, if decide (key r ∈ key <$> t) then t else t ++ [r])
    table rows.

(** ** [generate_suppliers.py] *)

Record SupplierRow := {
  sr_supplier_code : string;
  sr_supplier_name : string;
  sr_contact_email : string;
  sr_contact_phone : string;
  sr_lead_time_days : Z;
  sr_is_active : bool
}.

(** The draws of one run of [generate_suppliers]. *)
Record SupplierDraws := {
  fake_company : nat → string;
  draw_supplier_type : nat → nat;
  fake_company_email : nat → string;
  fake_phone_number : nat → string;
  draw_lead_time : nat → nat
}.

Definition supplier_types : list string :=
  ["Fresh Foods"; "Dairy Products"; "Beverages"; "Bakery";
   "Frozen Foods"; "Cleaning Supplies"; "Personal Care";
   "Snacks & Confectionery"; "Meat & Seafood"; "International Foods"].

Definition generate_suppliers (rnd : SupplierDraws) (num_suppliers : nat)
    : list SupplierRow :=
  (λ i,
     {| sr_supplier_code := "SUP" +:+ PyGen.format_0d 3 (i + 1);
        sr_supplier_name :=
          fake_company rnd i +:+ " "
            +:+ PyGen.choice (draw_supplier_type rnd i) "" supplier_types;
        sr_contact_email := fake_company_email rnd i;
        sr_contact_phone := PyGen.slice_to 20 (fake_phone_number rnd i);
        sr_lead_time_days := PyGen.randint (draw_lead_time rnd i) 1 5;
        sr_is_active := true |})
    <$> seq 0 num_suppliers.

Definition insert_suppliers_to_db (table suppliers : list SupplierRow)
    : list SupplierRow :=
  insert_on_conflict_do_nothing sr_supplier_code table suppliers.

(** ** [generate_warehouses.py] *)

Record WarehouseRow (Capacity : Type) := {
  wr_warehouse_code : string;
  wr_warehouse_name : string;
  wr_location : string;
  wr_capacity_cubic_meters : Capacity;
  wr_is_active : bool
}.
Arguments wr_warehouse_code {Capacity} _.
Arguments wr_warehouse_name {Capacity} _.
Arguments wr_location {Capacity} _.
Arguments wr_capacity_cubic_meters {Capacity} _.
Arguments wr_is_active {Capacity} _.

Definition warehouse_locations : list string :=
  ["Casablanca Central"; "Rabat North"; "Tangier Port";
   "Marrakech Industrial"; "Fes Distribution Center"].

(** [fake_address i] is [fake.address().replace('\n', ', ')] of iteration
    [i]; the capacity is a rounded float, kept abstract. *)
Definition generate_warehouses {Capacity}
    (fake_address : nat → string) (capacity : nat → Capacity)
    (num_warehouses : nat) : list (WarehouseRow Capacity) :=
  (λ i,
     {| wr_warehouse_code := "WH" +:+ PyGen.format_0d 2 (i + 1);
        wr_warehouse_name :=
          "Warehouse "
            +:+ nth (i `mod` length warehouse_locations)%nat
                  warehouse_locations "";
        wr_location := PyGen.slice_to 200 (fake_address i);
        wr_capacity_cubic_meters := capacity i;
        wr_is_active := true |})
    <$> seq 0 num_warehouses.

(** ** [generate_products.py] *)

Record ProductRow (Price : Type) := {
  pr_sku : string;
  pr_product_name : string;
  pr_category : string;
  pr_subcategory : string;
  pr_unit_price : Price;
  pr_unit_of_measure : string;
  pr_is_active : bool
}.
Arguments pr_sku {Price} _.
Arguments pr_product_name {Price} _.
Arguments pr_category {Price} _.
Arguments pr_subcategory {Price} _.
Arguments pr_unit_price {Price} _.
Arguments pr_unit_of_measure {Price} _.
Arguments pr_is_active {Price} _.

(** The dict [PRODUCT_CATEGORIES], in the order it is written. *)
Definition PRODUCT_CATEGORIES : list (string * list string) :=
  [("Fresh Produce",
    ["Apples"; "Bananas"; "Tomatoes"; "Lettuce"; "Carrots"; "Oranges"]);
   ("Dairy", ["Milk"; "Cheese"; "Yogurt"; "Butter"; "Cream"]);
   ("Bakery", ["Bread"; "Croissants"; "Bagels"; "Muffins"; "Cookies"]);
   ("Beverages", ["Orange Juice"; "Water"; "Soda"; "Coffee"; "Tea"]);
   ("Frozen",
    ["Ice Cream"; "Frozen Pizza"; "Frozen Vegetables"; "Frozen Fish"]);
   ("Snacks", ["Chips"; "Nuts"; "Crackers"; "Chocolate"; "Candy"]);
   ("Meat", ["Chicken"; "Beef"; "Lamb"; "Turkey"]);
   ("Cleaning", ["Detergent"; "Soap"; "Bleach"; "Sponges"]);
   ("Personal Care", ["Shampoo"; "Toothpaste"; "Deodorant"; "Tissues"])].

(** [PRODUCT_CATEGORIES[category]]; [None] stands for the KeyError. *)
Definition subcategories_of (category : string) : option (list string) :=
  (λ found, found.2.2)
    <$> list_find (λ kv, kv.1 = category) PRODUCT_CATEGORIES.

(** The draws of one run of [generate_products]; [draw_is_active i] is
    the outcome of [random.random() > 0.05]. *)
Record ProductDraws (Price : Type) := {
  draw_category : nat → nat;
  draw_subcategory : nat → nat;
  fake_product_company : nat → string;
  draw_unit_price : nat → Price;
  draw_unit_of_measure : nat → nat;
  draw_is_active : nat → bool
}.
Arguments draw_category {Price} _ _.
Arguments draw_subcategory {Price} _ _.
Arguments fake_product_company {Price} _ _.
Arguments draw_unit_price {Price} _ _.
Arguments draw_unit_of_measure {Price} _ _.
Arguments draw_is_active {Price} _ _.

Definition generate_products {Price} (rnd : ProductDraws Price)
    (num_products : nat) : list (ProductRow Price) :=
  (λ i,
     let category :=
       PyGen.choice (draw_category rnd i) "" (fst <$> PRODUCT_CATEGORIES) in
     let subcategory :=
       PyGen.choice (draw_subcategory rnd i) ""
         (default [] (subcategories_of category)) in
     {| pr_sku := "SKU" +:+ PyGen.format_0d 5 (i + 1);
        pr_product_name := fake_product_company rnd i +:+ " " +:+ subcategory;
        pr_category := category;
        pr_subcategory := subcategory;
        pr_unit_price := draw_unit_price rnd i;
        pr_unit_of_measure :=
          PyGen.choice (draw_unit_of_measure rnd i) ""
            ["UNIT"; "KG"; "L"; "PACK"];
        pr_is_active := draw_is_active rnd i |})
    <$> seq 0 num_products.

Definition insert_products_to_db {Price}
    (table products : list (ProductRow Price)) : list (ProductRow Price) :=
  insert_on_conflict_do_nothing pr_sku table products.

(** [link_products_to_suppliers]: the list [mappings] it builds from the
    product ids and supplier ids it reads.  [draw_count i] is the draw of
    [random.randint(1, 2)] for the [i]-th product and [draw_sample i] the
    draws of its [random.sample]. *)
Definition link_products_to_suppliers
    (draw_count : nat → nat) (draw_sample : nat → nat → nat)
    (product_ids supplier_ids : list Z) : list SupplierProduct :=
  match product_ids, supplier_ids with
  | [], _ | _, [] => []
  | _, _ =>
      mjoin
        (imap
           (λ i product_id,
              let num_suppliers_per_product :=
                Z.to_nat (PyGen.randint (draw_count i) 1 2) in
              let selected_suppliers :=
                PyGen.sample (draw_sample i) supplier_ids
                  (num_suppliers_per_product `min` length supplier_ids) in
              imap
                (λ idx supplier_id,
                   {| sp_supplier_id := supplier_id;
                      sp_product_id := product_id;
                      sp_is_primary_supplier := bool_decide (idx = 0%nat) |})
                selected_suppliers)
           product_ids)
  end.

(** Draws for the sample runs of the seeding scripts. *)
Module SeedSample.

Definition supplier_draws (salt : nat) : SupplierDraws :=
  {| fake_company := λ i, "Company " +:+ PyGen.str_of_nat (salt + i);
     draw_supplier_type := λ i, (salt + 3 * i)%nat;
     fake_company_email := λ i, "office@example.org";
     fake_phone_number := λ i, "+212 5 22 00 00 00 ext. 1234";
     draw_lead_time := λ i, (salt + i)%nat |}.

Definition product_draws (salt : nat) : ProductDraws Z :=
  {| draw_category := λ i, (salt + i)%nat;
     draw_subcategory := λ i, (salt + 2 * i)%nat;
     fake_product_company := λ i, "Company " +:+ PyGen.str_of_nat (salt + i);
     draw_unit_price := λ i, 199;
     draw_unit_of_measure := λ i, i;
     draw_is_active := λ i, bool_decide (i ≠ 3%nat) |}.

End SeedSample.

(* ===================================================================== *)
(** * More of Python's [str] *)
(* ===================================================================== *)

Module PyText.

(** [s.split()]: the maximal runs of characters that are not white
    space (among the 7-bit characters, as for [Py.strip]). *)
Fixpoint split_whitespace (s : string) : list string :=
  match s with
  | EmptyString => []
  | String c s' =>
      if Py.is_space c then split_whitespace s'
      else match s' with
           | EmptyString => [String c EmptyString]
           | String c' _ =>
               if Py.is_space c' then String c EmptyString :: split_whitespace s'
               else match split_whitespace s' with
                    | [] => [String c EmptyString]
                    | word :: words => String c word :: words
                    end
           end
  end.

(** No character of [s] is white space. *)
Fixpoint no_space (s : string) : bool :=
  match s with
  | EmptyString => true
  | String c s' => negb (Py.is_space c) && no_space s'
  end.

(** [s.replace(old, new)] for a one-character [old]. *)
Fixpoint replace (old : ascii) (new : string) (s : string) : string :=
  match s with
  | EmptyString => EmptyString
  | String c s' =>
      if decide (c = old) then new +:+ replace old new s'
      else String c (replace old new s')
  end.

(** A text is kept as its UTF-8 encoding.  [len(s)] counts characters:
    the bytes that do not continue one (those outside 0x80..0xBF). *)
Definition is_continuation (c : ascii) : bool :=
  let n := nat_of_ascii c in ((128 <=? n) && (n <=? 191))%nat.

Fixpoint len (s : string) : nat :=
  match s with
  | EmptyString => 0
  | String c s' => (if is_continuation c then 0 else 1) + len s'
  end.

(** The characters [str.strip()] removes: the 7-bit ones of
    [Py.is_space], U+0085 and U+00A0 (two bytes), U+1680, U+2000 to
    U+200A, U+2028, U+2029, U+202F, U+205F and U+3000 (three bytes). *)
Definition is_space_char (s : string) : bool :=
  match s with
  | String c EmptyString => Py.is_space c
  | String c1 (String c2 EmptyString) =>
      let n1 := nat_of_ascii c1 in
      let n2 := nat_of_ascii c2 in
      ((n1 =? 194) && ((n2 =? 133) || (n2 =? 160)))%nat
  | String c1 (String c2 (String c3 EmptyString)) =>
      let n1 := nat_of_ascii c1 in
      let n2 := nat_of_ascii c2 in
      let n3 := nat_of_ascii c3 in
      ((n1 =? 225) && (n2 =? 154) && (n3 =? 128)
       || (n1 =? 226) && (n2 =? 128)
          && ((128 <=? n3) && (n3 <=? 138)
              || (n3 =? 168) || (n3 =? 169) || (n3 =? 175))
       || (n1 =? 226) && (n2 =? 129) && (n3 =? 159)
       || (n1 =? 227) && (n2 =? 128) && (n3 =? 128))%nat
  | _ => false
  end.

Fixpoint lstrip (s : string) : string :=
  match s with
  | EmptyString => EmptyString
  | String c1 s1 =>
      if is_space_char (String c1 EmptyString) then lstrip s1
      else match s1 with
           | EmptyString => s
           | String c2 s2 =>
               if is_space_char (String c1 (String c2 EmptyString))
               then lstrip s2
               else match s2 with
                    | EmptyString => s
                    | String c3 s3 =>
                        if is_space_char
                             (String c1 (String c2 (String c3 EmptyString)))
                        then lstrip s3
                        else s
                    end
           end
  end.

Fixpoint rstrip (s : string) : string :=
  match s with
  | EmptyString => EmptyString
  | String c s' =>
      let kept := String c (rstrip s') in
      if is_space_char kept then EmptyString else kept
  end.

(** [s.strip()]. *)
Definition strip (s : string) : string := lstrip (rstrip s).

(** [c * n] for a one-character text [c]. *)
Fixpoint times (c : ascii) (n : nat) : string :=
  match n with
  | O => EmptyString
  | S n' => String c (times c n')
  end.

(** [s.ljust(w)]. *)
Definition ljust (w : nat) (s : string) : string :=
  s +:+ times " " (w - len s).

(** [sep.join(l)]. *)
Fixpoint join (sep : string) (l : list string) : string :=
  match l with
  | [] => EmptyString
  | [x] => x
  | x :: l' => x +:+ sep +:+ join sep l'
  end.

End PyText.

(* ===================================================================== *)
(** * Commands run through [subprocess.run] *)
(* ===================================================================== *)

(** What [subprocess.run(cmd, capture_output=True, text=True)] returns. *)
Record CompletedProcess := {
  returncode : Z;
  stdout : string;
  stderr : string
}.

(** The machine outside the script: a command changes it and completes
    with a result.  A run of a script is followed with the list of the
    commands it has run so far, each with its result. *)
Section Subprocess.
Variable World : Type.
Variable subprocess_run : World → list string → World * CompletedProcess.

Definition Sys : Type := World * list (list string * CompletedProcess).

Definition run (cmd : list string) (s : Sys) : Sys * CompletedProcess :=
  let wr := subprocess_run s.1 cmd in
  ((wr.1, s.2 ++ [(cmd, wr.2)]), wr.2).

(** ** Task 3: [create_hive_tables] *)

Definition presto_execute (query : string) : list string :=
  ["docker"; "exec"; "presto"; "presto-cli"; "--execute"; query].

Definition create_orders_table (execution_date : string) : string :=
  "
        CREATE TABLE hive.default.orders (
            order_id VARCHAR,
            pos_store_id VARCHAR,
            sku VARCHAR,
            quantity INTEGER,
            order_date VARCHAR,
            unit_price DOUBLE
        )
        WITH (
            external_location = 'hdfs://namenode:9000/procurement/raw/orders/"
  +:+ execution_date +:+
  "',
            format = 'JSON'
        )
        ".

Definition create_stock_table (execution_date : string) : string :=
  "
        CREATE TABLE hive.default.stock (
            warehouse_code VARCHAR,
            sku VARCHAR,
            available_stock INTEGER,
            reserved_stock INTEGER,
            snapshot_date VARCHAR
        )
        WITH (
            external_location = 'hdfs://namenode:9000/procurement/raw/stock/"
  +:+ execution_date +:+
  "',
            format = 'JSON'
        )
        ".

Definition hive_table_queries (execution_date : string) : list string :=
  ["DROP TABLE IF EXISTS hive.default.orders";
   "DROP TABLE IF EXISTS hive.default.stock";
   create_orders_table execution_date;
   create_stock_table execution_date].

(** The loop of [create_hive_tables]: a failed query raises unless its
    text contains DROP TABLE. *)
Fixpoint run_table_queries (queries : list string) (s : Sys)
    : Sys * outcome bool :=
  match queries with
  | [] => (s, Returned true)
  | query :: queries' =>
      let sr := run (presto_execute query) s in
      if bool_decide (returncode sr.2 ≠ 0)
         && negb (Py.contains "DROP TABLE" query)
      then (sr.1, Raised ("Failed to create tables: " +:+ stderr sr.2))
      else run_table_queries queries' sr.1
  end.

Definition create_hive_tables (execution_date : string) (s : Sys)
    : Sys * outcome bool :=
  run_table_queries (hive_table_queries execution_date) s.

(** ** Task 1: [initialize_presto_schema] *)

Definition initialize_presto_schema (s : Sys) : Sys * outcome bool :=
  let cmd := presto_execute "CREATE SCHEMA IF NOT EXISTS hive.default" in
  let created := run cmd s in
  if bool_decide (returncode created.2 ≠ 0)
  then (created.1,
        Raised ("Failed to create Hive schema: " +:+ stderr created.2))
  else
    let cmd_verify := presto_execute "SHOW SCHEMAS FROM hive" in
    let verified := run cmd_verify created.1 in
    if negb (Py.contains "default" (stdout verified.2))
    then (verified.1, Raised "Hive default schema not found after creation")
    else (verified.1, Returned true).

(** ** Task 2: [check_data_availability] *)

Definition check_data_availability (execution_date : string) (s : Sys)
    : Sys * outcome bool :=
  let cmd_orders :=
    "docker exec hadoop_client hdfs dfs -ls /procurement/raw/orders/"
    +:+ execution_date in
  let listed := run (PyText.split_whitespace cmd_orders) s in
  if bool_decide (returncode listed.2 ≠ 0)
  then (listed.1, Raised ("Orders data not found for " +:+ execution_date))
  else
    let cmd_stock :=
      "docker exec hadoop_client hdfs dfs -ls /procurement/raw/stock/"
      +:+ execution_date in
    let listed' := run (PyText.split_whitespace cmd_stock) listed.1 in
    if bool_decide (returncode listed'.2 ≠ 0)
    then (listed'.1, Raised ("Stock data not found for " +:+ execution_date))
    else (listed'.1, Returned true).

(** ** [upload_to_hdfs.py] *)

(** [run_command]: with [check=True] a non-zero return code raises
    [CalledProcessError], which the function turns into [False]. *)
Definition run_command (command : list string) (s : Sys) : Sys * bool :=
  let sr := run command s in
  (sr.1, bool_decide (returncode sr.2 = 0)).

Definition hdfs_dfs (args : list string) : list string :=
  ["docker"; "exec"; "hadoop_client"; "hdfs"; "dfs"] ++ args.

Definition hdfs_put (local_path hdfs_path filename : string) : list string :=
  hdfs_dfs ["-put"; "-f"; local_path +:+ "/" +:+ filename;
            hdfs_path +:+ "/" +:+ filename].

(** [for f in files: success &= run_command(...)]: every file is tried,
    whatever happened to the ones before it. *)
Fixpoint upload_files (local_path hdfs_path : string) (files : list string)
    (success : bool) (s : Sys) : Sys * bool :=
  match files with
  | [] => (s, success)
  | filename :: files' =>
      let sr := run_command (hdfs_put local_path hdfs_path filename) s in
      upload_files local_path hdfs_path files' (success && sr.2) sr.1
  end.

(** [upload_to_hdfs]: a local directory is [None] when it does not exist,
    and otherwise the names of its [*.json] files as [glob] lists them. *)
Definition upload_to_hdfs (execution_date : string)
    (orders_dir stock_dir : option (list string)) (s : Sys) : Sys * bool :=
  match orders_dir with
  | None => (s, false)
  | Some order_files =>
      match stock_dir with
      | None => (s, false)
      | Some stock_files =>
          let hdfs_orders_path := "/procurement/raw/orders/" +:+ execution_date in
          let hdfs_stock_path := "/procurement/raw/stock/" +:+ execution_date in
          let local_orders_path := "/data/raw/orders/" +:+ execution_date in
          let local_stock_path := "/data/raw/stock/" +:+ execution_date in
          let made := run_command (hdfs_dfs ["-mkdir"; "-p"; hdfs_orders_path]) s in
          let success := true && made.2 in
          let made' :=
            run_command (hdfs_dfs ["-mkdir"; "-p"; hdfs_stock_path]) made.1 in
          let success := success && made'.2 in
          if negb success then (made'.1, false)
          else
            let put :=
              upload_files local_orders_path hdfs_orders_path order_files
                success made'.1 in
            let put' :=
              upload_files local_stock_path hdfs_stock_path stock_files
                put.2 put.1 in
            if negb put'.2 then (put'.1, false)
            else
              let listed := run_command (hdfs_dfs ["-ls"; hdfs_orders_path]) put'.1 in
              let listed' :=
                run_command (hdfs_dfs ["-ls"; hdfs_stock_path]) listed.1 in
              (listed'.1, true)
      end
  end.

End Subprocess.

(** No character of [d] occurs in [s]. *)
Fixpoint foreign_to (d s : string) : bool :=
  match d with
  | EmptyString => true
  | String c d' => (count_char c s =? 0)%nat && foreign_to d' s
  end.

(** A machine for the examples: it counts the commands it has run and
    fails exactly the one with number [k]. *)
Module SubprocessSample.

Definition fails_at (k : nat) (done : nat) (cmd : list string)
    : nat * CompletedProcess :=
  (S done,
   {| returncode := if decide (done = k) then 1 else 0;
      stdout := "default";
      stderr := if decide (done = k) then "refused" else EmptyString |}).

End SubprocessSample.

(** ** [generate_replenishment_rules.py] *)

(** The draws of one run of [generate_replenishment_rules], by the
    position of the product in the list the script reads. *)
Record RuleDraws := {
  draw_case_size : nat → nat;
  draw_pack_size : nat → nat;
  draw_safety_stock : nat → nat;
  draw_min_order_quantity : nat → nat;
  draw_max_order_quantity : nat → nat;
  draw_reorder_point : nat → nat
}.

(** The tuple [rule] of one iteration. *)
Definition generated_rule (rnd : RuleDraws) (i : nat) (product_id : Z)
    : ReplenishmentRule :=
  let case_size := PyGen.choice (draw_case_size rnd i) 0 [6; 12; 24] in
  let pack_size := PyGen.choice (draw_pack_size rnd i) 0 [1; 4; 6] in
  {| r_product_id := product_id;
     r_safety_stock := PyGen.randint (draw_safety_stock rnd i) 10 100;
     r_min_order_quantity :=
       PyGen.choice (draw_min_order_quantity rnd i) 0
         [1; case_size; case_size * 2];
     r_pack_size := pack_size;
     r_case_size := case_size;
     r_max_order_quantity := PyGen.randint (draw_max_order_quantity rnd i) 500 2000;
     r_reorder_point := PyGen.randint (draw_reorder_point rnd i) 50 200 |}.

(** [generate_replenishment_rules]: the table [replenishment_rules]
    after the script, from the table before it and the table [products]
    ([SELECT product_id FROM products WHERE is_active = TRUE]). *)
Definition generate_replenishment_rules (rnd : RuleDraws)
    (products : list Product) (table : list ReplenishmentRule)
    : list ReplenishmentRule :=
  match filter (λ p, p_is_active p = true) products with
  | [] => table
  | active =>
      insert_on_conflict_do_nothing r_product_id table
        (imap (λ i p, generated_rule rnd i (p_product_id p)) active)
  end.

(** ** [generate_stock.py] *)

(** [generate_stock_snapshot]: the files it writes, each with its name
    in the directory of the date and its records in the order of the
    lines, from the SKUs of the active products and the codes of the
    active warehouses.  [draw_available w p] and [draw_reserved w p] are
    the draws for warehouse number [w] and product number [p]. *)
Definition generate_stock_snapshot
    (draw_available draw_reserved : nat → nat → nat) (snapshot_date : string)
    (skus warehouse_codes : list string)
    : list (string * list StockRecord) :=
  match skus, warehouse_codes with
  | [], _ | _, [] => []
  | _, _ =>
      imap
        (λ w warehouse_code,
           (warehouse_code +:+ "_" +:+ snapshot_date +:+ ".json",
            imap
              (λ p sku,
                 let available_stock :=
                   PyGen.randint (draw_available w p) 0 500 in
                 let reserved_stock :=
                   PyGen.randint (draw_reserved w p) 0
                     (available_stock `min` 50) in
                 {| st_warehouse_code := warehouse_code;
                    st_sku := sku;
                    st_available_stock := available_stock;
                    st_reserved_stock := reserved_stock;
                    st_snapshot_date := snapshot_date |})
              skus))
        warehouse_codes
  end.

(** The levels of one generated stock record. *)
Definition stock_levels_ok (r : StockRecord) : Prop :=
  0 ≤ st_reserved_stock r ≤ st_available_stock r
  ∧ st_available_stock r ≤ 500 ∧ st_reserved_stock r ≤ 50.

(** The INSERT of [link_products_to_suppliers]:
    [INSERT INTO supplier_products ... ON CONFLICT (supplier_id,
    product_id) DO NOTHING], run for the list [mappings]. *)
Definition link_key (m : SupplierProduct) : Z * Z :=
  (sp_supplier_id m, sp_product_id m).

Definition insert_supplier_products (table mappings : list SupplierProduct)
    : list SupplierProduct :=
  insert_on_conflict_do_nothing link_key table mappings.

(** ** [generate_orders.py] *)

(** A line of an orders file; the price is the float made of the
    product's price. *)
Record OrderRecord (Float : Type) := {
  or_order_id : string;
  or_pos_store_id : string;
  or_sku : string;
  or_quantity : Z;
  or_order_date : string;
  or_unit_price : Float
}.
Arguments or_order_id {Float} _.
Arguments or_pos_store_id {Float} _.
Arguments or_sku {Float} _.
Arguments or_quantity {Float} _.
Arguments or_order_date {Float} _.
Arguments or_unit_price {Float} _.

(** The draws of one run of [generate_daily_orders]: per store, per
    store and order, and per store, order and item. *)
Record OrderDraws := {
  draw_num_orders : nat → nat;
  draw_num_items : nat → nat → nat;
  draw_selected : nat → nat → nat → nat;
  draw_quantity : nat → nat → nat → nat
}.

Definition order_id_of (order_date : string) (store_id order_num : nat)
    : string :=
  "ORD" +:+ PyText.replace "-" "" order_date
    +:+ PyGen.format_0d 3 store_id +:+ PyGen.format_0d 5 order_num.

(** The lines of one order. *)
Definition order_items {Price Float} (float : Price → Float)
    (rnd : OrderDraws) (order_date : string) (products : list (string * Price))
    (store_id order_num : nat) : list (OrderRecord Float) :=
  let store_code := "POS" +:+ PyGen.format_0d 3 store_id in
  let order_id := order_id_of order_date store_id order_num in
  let num_items :=
    Z.to_nat (PyGen.randint (draw_num_items rnd store_id order_num) 1 5) in
  let selected_products :=
    PyGen.sample (draw_selected rnd store_id order_num) products
      (num_items `min` length products) in
  imap
    (λ j product,
       {| or_order_id := order_id;
          or_pos_store_id := store_code;
          or_sku := product.1;
          or_quantity :=
            PyGen.randint (draw_quantity rnd store_id order_num j) 1 10;
          or_order_date := order_date;
          or_unit_price := float product.2 |})
    selected_products.

(** The list [orders] of one store. *)
Definition store_orders {Price Float} (float : Price → Float)
    (rnd : OrderDraws) (order_date : string) (products : list (string * Price))
    (store_id : nat) : list (OrderRecord Float) :=
  let num_orders :=
    Z.to_nat (PyGen.randint (draw_num_orders rnd store_id) 50 200) in
  mjoin (order_items float rnd order_date products store_id
           <$> seq 0 num_orders).

(** [generate_daily_orders]: the files it writes, each with its name in
    the directory of the date and its lines in order, from the SKUs and
    prices of the active products. *)
Definition generate_daily_orders {Price Float} (float : Price → Float)
    (rnd : OrderDraws) (order_date : string) (num_stores : Z)
    (products : list (string * Price))
    : list (string * list (OrderRecord Float)) :=
  match products with
  | [] => []
  | _ =>
      (λ store_id,
         ("POS" +:+ PyGen.format_0d 3 store_id +:+ "_" +:+ order_date
            +:+ ".json",
          store_orders float rnd order_date products store_id))
        <$> seq 1 (Z.to_nat num_stores)
  end.

(* ===================================================================== *)
(** * [analyze_data.py]: [format_csv_output] *)
(* ===================================================================== *)

Definition IndexError : string := "list index out of range".

(** [max(len(str(row[i])) for row in rows)]; [None] stands for the
    IndexError of a row without a field [i]. *)
Definition col_width (rows : list (list string)) (i : nat) : option nat :=
  lens ← mapM (λ row, PyText.len <$> row !! i) rows;
  Some (foldr Nat.max 0%nat lens).

(** [" | ".join(str(row[i]).ljust(col_widths[i]) for i in
    range(len(row)))], behind two spaces. *)
Definition table_line (col_widths : list nat) (row : list string)
    : option string :=
  cells ← mapM (λ i, s ← row !! i; w ← col_widths !! i;
                     Some (PyText.ljust w s))
             (seq 0 (length row));
  Some ("  " +:+ PyText.join " | " cells).

(** ["-+-".join("-" * col_widths[i] for i in range(len(header)))],
    behind two spaces. *)
Definition rule_line (col_widths : list nat) (header : list string)
    : option string :=
  cells ← mapM (λ i, w ← col_widths !! i; Some (PyText.times "-" w))
             (seq 0 (length header));
  Some ("  " +:+ PyText.join "-+-" cells).

(** The loop over [data_rows]: what it prints, and how it ends. *)
Fixpoint print_rows (col_widths : list nat) (data_rows : list (list string))
    : list string * outcome () :=
  match data_rows with
  | [] => ([], Returned ())
  | row :: data_rows' =>
      match table_line col_widths row with
      | None => ([], Raised IndexError)
      | Some line =>
          let rest := print_rows col_widths data_rows' in
          (line :: rest.1, rest.2)
      end
  end.

(** [format_csv_output(csv_data, max_rows)]: the texts it prints, one
    per call of [print], and how it ends.  [csv_data] is [None] or a
    text. *)
Definition format_csv_output (csv_data : option string) (max_rows : nat)
    : list string * outcome () :=
  match csv_data with
  | None | Some EmptyString => (["  No data"], Returned ())
  | Some csv_data =>
      let lines := Py.split PrestoCli.LF (PyText.strip csv_data) in
      let rows := Py.split "," <$> lines in
      match rows with
      | [] => ([], Returned ())
      | header :: _ =>
          match mapM (col_width rows) (seq 0 (length header)) with
          | None => ([], Raised IndexError)
          | Some col_widths =>
          match table_line col_widths header with
          | None => ([], Raised IndexError)
          | Some header_line =>
          match rule_line col_widths header with
          | None => ([String PrestoCli.LF header_line], Raised IndexError)
          | Some rule =>
              let top := [String PrestoCli.LF header_line; rule] in
              let data_rows := take max_rows (drop 1 rows) in
              let printed := print_rows col_widths data_rows in
              match printed.2 with
              | Raised msg => (top ++ printed.1, Raised msg)
              | Returned _ =>
                  if decide (max_rows + 1 < length rows)%nat
                  then (top ++ printed.1
                          ++ [String PrestoCli.LF
                                ("  ... and "
                                   +:+ PyGen.str_of_nat
                                         (length rows - max_rows - 1)
                                   +:+ " more rows")],
                        Returned ())
                  else (top ++ printed.1, Returned ())
              end
          end
          end
          end
      end
  end.

(* ===================================================================== *)
(** * Joins and aggregates *)
(* ===================================================================== *)

Section JoinFacts.
Context {A B : Type}.
Variable on : A → B → Prop.
Context `{!∀ a b, Decision (on a b)}.

Lemma elem_of_inner_join (l : list A) (r : list B) a b :
  (a, b) ∈ Sql.inner_join on l r ↔ a ∈ l ∧ b ∈ r ∧ on a b.
Proof.
  unfold Sql.inner_join. rewrite list_elem_of_bind. split.
  - intros (a' & Hin & Ha'). apply list_elem_of_fmap in Hin as (b' & Heq & Hb').
    apply list_elem_of_filter in Hb' as [Hon Hb']. by simplify_eq.
  - intros (Ha & Hb & Hon). exists a. split; [|done].
    apply list_elem_of_fmap. exists b. split; [done|].
    by apply list_elem_of_filter.
Qed.

Lemma inner_join_cons a (l : list A) (r : list B) :
  Sql.inner_join on (a :: l) r
  = ((λ b, (a, b)) <$> filter (on a) r) ++ Sql.inner_join on l r.
Proof. reflexivity. Qed.

Lemma inner_join_Permutation (l l' : list A) (r r' : list B) :
  l ≡ₚ l' → r ≡ₚ r' → Sql.inner_join on l r ≡ₚ Sql.inner_join on l' r'.
Proof.
  intros Hl Hr. unfold Sql.inner_join. rewrite <- Hl. clear Hl l'.
  induction l as [|a l IH]; [done|].
  rewrite !bind_cons. by rewrite IH, Hr.
Qed.

(** A LEFT JOIN in which every left row has exactly one answer on the
    right (a partner or NULL) keeps the left rows as they are. *)
Lemma left_join_functional (g : A → option B) (l : list A) (r : list B) :
  (∀ a, a ∈ l → Sql.partners_or_null (filter (on a) r) = [g a]) →
  Sql.left_join on l r = (λ a, (a, g a)) <$> l.
Proof.
  unfold Sql.left_join. induction l as [|a l IH]; intros Hg; [done|].
  rewrite bind_cons, fmap_cons, Hg by left. simpl. f_equal.
  apply IH. intros a' Ha'. apply Hg. by right.
Qed.
End JoinFacts.

(** Looking a key up in the result of a GROUP BY: the group of the key,
    if the key occurs at all. *)
Lemma group_by_partners {A K R} `{EqDecision K}
    (key : A → K) (agg : K → list A → R) (rkey : R → K) (l : list A) k :
  (∀ k' rows, rkey (agg k' rows) = k') →
  filter (λ g, k = rkey g) (Sql.group_by key agg l)
  = if decide (k ∈ key <$> l)
    then [agg k (filter (λ a, key a = k) l)] else [].
Proof.
  intros Hkey. unfold Sql.group_by.
  pose proof (NoDup_remove_dups (key <$> l)) as Hnd.
  rewrite <- (decide_ext (k ∈ remove_dups (key <$> l)) (k ∈ key <$> l))
    by apply elem_of_remove_dups.
  induction Hnd as [|x ks Hx Hks IH]; [done|].
  rewrite fmap_cons, filter_cons. rewrite Hkey.
  destruct (decide (k = x)) as [->|Hne].
  - rewrite IH, (decide_False (P := x ∈ ks)) by done.
    by rewrite decide_True by left.
  - rewrite IH. destruct (decide (k ∈ ks)) as [Hk|Hk].
    + by rewrite decide_True by (by right).
    + rewrite decide_False; [done|]. by intros [?|?]%elem_of_cons.
Qed.

Lemma filter_none {A} (P : A → Prop) `{!∀ a, Decision (P a)} (l : list A) :
  (∀ a, a ∈ l → ¬ P a) → filter P l = [].
Proof.
  induction l as [|a l IH]; intros Hl; [done|].
  rewrite filter_cons_False by (apply Hl; left).
  apply IH. intros ??. apply Hl. by right.
Qed.

Lemma filter_all {A} (P : A → Prop) `{!∀ a, Decision (P a)} (l : list A) :
  (∀ a, a ∈ l → P a) → filter P l = l.
Proof.
  induction l as [|a l IH]; intros Hl; [done|].
  rewrite filter_cons_True by (apply Hl; left).
  f_equal. apply IH. intros ??. apply Hl. by right.
Qed.

Lemma filter_nil_not_in {A K} `{EqDecision K} (key : A → K) (l : list A) k :
  k ∉ key <$> l → filter (λ a, key a = k) l = [].
Proof.
  intros Hk. induction l as [|a l IH]; [done|].
  rewrite filter_cons, decide_False.
  - apply IH. intros ?. apply Hk. by right.
  - intros <-. apply Hk. left.
Qed.

Lemma filter_fmap {A B} (f : A → B) (P : B → Prop) `{!∀ b, Decision (P b)}
    (l : list A) :
  filter P (f <$> l) = f <$> filter (λ a, P (f a)) l.
Proof.
  induction l as [|a l IH]; [done|].
  rewrite fmap_cons, !filter_cons.
  destruct (decide (P (f a))); by rewrite IH.
Qed.

(* ===================================================================== *)
(** * Net demand: the query computes the entry of every active product
      with a rule *)
(* ===================================================================== *)

(** The aggregate of the orders of a SKU, as the LEFT JOIN sees it. *)
Lemma orders_by_sku_partners ol sku :
  filter (λ o, sku = o_sku o) (orders_by_sku ol)
  = if decide (sku ∈ ol_sku <$> ol)
    then [{| o_sku := sku; o_total_quantity := aggregated_orders ol sku |}]
    else [].
Proof.
  unfold orders_by_sku. by rewrite (group_by_partners _ _ o_sku).
Qed.

Lemma stock_by_sku_partners st sku :
  filter (λ s, sku = stk_sku s) (stock_by_sku st)
  = if decide (sku ∈ st_sku <$> st)
    then [{| stk_sku := sku;
             stk_total_available := total_available st sku;
             stk_total_reserved := total_reserved st sku |}]
    else [].
Proof.
  unfold stock_by_sku. by rewrite (group_by_partners _ _ stk_sku).
Qed.

Lemma aggregated_orders_absent ol sku :
  sku ∉ ol_sku <$> ol → aggregated_orders ol sku = 0.
Proof.
  intros H. unfold aggregated_orders. by rewrite filter_nil_not_in.
Qed.

Lemma total_available_absent st sku :
  sku ∉ st_sku <$> st → total_available st sku = 0.
Proof.
  intros H. unfold total_available. by rewrite filter_nil_not_in.
Qed.

Lemma total_reserved_absent st sku :
  sku ∉ st_sku <$> st → total_reserved st sku = 0.
Proof.
  intros H. unfold total_reserved. by rewrite filter_nil_not_in.
Qed.


Lemma net_demand_query_entries pg ol st :
  net_demand_query pg ol st
  = (λ pr, net_demand_entry ol st pr.1 pr.2)
      <$> active_products_with_rules pg.
Proof.
  unfold net_demand_query, active_products_with_rules.
  set (p_r := Sql.inner_join _ (products pg) (replenishment_rules pg)).
  cbv zeta.
  rewrite (left_join_functional _
    (λ pr, if decide (p_sku pr.1 ∈ ol_sku <$> ol)
           then Some {| o_sku := p_sku pr.1;
                        o_total_quantity := aggregated_orders ol (p_sku pr.1) |}
           else None)).
  2:{ intros pr _. rewrite orders_by_sku_partners. by case_decide. }
  rewrite (left_join_functional _
    (λ pro, if decide (p_sku pro.1.1 ∈ st_sku <$> st)
            then Some {| stk_sku := p_sku pro.1.1;
                         stk_total_available := total_available st (p_sku pro.1.1);
                         stk_total_reserved := total_reserved st (p_sku pro.1.1) |}
            else None)).
  2:{ intros pro _. rewrite stock_by_sku_partners. by case_decide. }
  rewrite !filter_fmap, <- !list_fmap_compose. simpl.
  apply list_fmap_ext. intros _ [p r] _. simpl.
  unfold select_net_demand, net_demand_entry, Sql.coalesce, Sql.greatest.
  destruct (decide (p_sku p ∈ ol_sku <$> ol)) as [?|Ho];
    destruct (decide (p_sku p ∈ st_sku <$> st)) as [?|Hs]; simpl;
    rewrite ?(aggregated_orders_absent _ _ Ho),
      ?(total_available_absent _ _ Hs), ?(total_reserved_absent _ _ Hs);
    reflexivity.
Qed.

Lemma elem_of_active_products_with_rules pg p r :
  (p, r) ∈ active_products_with_rules pg
  ↔ p ∈ products pg ∧ r ∈ replenishment_rules pg
    ∧ p_is_active p = true ∧ p_product_id p = r_product_id r.
Proof.
  unfold active_products_with_rules.
  rewrite list_elem_of_filter, elem_of_inner_join. simpl. tauto.
Qed.

Lemma elem_of_net_demand_query pg ol st nd :
  nd ∈ net_demand_query pg ol st
  ↔ ∃ p r, nd = net_demand_entry ol st p r
           ∧ p ∈ products pg ∧ r ∈ replenishment_rules pg
           ∧ p_is_active p = true ∧ p_product_id p = r_product_id r.
Proof.
  rewrite net_demand_query_entries, list_elem_of_fmap. split.
  - intros ([p r] & -> & H%elem_of_active_products_with_rules). eauto.
  - intros (p & r & -> & H). exists (p, r). split; [done|].
    by apply elem_of_active_products_with_rules.
Qed.

(** C1. For every active product with a replenishment rule the net-demand
    query holds an entry whose net demand is
    max(aggregated_orders + safety_stock - (total_available -
    total_reserved), 0), the three aggregates being the sums over the
    day's order lines and stock records of the SKU (0 without any).  No
    entry has a negative net demand, and without orders and stock the net
    demand is the (non-negative) safety stock. *)
Theorem net_demand_formula pg ol st p r :
  p ∈ products pg → r ∈ replenishment_rules pg →
  p_is_active p = true → p_product_id p = r_product_id r →
  (∃ nd, nd ∈ net_demand_query pg ol st
     ∧ nd_sku nd = p_sku p
     ∧ nd_safety_stock nd = r_safety_stock r
     ∧ nd_aggregated_orders nd = aggregated_orders ol (p_sku p)
     ∧ nd_available_stock nd = total_available st (p_sku p)
     ∧ nd_reserved_stock nd = total_reserved st (p_sku p)
     ∧ nd_net_demand nd
       = Z.max (nd_aggregated_orders nd + nd_safety_stock nd
                  - (nd_available_stock nd - nd_reserved_stock nd)) 0
     ∧ ((∀ l, l ∈ ol → ol_sku l ≠ p_sku p) → nd_aggregated_orders nd = 0)
     ∧ ((∀ x, x ∈ st → st_sku x ≠ p_sku p) →
          nd_available_stock nd = 0 ∧ nd_reserved_stock nd = 0)
     ∧ ((∀ l, l ∈ ol → ol_sku l ≠ p_sku p) →
        (∀ x, x ∈ st → st_sku x ≠ p_sku p) →
        0 ≤ r_safety_stock r →
        nd_net_demand nd = r_safety_stock r))
  ∧ (∀ nd, nd ∈ net_demand_query pg ol st → 0 ≤ nd_net_demand nd).
Proof.
  intros Hp Hr Hact Hid. split.
  - exists (net_demand_entry ol st p r).
    assert (Ho : (∀ l, l ∈ ol → ol_sku l ≠ p_sku p) →
                 aggregated_orders ol (p_sku p) = 0).
    { intros H. apply aggregated_orders_absent.
      intros (l & Heq & Hl)%list_elem_of_fmap. by apply (H l). }
    assert (Hs : (∀ x, x ∈ st → st_sku x ≠ p_sku p) →
                 total_available st (p_sku p) = 0
                 ∧ total_reserved st (p_sku p) = 0).
    { intros H.
      assert (p_sku p ∉ st_sku <$> st).
      { intros (x & Heq & Hx)%list_elem_of_fmap. by apply (H x). }
      split; [by apply total_available_absent|by apply total_reserved_absent]. }
    split; [apply elem_of_net_demand_query; eauto 10|].
    simpl. split_and!; try done.
    intros H1 H2 H3. destruct (Hs H2) as [-> ->]. rewrite (Ho H1). lia.
  - intros nd (p' & r' & -> & _)%elem_of_net_demand_query. simpl. lia.
Qed.

Lemma net_demand_formula_witness :
  (∃ nd, nd ∈ net_demand_query (Sample.milk_from_acme 12)
                [Sample.order "SKU00001" 100] [Sample.snapshot "SKU00001" 60 10]
         ∧ nd_sku nd = "SKU00001" ∧ nd_net_demand nd = 70)
  ∧ (∃ nd, nd ∈ net_demand_query (Sample.milk_from_acme 12) [] []
           ∧ nd_sku nd = "SKU00001" ∧ nd_net_demand nd = 20).
Proof.
  split.
  - destruct (net_demand_formula (Sample.milk_from_acme 12)
                [Sample.order "SKU00001" 100] [Sample.snapshot "SKU00001" 60 10]
                Sample.milk (Sample.rule 1 20 12))
      as [(nd & Hin & Hsku & Hss & Hao & Hav & Hrs & Hnd & _) _].
    + left.
    + left.
    + reflexivity.
    + reflexivity.
    + exists nd. split; [exact Hin|]. split; [exact Hsku|].
      rewrite Hnd, Hao, Hss, Hav, Hrs. reflexivity.
  - destruct (net_demand_formula (Sample.milk_from_acme 12) [] []
                Sample.milk (Sample.rule 1 20 12))
      as [(nd & Hin & Hsku & _ & _ & _ & _ & _ & _ & _ & Hsafety) _].
    + left.
    + left.
    + reflexivity.
    + reflexivity.
    + exists nd. split; [exact Hin|]. split; [exact Hsku|].
      apply Hsafety.
      * intros l Hl. inversion Hl.
      * intros x Hx. inversion Hx.
      * discriminate.
Defined.

(* ===================================================================== *)
(** * Net demand: which products get an entry *)
(* ===================================================================== *)

Lemma entries_of_other_sku pg p l :
  p_sku p ∉ p_sku <$> l → entries_of pg p l = [].
Proof.
  intros Hp. unfold entries_of. apply filter_none.
  intros [a r] [Ha _]%elem_of_inner_join [Heq _]. simpl in Heq.
  apply Hp. rewrite <- Heq. by apply list_elem_of_fmap_2.
Qed.

Lemma entries_of_product pg p l :
  NoDup (p_sku <$> l) → p ∈ l →
  entries_of pg p l
  = if decide (p_is_active p = true) then rules_of pg p else [].
Proof.
  intros Hnd Hp. induction l as [|a l IH]; [by inv Hp|].
  rewrite fmap_cons in Hnd. apply NoDup_cons in Hnd as [Ha Hnd].
  unfold entries_of. rewrite inner_join_cons, filter_app.
  fold (entries_of pg p l). fold (rules_of pg a).
  apply elem_of_cons in Hp as [<-|Hp].
  - rewrite entries_of_other_sku, app_nil_r by done.
    case_decide as Hact.
    + apply filter_all. by intros [a r] (r' & [= -> ->] & _)%list_elem_of_fmap.
    + apply filter_none.
      intros [a r] (r' & [= -> ->] & _)%list_elem_of_fmap [_ ?]. done.
  - rewrite IH by done. rewrite filter_none; [done|].
    intros [a' r] (r' & [= -> ->] & _)%list_elem_of_fmap [Heq _].
    simpl in Heq. apply Ha. rewrite Heq. by apply list_elem_of_fmap_2.
Qed.

Lemma length_filter_key_NoDup {A K} `{EqDecision K} (key : A → K) l k :
  NoDup (key <$> l) → (length (filter (λ x, k = key x) l) ≤ 1)%nat.
Proof.
  induction l as [|a l IH]; intros Hnd; [simpl; lia|].
  rewrite fmap_cons in Hnd. apply NoDup_cons in Hnd as [Ha Hnd].
  rewrite filter_cons. case_decide as Hk; [|by apply IH].
  rewrite filter_none; [simpl; lia|].
  intros x Hx Hkx. apply Ha. rewrite <- Hk, Hkx. by apply list_elem_of_fmap_2.
Qed.

Lemma net_demand_entries_of_sku pg ol st p :
  filter (λ nd, nd_sku nd = p_sku p) (net_demand_query pg ol st)
  = (λ pr, net_demand_entry ol st pr.1 pr.2)
      <$> filter (λ pr, p_sku pr.1 = p_sku p ∧ p_is_active pr.1 = true)
            (Sql.inner_join (λ p r, p_product_id p = r_product_id r)
               (products pg) (replenishment_rules pg)).
Proof.
  rewrite net_demand_query_entries, filter_fmap. simpl.
  unfold active_products_with_rules. by rewrite list_filter_filter.
Qed.

Lemma net_demand_entries_of_product pg ol st p :
  filter (λ nd, nd_sku nd = p_sku p) (net_demand_query pg ol st)
  = (λ pr, net_demand_entry ol st pr.1 pr.2)
      <$> entries_of pg p (products pg).
Proof. apply net_demand_entries_of_sku. Qed.

(** C4. With SKUs unique among the products and one rule at most per
    product, the net-demand query holds exactly one entry for an active
    product that has a rule, none for a product without a rule and none
    for an inactive product, whatever the orders and the stock are; and
    every entry belongs to an active product with a rule. *)
Theorem one_entry_per_active_product_with_rule pg ol st p :
  NoDup (p_sku <$> products pg) →
  NoDup (r_product_id <$> replenishment_rules pg) →
  p ∈ products pg →
  let entries := filter (λ nd, nd_sku nd = p_sku p) (net_demand_query pg ol st) in
  (p_is_active p = true → has_rule pg p → length entries = 1%nat)
  ∧ (¬ has_rule pg p → entries = [])
  ∧ (p_is_active p = false → entries = [])
  ∧ (∀ nd, nd ∈ net_demand_query pg ol st →
       ∃ p', p' ∈ products pg ∧ p_sku p' = nd_sku nd
             ∧ p_is_active p' = true ∧ has_rule pg p').
Proof.
  intros Hsku Hrule Hp entries. subst entries.
  rewrite net_demand_entries_of_product, entries_of_product by done.
  unfold rules_of. split_and!.
  - intros Hact (r & Hr & Hid). rewrite decide_True by done.
    rewrite !length_fmap.
    pose proof (length_filter_key_NoDup r_product_id (replenishment_rules pg)
                  (p_product_id p) Hrule) as Hle.
    assert (r ∈ filter (λ r, p_product_id p = r_product_id r)
                  (replenishment_rules pg)) as Hin
      by (by apply list_elem_of_filter).
    destruct (filter _ (replenishment_rules pg)) as [|? [|??]];
      simpl in *; [by inv Hin|done|lia].
  - intros Hno. case_decide; [|done].
    rewrite filter_none; [done|]. intros r Hr Hid. apply Hno. by exists r.
  - intros Hact. rewrite decide_False; [done|]. by rewrite Hact.
  - intros nd (p' & r & -> & Hp' & Hr & Hact & Hid)%elem_of_net_demand_query.
    exists p'. split_and!; [done..|]. by exists r.
Qed.

Lemma one_entry_per_active_product_with_rule_witness :
  length (filter (λ nd, nd_sku nd = "SKU00001")
            (net_demand_query (Sample.milk_from_acme 12)
               [Sample.order "SKU00001" 100] [])) = 1%nat
  ∧ filter (λ nd, nd_sku nd = "SKU00003")
      (net_demand_query (Sample.milk_from_acme 12)
         [Sample.order "SKU00003" 100] [Sample.snapshot "SKU00003" 0 0]) = [].
Proof.
  split.
  - apply (one_entry_per_active_product_with_rule (Sample.milk_from_acme 12)
             [Sample.order "SKU00001" 100] [] Sample.milk).
    + compute_done.
    + compute_done.
    + left.
    + reflexivity.
    + exists (Sample.rule 1 20 12). split; [left|reflexivity].
  - apply (one_entry_per_active_product_with_rule (Sample.milk_from_acme 12)
             [Sample.order "SKU00003" 100] [Sample.snapshot "SKU00003" 0 0]
             Sample.retired_tea).
    + compute_done.
    + compute_done.
    + right. left.
    + reflexivity.
Defined.

(* ===================================================================== *)
(** * Case rounding *)
(* ===================================================================== *)

Lemma div_round_half_up_pos a b :
  0 ≤ a → 0 < b → div_round_half_up a b = (2 * a + b) / (2 * b).
Proof.
  intros Ha Hb. unfold div_round_half_up.
  rewrite (Z.abs_eq a), (Z.abs_eq b), (Z.sgn_pos b) by lia.
  destruct (decide (a = 0)) as [->|Hne].
  - simpl. symmetry. apply Z.div_small. lia.
  - rewrite Z.sgn_pos by lia. lia.
Qed.

(** Bounds of a floor quotient by a positive divisor. *)
Lemma div_bounds a b : 0 < b → b * (a / b) ≤ a < b * (a / b) + b.
Proof.
  intros Hb. pose proof (Z.mul_div_le a b Hb).
  pose proof (Z.mul_succ_div_gt a b Hb). lia.
Qed.

Lemma ceil_decimal1_bounds d :
  10 * (ceil_decimal1 d - 1) < d ≤ 10 * ceil_decimal1 d.
Proof.
  unfold ceil_decimal1. pose proof (div_bounds (- d) 10). lia.
Qed.

Lemma ceil_div_bounds n c :
  0 < c → c * (ceil_div n c - 1) < n ≤ c * ceil_div n c.
Proof.
  intros Hc. unfold ceil_div. pose proof (div_bounds (- n) c Hc). lia.
Qed.

(** The quantity the query computes for a positive case size: the
    quotient to one decimal, rounded half up, then raised to a whole
    number of cases. *)
Lemma order_quantity_pos n c :
  0 ≤ n → 1 ≤ c →
  order_quantity n c
  = cast_as_integer (ceil_decimal1 ((20 * n + c) / (2 * c)) * c).
Proof.
  intros Hn Hc. unfold order_quantity, decimal1_div_integer, times_1_0.
  rewrite decide_False by lia. simpl.
  rewrite div_round_half_up_pos by lia.
  by replace (2 * (n * 10) + c) with (20 * n + c) by lia.
Qed.

Lemma order_quantity_defined n c :
  0 ≤ n → 1 ≤ c → n + c ≤ INTEGER_MAX →
  ∃ q, order_quantity n c = Ok q ∧ 0 ≤ q < n + c.
Proof.
  intros Hn Hc Hmax. rewrite order_quantity_pos by done.
  set (q := (20 * n + c) / (2 * c)).
  pose proof (div_bounds (20 * n + c) (2 * c)) as Hq. fold q in Hq.
  pose proof (ceil_decimal1_bounds q) as Hk.
  set (k := ceil_decimal1 q) in *.
  assert (0 ≤ q) by (apply Z.div_pos; lia).
  assert (0 ≤ k * c < n + c) by nia.
  exists (k * c). split; [|done].
  unfold cast_as_integer. rewrite decide_True; [done|].
  unfold INTEGER_MIN, INTEGER_MAX in *. lia.
Qed.

(** Whatever the case size, a quantity that comes out of the query is a
    whole number of cases. *)
Lemma order_quantity_multiple n c q :
  order_quantity n c = Ok q → ∃ k, q = k * c.
Proof.
  unfold order_quantity, decimal1_div_integer, cast_as_integer.
  case_decide; [done|]. simpl. case_decide; [|done].
  intros [= <-]. eauto.
Qed.

(** Up to a case size of 20 one decimal is enough: the quantity is the
    least multiple of the case size that covers the demand. *)
Lemma order_quantity_exact n c :
  0 ≤ n → 1 ≤ c ≤ 20 → n + c ≤ INTEGER_MAX →
  order_quantity n c = Ok (round_up_to_case n c).
Proof.
  intros Hn Hc Hmax. rewrite order_quantity_pos by lia.
  set (q := (20 * n + c) / (2 * c)).
  pose proof (div_bounds (20 * n + c) (2 * c)) as Hq. fold q in Hq.
  pose proof (ceil_decimal1_bounds q) as Hk.
  pose proof (ceil_div_bounds n c) as Hm.
  unfold round_up_to_case.
  set (k := ceil_decimal1 q) in *. set (m := ceil_div n c) in *.
  assert (k = m) as -> by nia.
  unfold cast_as_integer. rewrite decide_True; [done|].
  unfold INTEGER_MIN, INTEGER_MAX in *. nia.
Qed.

(* ===================================================================== *)
(** * ORDER BY: the comparison of VARCHAR keys is a total order *)
(* ===================================================================== *)

Lemma ascii_compare_refl c : Ascii.compare c c = Eq.
Proof. unfold Ascii.compare. apply N.compare_refl. Qed.

Lemma ascii_compare_Lt_trans a b c :
  Ascii.compare a b = Lt → Ascii.compare b c = Lt → Ascii.compare a c = Lt.
Proof.
  unfold Ascii.compare. rewrite !N.compare_lt_iff. apply N.lt_trans.
Qed.

Lemma string_compare_refl s : String.compare s s = Eq.
Proof.
  induction s as [|c s IH]; [done|]. simpl. by rewrite ascii_compare_refl.
Qed.

Lemma string_compare_Lt_trans s1 s2 s3 :
  String.compare s1 s2 = Lt → String.compare s2 s3 = Lt →
  String.compare s1 s3 = Lt.
Proof.
  revert s2 s3. induction s1 as [|c1 s1 IH]; intros [|c2 s2] [|c3 s3];
    simpl; try done.
  destruct (Ascii.compare c1 c2) eqn:H12; try done;
    destruct (Ascii.compare c2 c3) eqn:H23; try done; intros Hs12 Hs23.
  - apply Ascii.compare_eq_iff in H12, H23. subst.
    rewrite ascii_compare_refl. by apply (IH s2).
  - apply Ascii.compare_eq_iff in H12. subst. by rewrite H23.
  - apply Ascii.compare_eq_iff in H23. subst. by rewrite H12.
  - by rewrite (ascii_compare_Lt_trans _ _ _ H12 H23).
Qed.

Lemma order_by_compare_antisym a b :
  order_by_compare a b = CompOpp (order_by_compare b a).
Proof.
  unfold order_by_compare.
  rewrite (String.compare_antisym (so_supplier_code a)),
    (String.compare_antisym (so_sku a)).
  by destruct (String.compare (so_supplier_code b) (so_supplier_code a)).
Qed.

Lemma order_by_compare_Eq a b :
  order_by_compare a b = Eq →
  so_supplier_code a = so_supplier_code b ∧ so_sku a = so_sku b.
Proof.
  unfold order_by_compare.
  destruct (String.compare (so_supplier_code a) _) eqn:Hc; try done.
  intros Hs. split; by apply String.compare_eq_iff.
Qed.

Lemma order_by_compare_same_key a b :
  so_supplier_code a = so_supplier_code b → so_sku a = so_sku b →
  order_by_compare a b = Eq.
Proof.
  unfold order_by_compare. intros -> ->. by rewrite !string_compare_refl.
Qed.

Lemma order_by_compare_Lt_trans a b c :
  order_by_compare a b = Lt → order_by_compare b c = Lt →
  order_by_compare a c = Lt.
Proof.
  unfold order_by_compare.
  destruct (String.compare (so_supplier_code a) (so_supplier_code b)) eqn:Hab;
    try done;
    destruct (String.compare (so_supplier_code b) (so_supplier_code c)) eqn:Hbc;
    try done; intros H1 H2.
  - apply String.compare_eq_iff in Hab, Hbc. rewrite Hab, Hbc.
    rewrite string_compare_refl. by apply (string_compare_Lt_trans _ (so_sku b)).
  - apply String.compare_eq_iff in Hab. by rewrite Hab, Hbc.
  - apply String.compare_eq_iff in Hbc. by rewrite <- Hbc, Hab.
  - by rewrite (string_compare_Lt_trans _ _ _ Hab Hbc).
Qed.

Global Instance order_by_le_total : Total order_by_le.
Proof.
  intros a b. unfold order_by_le. rewrite (order_by_compare_antisym b a).
  destruct (order_by_compare a b); simpl; auto.
Qed.

Global Instance order_by_le_trans : Transitive order_by_le.
Proof.
  intros a b c. unfold order_by_le. intros Hab Hbc.
  destruct (order_by_compare a b) eqn:H1; [| |done];
    destruct (order_by_compare b c) eqn:H2; try done.
  - apply order_by_compare_Eq in H1 as [? ?], H2 as [? ?].
    rewrite order_by_compare_same_key; [done|congruence..].
  - apply order_by_compare_Eq in H1 as [E1 E2].
    unfold order_by_compare in *. rewrite E1, E2. by rewrite H2.
  - apply order_by_compare_Eq in H2 as [E1 E2].
    unfold order_by_compare in *. rewrite <- E1, <- E2. by rewrite H1.
  - by rewrite (order_by_compare_Lt_trans _ _ _ H1 H2).
Qed.

(** Two rows that may each come before the other carry the same key. *)
Lemma order_by_le_tie a b :
  order_by_le a b → order_by_le b a →
  so_supplier_code a = so_supplier_code b ∧ so_sku a = so_sku b.
Proof.
  unfold order_by_le. rewrite (order_by_compare_antisym b a).
  intros H1 H2. apply order_by_compare_Eq.
  by destruct (order_by_compare a b).
Qed.

(* ===================================================================== *)
(** * Queries that may fail *)
(* ===================================================================== *)

Lemma traverse_Ok_fmap {A B} (f : A → query B) (g : A → B) l :
  (∀ a, a ∈ l → f a = Ok (g a)) → traverse f l = Ok (g <$> l).
Proof.
  induction l as [|a l IH]; intros Hl; [done|].
  simpl. rewrite Hl by left. simpl. rewrite IH; [done|].
  intros ??. apply Hl. by right.
Qed.

Lemma traverse_Failed {A B} (f : A → query B) l a e :
  a ∈ l → f a = Failed e → ∃ e', traverse f l = Failed e'.
Proof.
  induction l as [|x l IH]; intros Ha Hf; [by inv Ha|].
  simpl. destruct (f x) as [b|e0] eqn:Hx; simpl; [|eauto].
  apply elem_of_cons in Ha as [->|Ha]; [congruence|].
  destruct (IH Ha Hf) as [e' ->]. simpl. eauto.
Qed.

Lemma traverse_Ok_inv {A B} (f : A → query B) l bs a :
  traverse f l = Ok bs → a ∈ l → ∃ b, f a = Ok b ∧ b ∈ bs.
Proof.
  revert bs. induction l as [|x l IH]; intros bs Hl Ha; [by inv Ha|].
  simpl in Hl. destruct (f x) as [b|] eqn:Hx; simpl in Hl; [|done].
  destruct (traverse f l) as [bs'|] eqn:Hl'; simpl in Hl; [|done].
  injection Hl as <-.
  apply elem_of_cons in Ha as [->|Ha].
  - exists b. split; [done|left].
  - destruct (IH bs' eq_refl Ha) as (b' & ? & ?). exists b'. split; [done|by right].
Qed.

Lemma select_supplier_order_defined s n :
  0 < nd_net_demand n → 1 ≤ nd_case_size n →
  nd_net_demand n + nd_case_size n ≤ INTEGER_MAX →
  select_supplier_order s n = Ok (supplier_order_line s n).
Proof.
  intros Hn Hc Hmax. unfold select_supplier_order, supplier_order_line.
  unfold the_order_quantity.
  destruct (order_quantity_defined (nd_net_demand n) (nd_case_size n))
    as (q & -> & _); [lia|done..].
Qed.

(* ===================================================================== *)
(** * Supplier orders: the rows of the query *)
(* ===================================================================== *)

Lemma elem_of_supplier_orders_rows pg nd n p sp s :
  (n, p, sp, s) ∈ supplier_orders_rows pg nd
  ↔ n ∈ nd ∧ p ∈ products pg ∧ sp ∈ supplier_products pg ∧ s ∈ suppliers pg
    ∧ nd_sku n = p_sku p ∧ p_product_id p = sp_product_id sp
    ∧ sp_supplier_id sp = s_supplier_id s
    ∧ sp_is_primary_supplier sp = true ∧ 0 < nd_net_demand n.
Proof.
  unfold supplier_orders_rows.
  rewrite list_elem_of_filter, !elem_of_inner_join. simpl. tauto.
Qed.

Lemma elem_of_primary_supplier_links pg sku p sp s :
  (p, sp, s) ∈ primary_supplier_links pg sku
  ↔ p ∈ products pg ∧ sp ∈ supplier_products pg ∧ s ∈ suppliers pg
    ∧ sku = p_sku p ∧ p_product_id p = sp_product_id sp
    ∧ sp_supplier_id sp = s_supplier_id s
    ∧ sp_is_primary_supplier sp = true.
Proof.
  unfold primary_supplier_links.
  rewrite list_elem_of_filter, !elem_of_inner_join, list_elem_of_filter.
  simpl. tauto.
Qed.

Section JoinShape.
Context {A B : Type}.
Variable on : A → B → Prop.
Context `{!∀ a b, Decision (on a b)}.

Lemma inner_join_app (l1 l2 : list A) (r : list B) :
  Sql.inner_join on (l1 ++ l2) r
  = Sql.inner_join on l1 r ++ Sql.inner_join on l2 r.
Proof. unfold Sql.inner_join. apply bind_app. Qed.

Lemma inner_join_nil (r : list B) : Sql.inner_join on [] r = [].
Proof. reflexivity. Qed.

(** Tagging the left rows commutes with a join whose condition does not
    look at the tag. *)
Lemma inner_join_fmap {A'} (f : A' → A) (l : list A') (r : list B) :
  Sql.inner_join on (f <$> l) r
  = (λ x, (f x.1, x.2)) <$> Sql.inner_join (λ a b, on (f a) b) l r.
Proof.
  induction l as [|a l IH]; [done|].
  rewrite fmap_cons, !inner_join_cons, fmap_app, IH. f_equal.
  by rewrite <- list_fmap_compose.
Qed.
End JoinShape.

Lemma supplier_orders_rows_cons pg n nd :
  supplier_orders_rows pg (n :: nd)
  = supplier_orders_rows pg [n] ++ supplier_orders_rows pg nd.
Proof.
  unfold supplier_orders_rows.
  rewrite (inner_join_cons _ n nd), (inner_join_cons _ n []).
  rewrite inner_join_nil, app_nil_r.
  by rewrite !inner_join_app, filter_app.
Qed.

(** The rows of one NetDemand entry: its primary-supplier links, if it
    asks for replenishment. *)
Lemma supplier_orders_rows_single pg n :
  supplier_orders_rows pg [n]
  = if decide (0 < nd_net_demand n)
    then (λ x, (n, x.1.1, x.1.2, x.2)) <$> primary_supplier_links pg (nd_sku n)
    else [].
Proof.
  unfold supplier_orders_rows, primary_supplier_links.
  rewrite (inner_join_cons _ n []), inner_join_nil, app_nil_r.
  rewrite inner_join_fmap, inner_join_fmap.
  rewrite filter_fmap. simpl.
  case_decide as Hpos.
  - f_equal. apply list_filter_iff. intros x. tauto.
  - rewrite filter_none; [done|]. intros x _ [_ ?]. done.
Qed.

Lemma length_rows_of_sku pg nd sku :
  length (filter (λ row, nd_sku row.1.1.1 = sku) (supplier_orders_rows pg nd))
  = (length (positive_entries sku nd)
     * length (primary_supplier_links pg sku))%nat.
Proof.
  unfold positive_entries. induction nd as [|n nd IH]; [done|].
  rewrite supplier_orders_rows_cons, filter_app, length_app, IH.
  rewrite supplier_orders_rows_single, (filter_cons _ n).
  destruct (decide (0 < nd_net_demand n)) as [Hpos|Hpos].
  - rewrite filter_fmap. simpl. destruct (decide (nd_sku n = sku)) as [<-|Hne].
    + rewrite decide_True by done. rewrite filter_all by done.
      rewrite length_fmap. simpl. lia.
    + rewrite decide_False by tauto. by rewrite filter_none.
  - rewrite decide_False by tauto. done.
Qed.

(* ===================================================================== *)
(** * Supplier orders: the answer of the query *)
(* ===================================================================== *)

Lemma supplier_orders_query_defined pg nd :
  rounding_defined nd →
  supplier_orders_query pg nd
  = Ok (merge_sort order_by_le
          ((λ row, supplier_order_line row.2 row.1.1.1)
             <$> supplier_orders_rows pg nd)).
Proof.
  intros Hdef. unfold supplier_orders_query.
  rewrite (traverse_Ok_fmap _ (λ row, supplier_order_line row.2 row.1.1.1));
    [done|].
  intros [[[n p] sp] s] Hrow. simpl.
  apply elem_of_supplier_orders_rows in Hrow as (Hn & _ & _ & _ & _ & _ & _ & _ & Hpos).
  destruct (Hdef n Hn Hpos). by apply select_supplier_order_defined.
Qed.

Lemma supplier_orders_query_lines pg nd lines :
  supplier_orders_query pg nd = Ok lines →
  lines
  = merge_sort order_by_le
      ((λ row, supplier_order_line row.2 row.1.1.1)
         <$> supplier_orders_rows pg nd).
Proof.
  unfold supplier_orders_query.
  destruct (traverse _ _) as [ls|] eqn:Htr; simpl; [|done].
  intros [= <-]. f_equal.
  revert ls Htr. induction (supplier_orders_rows pg nd) as [|row rows IH];
    intros ls Htr; simpl in Htr; [by injection Htr as <-|].
  destruct (select_supplier_order _ _) as [l|] eqn:Hsel; simpl in Htr; [|done].
  destruct (traverse _ rows) as [ls'|]; simpl in Htr; [|done].
  injection Htr as <-. rewrite fmap_cons, <- (IH ls' eq_refl). f_equal.
  unfold select_supplier_order in Hsel.
  unfold supplier_order_line, the_order_quantity.
  destruct (order_quantity _ _); simpl in Hsel; [|done].
  by injection Hsel as <-.
Qed.

Lemma length_lines_of_sku pg nd lines sku :
  supplier_orders_query pg nd = Ok lines →
  length (lines_of_sku sku lines)
  = (length (positive_entries sku nd)
     * length (primary_supplier_links pg sku))%nat.
Proof.
  intros ->%supplier_orders_query_lines. unfold lines_of_sku.
  rewrite merge_sort_Permutation, filter_fmap, length_fmap. simpl.
  apply length_rows_of_sku.
Qed.

Lemma supplier_orders_query_sorted pg nd lines :
  supplier_orders_query pg nd = Ok lines →
  StronglySorted order_by_le lines.
Proof.
  intros ->%supplier_orders_query_lines.
  apply StronglySorted_merge_sort; apply _.
Qed.

Lemma generate_supplier_orders_Returned presto_stderr pg hive nd lines :
  net_demand hive = Some nd → supplier_orders_query pg nd = Ok lines →
  generate_supplier_orders presto_stderr pg hive = Returned lines.
Proof. unfold generate_supplier_orders. by intros -> ->. Qed.

Lemma generate_supplier_orders_Raised presto_stderr pg hive nd e :
  net_demand hive = Some nd → supplier_orders_query pg nd = Failed e →
  generate_supplier_orders presto_stderr pg hive
  = Raised ("Supplier order generation failed: " +:+ presto_stderr e).
Proof. unfold generate_supplier_orders. by intros -> ->. Qed.

Lemma filter_nonempty {A} (P : A → Prop) `{!∀ a, Decision (P a)} (l : list A) :
  filter P l ≠ [] ↔ ∃ a, a ∈ l ∧ P a.
Proof.
  split.
  - destruct (filter P l) as [|a l'] eqn:Hf; [done|]. intros _.
    assert (a ∈ filter P l) as [? ?]%list_elem_of_filter by (rewrite Hf; left).
    eauto.
  - intros (a & Ha & HP) Hf.
    assert (a ∈ filter P l) as Hin by (by apply list_elem_of_filter).
    rewrite Hf in Hin. by inv Hin.
Qed.

Lemma length_nonzero {A} (l : list A) : length l ≠ 0%nat ↔ l ≠ [].
Proof. by destruct l. Qed.

(** The end-to-end run: what the order task returns. *)
Lemma run_dag_supplier_orders presto_stderr pg hive :
  run_supplier_orders (run_dag presto_stderr pg hive)
  = generate_supplier_orders presto_stderr pg (calculate_net_demand pg hive).1.
Proof.
  unfold run_dag. simpl.
  by destruct (generate_supplier_orders _ _).
Qed.

(* ===================================================================== *)
(** * Supplier orders: the claims *)
(* ===================================================================== *)

(** C2 (the code departs from it). With a case size of 24 and a net demand
    of 25 (5 ordered, safety stock 20, no stock) the run orders 24 units:
    one case, less than the demand, where rounding up to full cases asks
    for 48.  The quotient 25 / 24 = 1.0416.. is kept to one decimal, 1.0,
    before CEIL sees it. *)
Theorem case_rounding_under_delivers :
  run_supplier_orders
    (run_dag Sample.presto_stderr (Sample.milk_from_acme 24)
       (Sample.day [Sample.order "SKU00001" 5] []))
  = Returned
      [{| so_supplier_code := "SUP001";
          so_supplier_name := "Acme Dairy Products";
          so_sku := "SKU00001";
          so_product_name := "Dairy Milk";
          so_net_demand := 25;
          so_case_size := 24;
          so_order_quantity := 24 |}]
  ∧ round_up_to_case 25 24 = 48.
Proof. split; vm_compute; reflexivity. Qed.

(** C3, as stated, fails: with two primary-supplier links for the SKU the
    order task returns two lines for it and raises nothing; with no
    primary link (and a net demand of 70) it returns no line, and neither
    the order task nor the quality task reports anything. *)
Lemma ambiguous_supplier_not_detected :
  (∃ lines,
     run_supplier_orders
       (run_dag Sample.presto_stderr Sample.milk_two_primaries
          (Sample.day [Sample.order "SKU00001" 100]
             [Sample.snapshot "SKU00001" 60 10]))
     = Returned lines
     ∧ length (primary_supplier_links Sample.milk_two_primaries "SKU00001")
       = 2%nat
     ∧ length (lines_of_sku "SKU00001" lines) = 2%nat)
  ∧ (let run :=
       run_dag Sample.presto_stderr Sample.milk_no_primary
         (Sample.day [Sample.order "SKU00001" 100]
            [Sample.snapshot "SKU00001" 60 10]) in
     primary_supplier_links Sample.milk_no_primary "SKU00001" = []
     ∧ nd_net_demand <$>
         net_demand_query Sample.milk_no_primary
           [Sample.order "SKU00001" 100] [Sample.snapshot "SKU00001" 60 10]
       = [70]
     ∧ run_supplier_orders run = Returned []
     ∧ run_exceptions run = []).
Proof.
  split.
  - eexists. split; [vm_compute; reflexivity|]. split; vm_compute; reflexivity.
  - vm_compute. done.
Qed.

(** C3, amended. Supplier-order derivation looks no primary supplier up
    and detects nothing: when the rounding of every positive entry is
    defined the order task returns, and a SKU gets one line per positive
    NetDemand entry and primary-supplier link; none without a link (the
    SKU is left out without a report), k lines with k links. *)
Theorem supplier_lookup_is_a_join presto_stderr pg hive nd :
  net_demand hive = Some nd → rounding_defined nd →
  ∃ lines,
    generate_supplier_orders presto_stderr pg hive = Returned lines
    ∧ (∀ sku, length (lines_of_sku sku lines)
              = (length (positive_entries sku nd)
                 * length (primary_supplier_links pg sku))%nat)
    ∧ (∀ sku, primary_supplier_links pg sku = [] → lines_of_sku sku lines = [])
    ∧ (∀ sku n, positive_entries sku nd = [n] →
         length (lines_of_sku sku lines)
         = length (primary_supplier_links pg sku)).
Proof.
  intros Hnd Hdef.
  pose proof (supplier_orders_query_defined pg nd Hdef) as Hq.
  eexists. split; [by eapply generate_supplier_orders_Returned|].
  pose proof (λ sku, length_lines_of_sku pg nd _ sku Hq) as Hlen.
  split_and!; [done|..].
  - intros sku Hno. apply length_zero_iff_nil. rewrite Hlen, Hno. simpl. lia.
  - intros sku n Hone. rewrite Hlen, Hone. simpl. lia.
Qed.

Lemma supplier_lookup_is_a_join_witness :
  ∃ lines,
    generate_supplier_orders Sample.presto_stderr Sample.milk_two_primaries
      (calculate_net_demand Sample.milk_two_primaries
         (Sample.day [Sample.order "SKU00001" 100]
            [Sample.snapshot "SKU00001" 60 10])).1
    = Returned lines
    ∧ length (lines_of_sku "SKU00001" lines) = 2%nat.
Proof.
  destruct (supplier_lookup_is_a_join Sample.presto_stderr Sample.milk_two_primaries
              (calculate_net_demand Sample.milk_two_primaries
                 (Sample.day [Sample.order "SKU00001" 100]
                    [Sample.snapshot "SKU00001" 60 10])).1
              (net_demand_query Sample.milk_two_primaries
                 [Sample.order "SKU00001" 100]
                 [Sample.snapshot "SKU00001" 60 10]))
    as (lines & Hret & Hlen & _).
  - reflexivity.
  - intros n Hn _. vm_compute in Hn.
    apply list_elem_of_singleton in Hn as ->. vm_compute. split; discriminate.
  - exists lines. split; [exact Hret|]. rewrite Hlen. vm_compute. reflexivity.
Defined.

(** C5, as stated, fails: a rule with case size 0 goes through the
    net-demand task untouched, the order query divides by it and the order
    task raises its generic exception, which carries what presto-cli
    wrote to its error output; a rule with case size -12 is not rejected
    anywhere and yields an order line. *)
Lemma invalid_case_size_not_rejected :
  (let pg := Sample.milk_from_acme 0 in
   let hive := Sample.day [Sample.order "SKU00001" 100]
                 [Sample.snapshot "SKU00001" 60 10] in
   nd_case_size <$> net_demand_query pg (orders hive) (stock hive) = [0]
   ∧ supplier_orders_query pg (net_demand_query pg (orders hive) (stock hive))
     = Failed DIVISION_BY_ZERO
   ∧ run_supplier_orders (run_dag Sample.presto_stderr pg hive)
     = Raised ("Supplier order generation failed: "
                 +:+ Sample.presto_stderr DIVISION_BY_ZERO)
   ∧ run_exceptions (run_dag Sample.presto_stderr pg hive) = [])
  ∧ (let pg := Sample.milk_from_acme (-12) in
     let hive := Sample.day [Sample.order "SKU00001" 100]
                   [Sample.snapshot "SKU00001" 60 10] in
     (λ l, (so_case_size l, so_order_quantity l))
       <$> match run_supplier_orders (run_dag Sample.presto_stderr pg hive) with
           | Returned lines => lines
           | Raised _ => []
           end
     = [(-12, 60)]).
Proof. vm_compute. done. Qed.

(** C5, amended. Nothing rejects a rule with case size 0 before the
    rounding: when its product is active and has a positive net demand and
    a primary supplier, the order query divides by zero and the order task
    of the run raises its one exception, "Supplier order generation
    failed: " followed by the error output of presto-cli for the error
    that stopped the query. *)
Theorem zero_case_size_fails_the_run presto_stderr pg hive p r link :
  p ∈ products pg → r ∈ replenishment_rules pg →
  p_is_active p = true → p_product_id p = r_product_id r →
  r_case_size r = 0 →
  0 < nd_net_demand (net_demand_entry (orders hive) (stock hive) p r) →
  link ∈ primary_supplier_links pg (p_sku p) →
  ∃ e,
    run_supplier_orders (run_dag presto_stderr pg hive)
    = Raised ("Supplier order generation failed: " +:+ presto_stderr e).
Proof.
  intros Hp Hr Hact Hid Hzero Hpos Hlink.
  rewrite run_dag_supplier_orders.
  set (n := net_demand_entry (orders hive) (stock hive) p r) in *.
  set (nd := net_demand_query pg (orders hive) (stock hive)).
  assert (n ∈ nd) as Hn by (apply elem_of_net_demand_query; eauto 10).
  destruct link as [[p' sp] s].
  assert ((n, p', sp, s) ∈ supplier_orders_rows pg nd) as Hrow.
  { apply elem_of_primary_supplier_links in Hlink
      as (? & ? & ? & ? & ? & ? & ?).
    apply elem_of_supplier_orders_rows. by split_and!. }
  destruct (traverse_Failed
              (λ row, select_supplier_order row.2 row.1.1.1)
              _ _ DIVISION_BY_ZERO Hrow) as [e He].
  { simpl. unfold select_supplier_order, order_quantity, decimal1_div_integer.
    subst n. simpl. rewrite Hzero. done. }
  exists e. apply (generate_supplier_orders_Raised _ _ _ nd e); [done|].
  unfold supplier_orders_query. by rewrite He.
Qed.

Lemma zero_case_size_fails_the_run_witness :
  ∃ e,
    run_supplier_orders
      (run_dag Sample.presto_stderr (Sample.milk_from_acme 0)
         (Sample.day [Sample.order "SKU00001" 100]
            [Sample.snapshot "SKU00001" 60 10]))
    = Raised ("Supplier order generation failed: "
                +:+ Sample.presto_stderr e).
Proof.
  apply (zero_case_size_fails_the_run Sample.presto_stderr (Sample.milk_from_acme 0) _
           Sample.milk (Sample.rule 1 20 0)
           (Sample.milk, Sample.link 7 1 true, Sample.acme)).
  - left.
  - left.
  - reflexivity.
  - reflexivity.
  - reflexivity.
  - reflexivity.
  - left.
Defined.

(** C6, as stated, fails: milk has a net demand of 70 and no primary
    supplier, and the order file has no line for it. *)
Lemma positive_demand_without_order_line :
  let pg := Sample.milk_no_primary in
  let hive := Sample.day [Sample.order "SKU00001" 100]
                [Sample.snapshot "SKU00001" 60 10] in
  (λ n, (nd_sku n, nd_net_demand n))
    <$> net_demand_query pg (orders hive) (stock hive)
  = [("SKU00001", 70)]
  ∧ run_supplier_orders (run_dag Sample.presto_stderr pg hive) = Returned [].
Proof. vm_compute. done. Qed.

(** C6, amended. When no entry has a positive net demand the order task
    returns the empty sequence.  When the rounding of every positive entry
    is defined it returns lines for exactly the SKUs that have a positive
    net demand and a primary-supplier link, one line per entry and link,
    in ascending order of (supplier_code, sku). *)
Theorem supplier_orders_output presto_stderr pg hive nd :
  net_demand hive = Some nd →
  ((∀ n, n ∈ nd → nd_net_demand n ≤ 0) →
     generate_supplier_orders presto_stderr pg hive = Returned [])
  ∧ (rounding_defined nd →
     ∃ lines,
       generate_supplier_orders presto_stderr pg hive = Returned lines
       ∧ (∀ sku, (∃ l, l ∈ lines ∧ so_sku l = sku)
                 ↔ (∃ n, n ∈ nd ∧ nd_sku n = sku ∧ 0 < nd_net_demand n)
                   ∧ primary_supplier_links pg sku ≠ [])
       ∧ (∀ sku, length (lines_of_sku sku lines)
                 = (length (positive_entries sku nd)
                    * length (primary_supplier_links pg sku))%nat)
       ∧ StronglySorted order_by_le lines).
Proof.
  intros Hnd. split.
  - intros Hnone. apply (generate_supplier_orders_Returned _ _ _ nd); [done|].
    unfold supplier_orders_query.
    assert (supplier_orders_rows pg nd = []) as ->; [|done].
    unfold supplier_orders_rows. apply filter_none.
    intros [[[n p] sp] s] Hrow [_ Hpos]. simpl in Hpos.
    apply elem_of_inner_join in Hrow as [Hrow _].
    apply elem_of_inner_join in Hrow as [Hrow _].
    apply elem_of_inner_join in Hrow as [Hn _].
    specialize (Hnone n Hn). lia.
  - intros Hdef.
    pose proof (supplier_orders_query_defined pg nd Hdef) as Hq.
    eexists. split; [by eapply generate_supplier_orders_Returned|].
    pose proof (λ sku, length_lines_of_sku pg nd _ sku Hq) as Hlen.
    split_and!; [|done|by eapply supplier_orders_query_sorted].
    intros sku.
    transitivity (length (lines_of_sku sku
      (merge_sort order_by_le
         ((λ row, supplier_order_line row.2 row.1.1.1)
            <$> supplier_orders_rows pg nd))) ≠ 0%nat).
    { rewrite length_nonzero. unfold lines_of_sku.
      rewrite filter_nonempty. naive_solver. }
    rewrite Hlen.
    assert (∀ a b : nat, (a * b ≠ 0 ↔ a ≠ 0 ∧ b ≠ 0)%nat) as -> by lia.
    rewrite !length_nonzero. unfold positive_entries.
    rewrite filter_nonempty. naive_solver.
Qed.

Lemma supplier_orders_output_witness :
  ∃ lines,
    generate_supplier_orders Sample.presto_stderr Sample.two_products
      (calculate_net_demand Sample.two_products
         (Sample.day [Sample.order "SKU00001" 100]
            [Sample.snapshot "SKU00001" 60 10])).1
    = Returned lines
    ∧ StronglySorted order_by_le lines.
Proof.
  destruct (supplier_orders_output Sample.presto_stderr Sample.two_products
              (calculate_net_demand Sample.two_products
                 (Sample.day [Sample.order "SKU00001" 100]
                    [Sample.snapshot "SKU00001" 60 10])).1
              (net_demand_query Sample.two_products
                 [Sample.order "SKU00001" 100]
                 [Sample.snapshot "SKU00001" 60 10]))
    as [_ Hout].
  - reflexivity.
  - destruct Hout as (lines & Hret & _ & _ & Hsorted).
    + intros n Hn _. vm_compute in Hn.
      apply elem_of_cons in Hn as [->|Hn];
        [|apply list_elem_of_singleton in Hn as ->];
        vm_compute; split; discriminate.
    + exists lines. split; [exact Hret|exact Hsorted].
Defined.

(** C10. The order query never reads the supplier's [is_active]: a SKU
    with a positive net demand whose one primary supplier is inactive gets
    its order line all the same, naming that supplier. *)
Theorem inactive_supplier_still_ordered presto_stderr pg hive nd n p sp s :
  net_demand hive = Some nd → rounding_defined nd →
  n ∈ nd → 0 < nd_net_demand n →
  primary_supplier_links pg (nd_sku n) = [(p, sp, s)] →
  s_is_active s = false →
  ∃ lines l,
    generate_supplier_orders presto_stderr pg hive = Returned lines
    ∧ l ∈ lines
    ∧ so_sku l = nd_sku n
    ∧ so_supplier_code l = s_supplier_code s
    ∧ so_supplier_name l = s_supplier_name s
    ∧ so_net_demand l = nd_net_demand n.
Proof.
  intros Hnd Hdef Hn Hpos Hlinks Hinactive.
  pose proof (supplier_orders_query_defined pg nd Hdef) as Hq.
  eexists. exists (supplier_order_line s n).
  split; [by eapply generate_supplier_orders_Returned|].
  split; [|done].
  rewrite merge_sort_Permutation.
  apply list_elem_of_fmap. exists (n, p, sp, s). split; [done|].
  assert ((p, sp, s) ∈ primary_supplier_links pg (nd_sku n)) as Hlink
    by (rewrite Hlinks; left).
  apply elem_of_primary_supplier_links in Hlink
    as (? & ? & ? & ? & ? & ? & ?).
  apply elem_of_supplier_orders_rows. by split_and!.
Qed.

Lemma inactive_supplier_still_ordered_witness :
  ∃ lines l,
    generate_supplier_orders Sample.presto_stderr Sample.two_products
      (calculate_net_demand Sample.two_products (Sample.day [] [])).1
    = Returned lines
    ∧ l ∈ lines ∧ so_sku l = "SKU00002" ∧ so_supplier_code l = "SUP002".
Proof.
  destruct (inactive_supplier_still_ordered Sample.presto_stderr Sample.two_products
              (calculate_net_demand Sample.two_products (Sample.day [] [])).1
              (net_demand_query Sample.two_products [] [])
              (net_demand_entry [] [] Sample.bread (Sample.rule 2 10 6))
              Sample.bread (Sample.link 8 2 true) Sample.zenith)
    as (lines & l & Hret & Hl & Hsku & Hcode & _).
  - reflexivity.
  - intros n Hn _. vm_compute in Hn.
    apply elem_of_cons in Hn as [->|Hn];
      [|apply list_elem_of_singleton in Hn as ->];
      vm_compute; split; discriminate.
  - vm_compute. right. left.
  - reflexivity.
  - reflexivity.
  - reflexivity.
  - exists lines, l. split; [exact Hret|]. split; [exact Hl|].
    split; [exact Hsku|exact Hcode].
Defined.

(* ===================================================================== *)
(** * The result does not depend on the order a table stores its rows in *)
(* ===================================================================== *)

Global Instance sum_Permutation : Proper ((≡ₚ) ==> (=)) Sql.sum.
Proof.
  intros l l' Hl. unfold Sql.sum.
  induction Hl as [|x l l' _ IH|x y l|l1 l2 l3 _ IH1 _ IH2]; simpl; lia.
Qed.

Lemma aggregated_orders_Permutation ol ol' sku :
  ol ≡ₚ ol' → aggregated_orders ol sku = aggregated_orders ol' sku.
Proof. intros H. unfold aggregated_orders. by rewrite H. Qed.

Lemma total_available_Permutation st st' sku :
  st ≡ₚ st' → total_available st sku = total_available st' sku.
Proof. intros H. unfold total_available. by rewrite H. Qed.

Lemma total_reserved_Permutation st st' sku :
  st ≡ₚ st' → total_reserved st sku = total_reserved st' sku.
Proof. intros H. unfold total_reserved. by rewrite H. Qed.

Lemma net_demand_entry_Permutation ol ol' st st' p r :
  ol ≡ₚ ol' → st ≡ₚ st' →
  net_demand_entry ol st p r = net_demand_entry ol' st' p r.
Proof.
  intros Hol Hst. unfold net_demand_entry.
  by rewrite (aggregated_orders_Permutation _ _ _ Hol),
    (total_available_Permutation _ _ _ Hst),
    (total_reserved_Permutation _ _ _ Hst).
Qed.

Lemma net_demand_query_Permutation pg pg' ol ol' st st' :
  same_tables pg pg' → ol ≡ₚ ol' → st ≡ₚ st' →
  net_demand_query pg ol st ≡ₚ net_demand_query pg' ol' st'.
Proof.
  intros [Hp _ _ Hr] Hol Hst. rewrite !net_demand_query_entries.
  unfold active_products_with_rules.
  rewrite (inner_join_Permutation _ _ _ _ _ Hp Hr).
  rewrite (list_fmap_ext (λ pr, net_demand_entry ol st pr.1 pr.2)
             (λ pr, net_demand_entry ol' st' pr.1 pr.2)); [done|].
  intros _ [p r] _. simpl. by apply net_demand_entry_Permutation.
Qed.

Lemma supplier_orders_rows_Permutation pg pg' nd nd' :
  same_tables pg pg' → nd ≡ₚ nd' →
  supplier_orders_rows pg nd ≡ₚ supplier_orders_rows pg' nd'.
Proof.
  intros [Hp Hs Hsp _] Hnd. unfold supplier_orders_rows.
  apply filter_Permutation.
  repeat apply inner_join_Permutation; done.
Qed.

Lemma select_supplier_order_Ok s n l :
  select_supplier_order s n = Ok l → l = supplier_order_line s n.
Proof.
  unfold select_supplier_order, supplier_order_line, the_order_quantity.
  destruct (order_quantity _ _); simpl; [|done]. by intros [= <-].
Qed.

(** Whether the order query fails is a property of the bag of its rows. *)
Lemma supplier_orders_query_Ok_Permutation pg pg' nd nd' lines :
  same_tables pg pg' → nd ≡ₚ nd' →
  supplier_orders_query pg nd = Ok lines →
  ∃ lines', supplier_orders_query pg' nd' = Ok lines' ∧ lines ≡ₚ lines'.
Proof.
  intros Hpg Hnd Hq.
  pose proof (supplier_orders_rows_Permutation _ _ _ _ Hpg Hnd) as Hrows.
  pose proof (supplier_orders_query_lines _ _ _ Hq) as ->.
  unfold supplier_orders_query in *.
  destruct (traverse _ (supplier_orders_rows pg nd)) as [ls|] eqn:Htr;
    simpl in Hq; [|done].
  rewrite (traverse_Ok_fmap _ (λ row, supplier_order_line row.2 row.1.1.1)
             (supplier_orders_rows pg' nd')).
  - simpl. eexists. split; [done|].
    by rewrite !merge_sort_Permutation, Hrows.
  - intros row Hrow. rewrite <- Hrows in Hrow.
    destruct (traverse_Ok_inv _ _ _ _ Htr Hrow) as (l & Hl & _).
    by rewrite Hl, (select_supplier_order_Ok _ _ _ Hl).
Qed.

Lemma NoDup_fmap_eq {A K} (key : A → K) (l : list A) x y :
  NoDup (key <$> l) → x ∈ l → y ∈ l → key x = key y → x = y.
Proof.
  induction l as [|a l IH]; intros Hnd Hx Hy Hk; [by inv Hx|].
  rewrite fmap_cons in Hnd. apply NoDup_cons in Hnd as [Ha Hnd].
  apply elem_of_cons in Hx as [->|Hx], Hy as [->|Hy]; [done| | |by apply IH].
  - destruct Ha. rewrite Hk. by apply list_elem_of_fmap_2.
  - destruct Ha. rewrite <- Hk. by apply list_elem_of_fmap_2.
Qed.

(** Under the uniqueness constraints a SKU has one NetDemand entry. *)
Lemma net_demand_entry_unique pg ol st n1 n2 :
  unique_keys pg →
  n1 ∈ net_demand_query pg ol st → n2 ∈ net_demand_query pg ol st →
  nd_sku n1 = nd_sku n2 → n1 = n2.
Proof.
  intros [Hsku Hrule _].
  intros (p1 & r1 & -> & Hp1 & Hr1 & _ & Hid1)%elem_of_net_demand_query.
  intros (p2 & r2 & -> & Hp2 & Hr2 & _ & Hid2)%elem_of_net_demand_query.
  simpl. intros Heq.
  assert (p1 = p2) as -> by (by apply (NoDup_fmap_eq p_sku (products pg))).
  assert (r1 = r2) as ->; [|done].
  apply (NoDup_fmap_eq r_product_id (replenishment_rules pg)); congruence.
Qed.

(** ... and two order lines with the same key are the same line. *)
Lemma order_lines_tie_equal pg ol st l1 l2 :
  unique_keys pg →
  let lines := (λ row, supplier_order_line row.2 row.1.1.1)
                 <$> supplier_orders_rows pg (net_demand_query pg ol st) in
  l1 ∈ lines → l2 ∈ lines →
  order_by_le l1 l2 → order_by_le l2 l1 → l1 = l2.
Proof.
  intros Hkeys lines.
  intros ([[[n1 p1] sp1] s1] & -> & Hrow1)%list_elem_of_fmap.
  intros ([[[n2 p2] sp2] s2] & -> & Hrow2)%list_elem_of_fmap.
  apply elem_of_supplier_orders_rows in Hrow1 as (Hn1 & _ & _ & Hs1 & _).
  apply elem_of_supplier_orders_rows in Hrow2 as (Hn2 & _ & _ & Hs2 & _).
  intros H12 H21. destruct (order_by_le_tie _ _ H12 H21) as [Hcode Hsku].
  simpl in *.
  rewrite (net_demand_entry_unique pg ol st n1 n2) by done.
  by rewrite (NoDup_fmap_eq s_supplier_code (suppliers pg) s1 s2)
    by (done || apply Hkeys).
Qed.

Lemma same_tables_sym pg pg' : same_tables pg pg' → same_tables pg' pg.
Proof. intros [????]. by split. Qed.

Lemma calculate_net_demand_table pg hive :
  net_demand (calculate_net_demand pg hive).1
  = Some (net_demand_query pg (orders hive) (stock hive)).
Proof. reflexivity. Qed.

(** C9. A run is a function of the tables it reads, not of the order in
    which they store their rows: under the uniqueness constraints of the
    master data, two runs over the same products, rules, suppliers, links,
    order lines and stock records compute the same NetDemand entries and
    return the same order lines in the same order, so that the order file
    is the same text; or both fail (each with the error output of its own
    run in the message). *)
Theorem rerun_is_deterministic presto_stderr presto_stderr' pg pg' hive hive' :
  unique_keys pg → same_tables pg pg' →
  orders hive ≡ₚ orders hive' → stock hive ≡ₚ stock hive' →
  net_demand_query pg (orders hive) (stock hive)
    ≡ₚ net_demand_query pg' (orders hive') (stock hive')
  ∧ ((∃ lines,
        run_supplier_orders (run_dag presto_stderr pg hive) = Returned lines
        ∧ run_supplier_orders (run_dag presto_stderr' pg' hive')
          = Returned lines)
     ∨ (∃ e e',
          run_supplier_orders (run_dag presto_stderr pg hive)
          = Raised ("Supplier order generation failed: " +:+ presto_stderr e)
          ∧ run_supplier_orders (run_dag presto_stderr' pg' hive')
            = Raised ("Supplier order generation failed: "
                        +:+ presto_stderr' e')))
  ∧ order_file (run_dag presto_stderr pg hive)
    = order_file (run_dag presto_stderr' pg' hive').
Proof.
  intros Hkeys Hpg Hol Hst.
  pose proof (net_demand_query_Permutation _ _ _ _ _ _ Hpg Hol Hst) as Hnd.
  split; [done|].
  unfold order_file. rewrite !run_dag_supplier_orders.
  unfold generate_supplier_orders. rewrite !calculate_net_demand_table.
  set (nd := net_demand_query pg (orders hive) (stock hive)) in *.
  set (nd' := net_demand_query pg' (orders hive') (stock hive')) in *.
  destruct (supplier_orders_query pg nd) as [lines|e] eqn:Hq.
  - destruct (supplier_orders_query_Ok_Permutation _ _ _ _ _ Hpg Hnd Hq)
      as (lines' & Hq' & Hperm).
    rewrite Hq'.
    assert (lines = lines') as <-; [|split; [left; by exists lines|done]].
    apply (StronglySorted_unique_strong order_by_le); [| | |done].
    + intros x1 x2 Hx1 Hx2. rewrite <- Hperm in Hx2.
      rewrite (supplier_orders_query_lines _ _ _ Hq) in Hx1, Hx2.
      rewrite merge_sort_Permutation in Hx1, Hx2.
      by apply (order_lines_tie_equal pg (orders hive) (stock hive)).
    + by eapply supplier_orders_query_sorted.
    + by eapply supplier_orders_query_sorted.
  - destruct (supplier_orders_query pg' nd') as [lines'|e'] eqn:Hq';
      [|split; [right; by exists e, e'|done]].
    destruct (supplier_orders_query_Ok_Permutation pg' pg nd' nd lines')
      as (lines & Hq'' & _); [by apply same_tables_sym|done|done|].
    congruence.
Qed.

Lemma rerun_is_deterministic_witness :
  run_supplier_orders
    (run_dag Sample.presto_stderr Sample.two_products
       (Sample.day [Sample.order "SKU00001" 100; Sample.order "SKU00002" 7]
          [Sample.snapshot "SKU00001" 60 10]))
  = run_supplier_orders
      (run_dag Sample.presto_stderr Sample.two_products_reordered
         (Sample.day [Sample.order "SKU00002" 7; Sample.order "SKU00001" 100]
            [Sample.snapshot "SKU00001" 60 10])).
Proof.
  destruct (rerun_is_deterministic Sample.presto_stderr Sample.presto_stderr
              Sample.two_products Sample.two_products_reordered
              (Sample.day
                 [Sample.order "SKU00001" 100; Sample.order "SKU00002" 7]
                 [Sample.snapshot "SKU00001" 60 10])
              (Sample.day
                 [Sample.order "SKU00002" 7; Sample.order "SKU00001" 100]
                 [Sample.snapshot "SKU00001" 60 10]))
    as (_ & Hrun & _).
  - split; compute_done.
  - split; apply perm_swap.
  - apply perm_swap.
  - reflexivity.
  - destruct Hrun as [(lines & Hrun & Hrun')|(e & e' & Hrun & _)].
    + by rewrite Hrun, Hrun'.
    + vm_compute in Hrun. discriminate.
Defined.

(* ===================================================================== *)
(** * What the quality task reads in the printed answers *)
(* ===================================================================== *)

Lemma string_of_uint_digits d :
  digits_only (NilEmpty.string_of_uint d) = true.
Proof. induction d; simpl; by rewrite ?IHd. Qed.

Lemma show_integer_digits z :
  0 ≤ z → digits_only (PrestoCli.show_integer z) = true.
Proof.
  intros Hz. unfold PrestoCli.show_integer. destruct z as [|p|p]; [done| |lia].
  simpl. unfold NilZero.string_of_uint.
  destruct (Pos.to_uint p) eqn:Hd; [done|..];
    rewrite <- Hd; apply string_of_uint_digits.
Qed.

Lemma string_of_uint_empty d : NilEmpty.string_of_uint d = "" → d = Decimal.Nil.
Proof. by destruct d. Qed.

Lemma show_integer_zero z : PrestoCli.show_integer z = "0" ↔ z = 0.
Proof.
  split; [|by intros ->].
  unfold PrestoCli.show_integer. destruct z as [|p|p]; [done| |done].
  simpl. intros Hs.
  pose proof (DecimalPos.Unsigned.of_to p) as Hp.
  unfold NilZero.string_of_uint in Hs.
  destruct (Pos.to_uint p) as [|d|d|d|d|d|d|d|d|d|d]; try done.
  simpl in Hs. injection Hs as Hs. apply string_of_uint_empty in Hs as ->.
  done.
Qed.

Lemma escape_digits s : digits_only s = true → PrestoCli.escape s = s.
Proof.
  induction s as [|c s IH]; [done|]. simpl.
  intros [Hc Hs]%andb_true_iff. rewrite IH by done.
  case_decide as Hq; [|done]. by subst c.
Qed.

Lemma not_digit_dquote c : is_digit c = true → c ≠ PrestoCli.dquote.
Proof. by intros Hc ->. Qed.

Lemma prefix_cons c s d t :
  String.prefix (String c s) (String d t)
  = if decide (c = d) then String.prefix s t else false.
Proof. simpl. destruct (ascii_dec c d); by case_decide. Qed.

(** Behind digits the closing quote and the line feed hold no quoted
    zero. *)
Lemma contains_quoted_zero_tail s :
  digits_only s = true →
  Py.contains quoted_zero
    (s +:+ String PrestoCli.dquote (String PrestoCli.LF "")) = false.
Proof.
  induction s as [|c s IH]; [done|].
  intros [Hc Hs]%andb_true_iff.
  change (String c s +:+ ?t) with (String c (s +:+ t)).
  cbn [Py.contains]. rewrite IH by done. unfold quoted_zero.
  rewrite prefix_cons, decide_False; [done|].
  intros Heq. by apply (not_digit_dquote c).
Qed.

Lemma contains_quoted_zero_digits s :
  digits_only s = true →
  Py.contains quoted_zero
    (String PrestoCli.dquote
       (s +:+ String PrestoCli.dquote (String PrestoCli.LF "")))
  = true ↔ s = "0".
Proof.
  intros Hs. cbn [Py.contains].
  rewrite contains_quoted_zero_tail, orb_false_r by done.
  split; [|by intros ->].
  unfold quoted_zero. rewrite prefix_cons, decide_True by done.
  destruct s as [|c s]; [done|].
  change (String c s +:+ ?t) with (String c (s +:+ t)).
  rewrite prefix_cons. case_decide as Hc; [subst c|done].
  destruct s as [|c s]; [done|].
  change (String c s +:+ ?t) with (String c (s +:+ t)).
  rewrite prefix_cons. case_decide as Hc; [|done].
  simpl in Hs. apply andb_true_iff in Hs as [Hs _].
  by apply not_digit_dquote in Hs.
Qed.

Lemma string_app_cons c s t : String c s +:+ t = String c (s +:+ t).
Proof. reflexivity. Qed.

Lemma string_app_nil_r s : s +:+ "" = s.
Proof.
  induction s as [|c s IH]; [done|]. by rewrite string_app_cons, IH.
Qed.

Lemma string_app_assoc s t u : (s +:+ t) +:+ u = s +:+ (t +:+ u).
Proof.
  induction s as [|c s IH]; [done|]. by rewrite !string_app_cons, IH.
Qed.

Lemma count_char_app c s t :
  count_char c (s +:+ t) = (count_char c s + count_char c t)%nat.
Proof.
  induction s as [|a s IH]; [done|].
  rewrite string_app_cons. cbn [count_char]. rewrite IH. lia.
Qed.

Lemma count_char_escape c s :
  c ≠ PrestoCli.dquote →
  count_char c (PrestoCli.escape s) = count_char c s.
Proof.
  intros Hc. induction s as [|a s IH]; [done|].
  cbn [PrestoCli.escape count_char]. case_decide as Ha.
  - subst a. cbn [count_char]. rewrite IH.
    by rewrite !decide_False by done.
  - cbn [count_char]. by rewrite IH.
Qed.

Lemma count_char_digits c s :
  is_digit c = false → digits_only s = true → count_char c s = 0%nat.
Proof.
  intros Hc. induction s as [|a s IH]; [done|]. simpl.
  intros [Ha Hs]%andb_true_iff. rewrite IH by done.
  rewrite decide_False; [done|]. intros ->. congruence.
Qed.

(** Text without a CR passes the text mode unchanged. *)
Lemma universal_newlines_id s :
  count_char Py.CR s = 0%nat → Py.universal_newlines s = s.
Proof.
  induction s as [|c s IH]; [done|]. cbn [count_char Py.universal_newlines].
  case_decide; [lia|]. intros Hs. by rewrite IH.
Qed.

Lemma csv_single_field x :
  PrestoCli.csv [[x]]
  = String PrestoCli.dquote
      (PrestoCli.escape x
         +:+ String PrestoCli.dquote (String PrestoCli.LF "")).
Proof.
  unfold PrestoCli.csv, PrestoCli.csv_row, PrestoCli.csv_field.
  cbn [foldr]. rewrite string_app_nil_r, string_app_cons.
  by rewrite string_app_assoc.
Qed.

(** The first check fires exactly when the printed count is not zero. *)
Lemma unmapped_check_spec pg :
  Py.contains quoted_zero (unmapped_skus_stdout pg) = true
  ↔ unmapped_skus_query pg = 0.
Proof.
  unfold unmapped_skus_stdout. rewrite csv_single_field.
  assert (0 ≤ unmapped_skus_query pg) as Hz
    by (unfold unmapped_skus_query, Sql.count_distinct; lia).
  rewrite escape_digits by by apply show_integer_digits.
  rewrite universal_newlines_id.
  2: { cbn [count_char]. rewrite count_char_app. cbn [count_char].
       rewrite (count_char_digits Py.CR _ eq_refl)
         by (by apply show_integer_digits).
       by rewrite !decide_False by done. }
  rewrite contains_quoted_zero_digits by by apply show_integer_digits.
  apply show_integer_zero.
Qed.

Lemma elem_of_left_join_None {A B} (on : A → B → Prop)
    `{!∀ a b, Decision (on a b)} (l : list A) (r : list B) a :
  (a, None) ∈ Sql.left_join on l r ↔ a ∈ l ∧ filter (on a) r = [].
Proof.
  unfold Sql.left_join. rewrite list_elem_of_bind. split.
  - intros (a' & Hin & Ha').
    apply list_elem_of_fmap in Hin as (ob & [= <- <-] & Hob).
    split; [done|]. unfold Sql.partners_or_null in Hob.
    destruct (filter (on a) r) as [|b ms]; [done|].
    by apply list_elem_of_fmap in Hob as (? & ? & _).
  - intros [Ha Hnone]. exists a. split; [|done].
    rewrite Hnone. simpl. left.
Qed.

Lemma remove_dups_nil {A} `{EqDecision A} (l : list A) :
  remove_dups l = [] ↔ l = [].
Proof.
  split; [|by intros ->]. intros Hnil. destruct l as [|a l]; [done|].
  assert (a ∈ remove_dups (a :: l)) as Hin
    by (apply elem_of_remove_dups; left).
  rewrite Hnil in Hin. by inv Hin.
Qed.

(** The count of the first check is positive exactly when some active
    product has no supplier link at all. *)
Lemma unmapped_skus_query_pos pg :
  0 < unmapped_skus_query pg
  ↔ ∃ p, p ∈ products pg ∧ p_is_active p = true ∧ supplier_links pg p = [].
Proof.
  unfold unmapped_skus_query, Sql.count_distinct, supplier_links.
  set (rows := filter _ (Sql.left_join _ _ _)).
  transitivity (rows ≠ []).
  - pose proof (remove_dups_nil ((λ row, p_sku row.1) <$> rows)) as Hnil.
    destruct (remove_dups _) as [|k ks].
    + destruct Hnil as [Hnil _]. specialize (Hnil eq_refl).
      destruct rows; [|done]. simpl. split; [lia|done].
    + split; [|simpl; lia]. intros _ ->. destruct Hnil as [_ Hnil].
      by specialize (Hnil eq_refl).
  - subst rows. rewrite filter_nonempty. split.
    + intros ([p [sp|]] & Hin & Hnull & Hact); [done|].
      apply elem_of_left_join_None in Hin as [Hp Hnone]. eauto.
    + intros (p & Hp & Hact & Hnone). exists (p, None).
      split; [by apply elem_of_left_join_None|done].
Qed.

Lemma validate_data_quality_warning pg hive :
  WARNING_unmapped ∈ (validate_data_quality pg hive).1
  ↔ Py.contains quoted_zero (unmapped_skus_stdout pg) = false.
Proof.
  unfold validate_data_quality. cbn [fst].
  destruct (Py.contains _ _); destruct (_ <? _)%nat; simpl;
    (split; [intros Hin|intros Heq]; try done;
     try (by left); exfalso; revert Hin; compute_done).
Qed.

(** C7, as stated, fails: milk is active and its only supplier link is not
    primary, so one active product has no primary-supplier link; the
    check counts products without any link, finds none and stays silent. *)
Lemma unmapped_check_ignores_primary_flag :
  length (products_without_primary_supplier Sample.milk_no_primary) = 1%nat
  ∧ unmapped_skus_query Sample.milk_no_primary = 0
  ∧ (validate_data_quality Sample.milk_no_primary (Sample.day [] [])).1 = [].
Proof. vm_compute. done. Qed.

(** C7, amended. The check emits its WARNING exactly when the count of
    active products without any supplier link, primary or not, is
    positive; the task returns [True] either way and the order task gets
    the same input with or without the finding. *)
Theorem unmapped_warning_iff presto_stderr pg hive :
  (WARNING_unmapped ∈ (validate_data_quality pg hive).1
   ↔ 0 < unmapped_skus_query pg)
  ∧ (0 < unmapped_skus_query pg
     ↔ ∃ p, p ∈ products pg ∧ p_is_active p = true
            ∧ supplier_links pg p = [])
  ∧ (validate_data_quality pg hive).2 = Returned true
  ∧ run_supplier_orders (run_dag presto_stderr pg hive)
    = generate_supplier_orders presto_stderr pg (calculate_net_demand pg hive).1.
Proof.
  split_and!.
  - rewrite validate_data_quality_warning.
    pose proof (unmapped_check_spec pg) as Hspec.
    assert (0 ≤ unmapped_skus_query pg)
      by (unfold unmapped_skus_query, Sql.count_distinct; lia).
    destruct (Py.contains _ _); split; intros; try done; lia.
  - apply unmapped_skus_query_pos.
  - reflexivity.
  - apply run_dag_supplier_orders.
Qed.

(** C8 (the code departs from it). A single SKU with 1500 units ordered is
    over the threshold, and the check stays silent: the answer is printed
    without a header line, so one spiking SKU is one line and the test
    [len(lines) > 1] needs two.  With two spiking SKUs the finding comes.
    The order line of the spiking SKU is produced in both runs. *)
Theorem single_demand_spike_not_reported :
  let one := Sample.day [Sample.order "SKU00001" 1500] [] in
  let two := Sample.day [Sample.order "SKU00001" 1500;
                         Sample.order "SKU00002" 1200] [] in
  demand_spike_query (orders one) = [("SKU00001", 1500)]
  ∧ length (Py.split PrestoCli.LF
              (Py.strip (demand_spike_stdout (orders one)))) = 1%nat
  ∧ run_exceptions (run_dag Sample.presto_stderr Sample.two_products one) = []
  ∧ run_exceptions (run_dag Sample.presto_stderr Sample.two_products two) = [INFO_spike]
  ∧ so_sku <$> match run_supplier_orders (run_dag Sample.presto_stderr Sample.two_products one) with
               | Returned lines => lines
               | Raised _ => []
               end
    = ["SKU00001"; "SKU00002"].
Proof. vm_compute. done. Qed.

(* ===================================================================== *)
(** * Further properties: case rounding *)
(* ===================================================================== *)

(** The number of cases the rounding arrives at. *)
Lemma rounded_case_count n c :
  0 ≤ n → 1 ≤ c →
  ceil_decimal1 ((20 * n + c) / (2 * c))
  = if decide (20 * (n `mod` c) < c) then n / c else n / c + 1.
Proof.
  intros Hn Hc.
  set (q := (20 * n + c) / (2 * c)).
  pose proof (div_bounds (20 * n + c) (2 * c)) as Hq. fold q in Hq.
  pose proof (ceil_decimal1_bounds q) as Hk.
  pose proof (Z.div_mod n c) as Hdm.
  pose proof (Z.mod_pos_bound n c) as Hr.
  set (k := ceil_decimal1 q) in *.
  set (m := n / c) in *. set (r := n `mod` c) in *.
  assert (0 ≤ m) by (apply Z.div_pos; lia).
  case_decide; nia.
Qed.

(** The quantity the order query computes for a demand [n] and a case
    size [c >= 1]: the demand is rounded DOWN to full cases when its
    remainder is less than a twentieth of a case, and up otherwise. *)
Theorem order_quantity_cases n c :
  0 ≤ n → 1 ≤ c → n + c ≤ INTEGER_MAX →
  order_quantity n c
  = Ok (if decide (20 * (n `mod` c) < c) then n / c * c else (n / c + 1) * c).
Proof.
  intros Hn Hc Hmax.
  rewrite order_quantity_pos, rounded_case_count by lia.
  pose proof (Z.div_mod n c) as Hdm.
  pose proof (Z.mod_pos_bound n c) as Hr.
  assert (0 ≤ n / c) by (apply Z.div_pos; lia).
  set (m := n / c) in *. set (r := n `mod` c) in *.
  assert ((if decide (20 * r < c) then m else m + 1) * c
          = if decide (20 * r < c) then m * c else (m + 1) * c) as ->
    by (by case_decide).
  unfold cast_as_integer. rewrite decide_True; [done|].
  unfold INTEGER_MIN, INTEGER_MAX in *. case_decide; nia.
Qed.

Lemma order_quantity_cases_witness :
  order_quantity 25 24 = Ok 24 ∧ order_quantity 26 24 = Ok 48.
Proof.
  split.
  - rewrite (order_quantity_cases 25 24); [reflexivity|lia|lia|].
    unfold INTEGER_MAX. lia.
  - rewrite (order_quantity_cases 26 24); [reflexivity|lia|lia|].
    unfold INTEGER_MAX. lia.
Defined.

Lemma order_quantity_multiple_witness : ∃ k, 72 = k * 12.
Proof. apply (order_quantity_multiple 70 12 72). reflexivity. Defined.

Lemma order_quantity_exact_witness :
  order_quantity 70 12 = Ok (round_up_to_case 70 12).
Proof.
  apply (order_quantity_exact 70 12); [lia|lia|]. unfold INTEGER_MAX. lia.
Defined.

(** A demand that is an INTEGER's worth above the case size cannot be
    cast: the expression fails. *)
Theorem order_quantity_out_of_range n c :
  1 ≤ c → INTEGER_MAX + c ≤ n →
  order_quantity n c = Failed NUMERIC_VALUE_OUT_OF_RANGE.
Proof.
  intros Hc Hn. rewrite order_quantity_pos by (unfold INTEGER_MAX in *; lia).
  set (q := (20 * n + c) / (2 * c)).
  pose proof (div_bounds (20 * n + c) (2 * c)) as Hq. fold q in Hq.
  pose proof (ceil_decimal1_bounds q) as Hk.
  set (k := ceil_decimal1 q) in *.
  unfold cast_as_integer. rewrite decide_False; [done|].
  unfold INTEGER_MIN, INTEGER_MAX in *. nia.
Qed.

Lemma order_quantity_out_of_range_witness :
  order_quantity 4000000000 12 = Failed NUMERIC_VALUE_OUT_OF_RANGE.
Proof.
  apply order_quantity_out_of_range; [lia|]. unfold INTEGER_MAX. lia.
Defined.

(* ===================================================================== *)
(** * Further properties: what the order file holds *)
(* ===================================================================== *)

(** A row whose quantity does not fit an INTEGER fails the whole run:
    an active product with a rule of case size [c >= 1], a primary
    supplier and a net demand of at least 2^31 - 1 + c makes the order
    task raise "Supplier order generation failed: " followed by the
    error output of presto-cli for the error that stopped the query. *)
Theorem oversized_demand_fails_the_run presto_stderr pg hive p r link :
  p ∈ products pg → r ∈ replenishment_rules pg →
  p_is_active p = true → p_product_id p = r_product_id r →
  1 ≤ r_case_size r →
  INTEGER_MAX + r_case_size r
    ≤ nd_net_demand (net_demand_entry (orders hive) (stock hive) p r) →
  link ∈ primary_supplier_links pg (p_sku p) →
  ∃ e,
    run_supplier_orders (run_dag presto_stderr pg hive)
    = Raised ("Supplier order generation failed: " +:+ presto_stderr e).
Proof.
  intros Hp Hr Hact Hid Hcase Hbig Hlink.
  rewrite run_dag_supplier_orders.
  set (n := net_demand_entry (orders hive) (stock hive) p r) in *.
  set (nd := net_demand_query pg (orders hive) (stock hive)).
  assert (n ∈ nd) as Hn by (apply elem_of_net_demand_query; eauto 10).
  destruct link as [[p' sp] s].
  assert ((n, p', sp, s) ∈ supplier_orders_rows pg nd) as Hrow.
  { apply elem_of_primary_supplier_links in Hlink
      as (? & ? & ? & ? & ? & ? & ?).
    apply elem_of_supplier_orders_rows. split_and!; try done.
    unfold INTEGER_MAX in Hbig. lia. }
  destruct (traverse_Failed
              (λ row, select_supplier_order row.2 row.1.1.1)
              _ _ NUMERIC_VALUE_OUT_OF_RANGE Hrow) as [e He].
  { simpl. unfold select_supplier_order.
    rewrite order_quantity_out_of_range; [done| |done].
    subst n. simpl. done. }
  exists e. apply (generate_supplier_orders_Raised _ _ _ nd e); [done|].
  unfold supplier_orders_query. by rewrite He.
Qed.

Lemma oversized_demand_fails_the_run_witness :
  ∃ e,
    run_supplier_orders
      (run_dag Sample.presto_stderr (Sample.milk_from_acme 12)
         (Sample.day [Sample.order "SKU00001" 2000000000;
                      Sample.order "SKU00001" 2000000000] []))
    = Raised ("Supplier order generation failed: "
                +:+ Sample.presto_stderr e).
Proof.
  apply (oversized_demand_fails_the_run Sample.presto_stderr (Sample.milk_from_acme 12) _
           Sample.milk (Sample.rule 1 20 12)
           (Sample.milk, Sample.link 7 1 true, Sample.acme)).
  - left.
  - left.
  - reflexivity.
  - reflexivity.
  - simpl. lia.
  - vm_compute. discriminate.
  - left.
Defined.

(** Every line of the order file is accounted for: it belongs to an
    active product with a rule whose orders and safety stock exceed the
    free stock, it names a supplier that a primary link connects to the
    SKU, it copies the case size of the rule, and its quantity is what the
    rounding expression gives for that demand and case size. *)
Theorem order_lines_accounted_for presto_stderr pg hive lines l :
  run_supplier_orders (run_dag presto_stderr pg hive) = Returned lines → l ∈ lines →
  ∃ p r p' sp s,
    p ∈ products pg ∧ r ∈ replenishment_rules pg
    ∧ p_is_active p = true ∧ p_product_id p = r_product_id r
    ∧ (p', sp, s) ∈ primary_supplier_links pg (p_sku p)
    ∧ so_sku l = p_sku p ∧ so_product_name l = p_product_name p
    ∧ so_supplier_code l = s_supplier_code s
    ∧ so_supplier_name l = s_supplier_name s
    ∧ so_case_size l = r_case_size r
    ∧ so_net_demand l
      = aggregated_orders (orders hive) (p_sku p) + r_safety_stock r
        - (total_available (stock hive) (p_sku p)
           - total_reserved (stock hive) (p_sku p))
    ∧ 0 < so_net_demand l
    ∧ order_quantity (so_net_demand l) (so_case_size l)
      = Ok (so_order_quantity l).
Proof.
  rewrite run_dag_supplier_orders. unfold generate_supplier_orders.
  rewrite calculate_net_demand_table.
  set (nd := net_demand_query pg (orders hive) (stock hive)).
  destruct (supplier_orders_query pg nd) as [lines'|] eqn:Hq; [|done].
  intros [= <-] Hl. unfold supplier_orders_query in Hq.
  destruct (traverse _ _) as [ls|] eqn:Htr; simpl in Hq; [|done].
  injection Hq as <-. rewrite merge_sort_Permutation in Hl.
  assert (∃ row, row ∈ supplier_orders_rows pg nd
                 ∧ select_supplier_order row.2 row.1.1.1 = Ok l)
    as ([[[n p'] sp] s] & Hrow & Hsel).
  { clear -Htr Hl. revert ls Htr Hl.
    induction (supplier_orders_rows pg nd) as [|row rows IH];
      intros ls Htr Hl; simpl in Htr.
    - injection Htr as <-. by inv Hl.
    - destruct (select_supplier_order _ _) as [l0|] eqn:Hsel;
        simpl in Htr; [|done].
      destruct (traverse _ rows) as [ls'|]; simpl in Htr; [|done].
      injection Htr as <-. apply elem_of_cons in Hl as [->|Hl].
      + exists row. split; [left|done].
      + destruct (IH ls' eq_refl Hl) as (row' & ? & ?).
        exists row'. split; [by right|done]. }
  simpl in Hsel.
  apply elem_of_supplier_orders_rows in Hrow
    as (Hn & Hp' & Hsp & Hs & Hsku & Hpid & Hsid & Hprim & Hpos).
  apply elem_of_net_demand_query in Hn
    as (p & r & -> & Hp & Hr & Hact & Hid).
  unfold select_supplier_order in Hsel.
  destruct (order_quantity _ _) as [q|] eqn:Hoq; simpl in Hsel; [|done].
  injection Hsel as <-. simpl in *.
  exists p, r, p', sp, s. split_and!; try done.
  - apply elem_of_primary_supplier_links. by split_and!.
  - lia.
Qed.

Lemma order_lines_accounted_for_witness :
  ∃ l, l ∈ [ {| so_supplier_code := "SUP001";
                so_supplier_name := "Acme Dairy Products";
                so_sku := "SKU00001";
                so_product_name := "Dairy Milk";
                so_net_demand := 70;
                so_case_size := 12;
                so_order_quantity := 72 |} ]
       ∧ order_quantity (so_net_demand l) (so_case_size l)
         = Ok (so_order_quantity l).
Proof.
  eexists. split; [left|].
  destruct (order_lines_accounted_for Sample.presto_stderr (Sample.milk_from_acme 12)
              (Sample.day [Sample.order "SKU00001" 100]
                 [Sample.snapshot "SKU00001" 60 10])
              _ _ eq_refl (list_elem_of_here _ _))
    as (p & r & p' & sp & s & _ & _ & _ & _ & _ & _ & _ & _ & _ & _ & _ & _ & Hq).
  exact Hq.
Defined.

(* ===================================================================== *)
(** * Further properties: the order limits of a rule are not read *)
(* ===================================================================== *)

Lemma inner_join_ext {A B} (on on' : A → B → Prop)
    `{!∀ a b, Decision (on a b)} `{!∀ a b, Decision (on' a b)}
    (l : list A) (r : list B) :
  (∀ a b, on a b ↔ on' a b) →
  Sql.inner_join on l r = Sql.inner_join on' l r.
Proof.
  intros Hon. induction l as [|a l IH]; [done|].
  rewrite !inner_join_cons, IH. f_equal. f_equal.
  apply list_filter_iff. intros b. apply Hon.
Qed.

Lemma inner_join_fmap_r {A B B'} (on : A → B → Prop)
    `{!∀ a b, Decision (on a b)} (g : B' → B) (l : list A) (r : list B') :
  Sql.inner_join on l (g <$> r)
  = (λ x, (x.1, g x.2)) <$> Sql.inner_join (λ a b, on a (g b)) l r.
Proof.
  induction l as [|a l IH]; [done|].
  rewrite !inner_join_cons, fmap_app, IH. f_equal.
  by rewrite filter_fmap, <- !list_fmap_compose.
Qed.

Lemma traverse_fmap {A A' B} (f : A → query B) (g : A' → A) l :
  traverse f (g <$> l) = traverse (λ a, f (g a)) l.
Proof.
  induction l as [|a l IH]; [done|].
  rewrite fmap_cons. cbn [traverse]. by rewrite IH.
Qed.

Lemma traverse_ext {A B} (f f' : A → query B) l :
  (∀ a, a ∈ l → f a = f' a) → traverse f l = traverse f' l.
Proof.
  induction l as [|a l IH]; intros Hl; [done|].
  simpl. rewrite Hl by left. rewrite IH; [done|].
  intros ??. apply Hl. by right.
Qed.

(** The rows of the order query over tagged NetDemand entries. *)
Lemma supplier_orders_rows_fmap {A} (f : A → NetDemand) pg (l : list A) :
  supplier_orders_rows pg (f <$> l)
  = (λ row, (f row.1.1.1, row.1.1.2, row.1.2, row.2))
      <$> filter
            (λ row, sp_is_primary_supplier row.1.2 = true
                    ∧ 0 < nd_net_demand (f row.1.1.1))
            (Sql.inner_join (λ x s, sp_supplier_id x.2 = s_supplier_id s)
               (Sql.inner_join (λ x sp, p_product_id x.2 = sp_product_id sp)
                  (Sql.inner_join (λ a p, nd_sku (f a) = p_sku p)
                     l (products pg))
                  (supplier_products pg))
               (suppliers pg)).
Proof.
  unfold supplier_orders_rows.
  rewrite (inner_join_fmap _ f), (inner_join_fmap _ (λ x, (f x.1, x.2))).
  rewrite (inner_join_fmap _ (λ x, (f x.1.1, x.1.2, x.2))).
  by rewrite filter_fmap.
Qed.

Lemma active_products_with_rules_fmap pg (h : ReplenishmentRule → ReplenishmentRule) :
  (∀ r, r_product_id (h r) = r_product_id r) →
  active_products_with_rules (with_rules pg (h <$> replenishment_rules pg))
  = (λ pr, (pr.1, h pr.2)) <$> active_products_with_rules pg.
Proof.
  intros Hid. unfold active_products_with_rules, with_rules. simpl.
  rewrite inner_join_fmap_r, filter_fmap. simpl. f_equal. f_equal.
  apply inner_join_ext. intros p r. by rewrite Hid.
Qed.

(** The two queries read a rule's product id, safety stock and case size
    and nothing else of it: whatever the minimum and maximum order
    quantity, pack size and reorder point of the rules are, the run gives
    the same order lines, or fails all the same. *)
Theorem order_limits_do_not_matter presto_stderr pg hive
    (h : ReplenishmentRule → ReplenishmentRule) :
  (∀ r, r_product_id (h r) = r_product_id r
        ∧ r_safety_stock (h r) = r_safety_stock r
        ∧ r_case_size (h r) = r_case_size r) →
  run_supplier_orders
    (run_dag presto_stderr (with_rules pg (h <$> replenishment_rules pg)) hive)
  = run_supplier_orders (run_dag presto_stderr pg hive).
Proof.
  intros Hh. rewrite !run_dag_supplier_orders.
  unfold generate_supplier_orders. rewrite !calculate_net_demand_table.
  rewrite !net_demand_query_entries.
  rewrite active_products_with_rules_fmap by apply Hh.
  rewrite <- list_fmap_compose.
  set (ol := orders hive). set (st := stock hive).
  set (L := active_products_with_rules pg).
  assert (supplier_orders_query
            (with_rules pg (h <$> replenishment_rules pg))
            (((λ pr, net_demand_entry ol st pr.1 pr.2)
              ∘ (λ pr, (pr.1, h pr.2))) <$> L)
          = supplier_orders_query pg
              ((λ pr, net_demand_entry ol st pr.1 pr.2) <$> L)) as ->;
    [|done].
  unfold supplier_orders_query. f_equal.
  change (supplier_orders_rows (with_rules pg ?rs) ?nd)
    with (supplier_orders_rows pg nd).
  rewrite !supplier_orders_rows_fmap, !traverse_fmap. simpl.
  rewrite (list_filter_iff _
    (λ row, sp_is_primary_supplier row.1.2 = true
            ∧ 0 < nd_net_demand
                    (net_demand_entry ol st row.1.1.1.1 row.1.1.1.2))).
  2:{ intros [[[[p r] p'] sp] s]. simpl.
      destruct (Hh r) as (_ & -> & _). done. }
  apply traverse_ext. intros [[[[p r] p'] sp] s] _. simpl.
  unfold select_supplier_order. simpl.
  destruct (Hh r) as (_ & -> & ->). done.
Qed.

Lemma order_limits_do_not_matter_witness :
  run_supplier_orders
    (run_dag Sample.presto_stderr
       (with_rules (Sample.milk_from_acme 12)
          (set_order_limits 0 0 0 0
             <$> replenishment_rules (Sample.milk_from_acme 12)))
       (Sample.day [Sample.order "SKU00001" 100] []))
  = run_supplier_orders
      (run_dag Sample.presto_stderr (Sample.milk_from_acme 12)
         (Sample.day [Sample.order "SKU00001" 100] [])).
Proof.
  apply (order_limits_do_not_matter Sample.presto_stderr (Sample.milk_from_acme 12) _
           (set_order_limits 0 0 0 0)).
  intros r. split; [reflexivity|]. split; reflexivity.
Defined.

(* ===================================================================== *)
(** * Further properties: GROUP BY *)
(* ===================================================================== *)

Lemma sum_cons z l : Sql.sum (z :: l) = z + Sql.sum l.
Proof. reflexivity. Qed.

Lemma sum_fmap_add {A} (f g : A → Z) l :
  Sql.sum ((λ a, f a + g a) <$> l) = Sql.sum (f <$> l) + Sql.sum (g <$> l).
Proof.
  induction l as [|a l IH]; [done|].
  rewrite !fmap_cons, !sum_cons, IH. lia.
Qed.

Lemma sum_fmap_zero {A} (l : list A) : Sql.sum ((λ _, 0) <$> l) = 0.
Proof. induction l as [|a l IH]; [done|]. by rewrite fmap_cons, sum_cons, IH. Qed.

(** Over distinct keys, exactly one key is the key of a given row. *)
Lemma sum_indicator {K} `{EqDecision K} (k : K) (v : Z) ks :
  NoDup ks → k ∈ ks →
  Sql.sum ((λ k', if decide (k = k') then v else 0) <$> ks) = v.
Proof.
  induction 1 as [|x ks Hx Hks IH]; intros Hk; [by inv Hk|].
  rewrite fmap_cons, sum_cons. destruct (decide (k = x)) as [->|Hne].
  - rewrite (list_fmap_ext _ (λ _, 0) ks), sum_fmap_zero; [lia|].
    intros i k' Hk'. rewrite decide_False; [done|].
    intros <-. apply Hx. by eapply list_elem_of_lookup_2.
  - rewrite IH; [lia|]. by apply elem_of_cons in Hk as [?|?].
Qed.

Lemma group_totals_conserved {A K} `{EqDecision K}
    (key : A → K) (val : A → Z) (l : list A) ks :
  NoDup ks → (∀ a, a ∈ l → key a ∈ ks) →
  Sql.sum ((λ k, Sql.sum (val <$> filter (λ a, key a = k) l)) <$> ks)
  = Sql.sum (val <$> l).
Proof.
  intros Hks. induction l as [|a l IH]; intros Hcover.
  - simpl. apply sum_fmap_zero.
  - rewrite fmap_cons, sum_cons, <- IH by (intros ??; apply Hcover; by right).
    rewrite <- (sum_indicator (key a) (val a) ks Hks) at 1
      by (apply Hcover; left).
    rewrite <- sum_fmap_add. f_equal. apply list_fmap_ext. intros _ k _.
    rewrite filter_cons. case_decide; by rewrite ?fmap_cons, ?sum_cons.
Qed.

(** The aggregate of the day's orders: one row per SKU that was ordered,
    carrying the sum of its lines, and the rows add up to everything that
    was ordered. *)
Theorem orders_by_sku_totals ol :
  NoDup (o_sku <$> orders_by_sku ol)
  ∧ (∀ o, o ∈ orders_by_sku ol
          ↔ o_sku o ∈ ol_sku <$> ol
            ∧ o_total_quantity o = aggregated_orders ol (o_sku o))
  ∧ Sql.sum (o_total_quantity <$> orders_by_sku ol)
    = Sql.sum (ol_quantity <$> ol).
Proof.
  unfold orders_by_sku, Sql.group_by. split_and!.
  - rewrite <- list_fmap_compose.
    rewrite (list_fmap_ext _ id) by done. rewrite list_fmap_id.
    apply NoDup_remove_dups.
  - intros [sku q]. rewrite list_elem_of_fmap. simpl. split.
    + intros (k & Heq & Hk). rewrite elem_of_remove_dups in Hk.
      injection Heq as -> ->. split; [exact Hk|reflexivity].
    + intros [Hsku ->]. exists sku. split; [done|].
      by apply elem_of_remove_dups.
  - rewrite <- list_fmap_compose. simpl.
    apply (group_totals_conserved ol_sku ol_quantity).
    + apply NoDup_remove_dups.
    + intros a Ha. apply elem_of_remove_dups. by apply list_elem_of_fmap_2.
Qed.

(** The same for the stock: one row per SKU in stock, and both columns
    add up to the stock of all warehouses. *)
Theorem stock_by_sku_totals st :
  NoDup (stk_sku <$> stock_by_sku st)
  ∧ (∀ s, s ∈ stock_by_sku st
          ↔ stk_sku s ∈ st_sku <$> st
            ∧ stk_total_available s = total_available st (stk_sku s)
            ∧ stk_total_reserved s = total_reserved st (stk_sku s))
  ∧ Sql.sum (stk_total_available <$> stock_by_sku st)
    = Sql.sum (st_available_stock <$> st)
  ∧ Sql.sum (stk_total_reserved <$> stock_by_sku st)
    = Sql.sum (st_reserved_stock <$> st).
Proof.
  unfold stock_by_sku, Sql.group_by. split_and!.
  - rewrite <- list_fmap_compose.
    rewrite (list_fmap_ext _ id) by done. rewrite list_fmap_id.
    apply NoDup_remove_dups.
  - intros [sku a r]. rewrite list_elem_of_fmap. simpl. split.
    + intros (k & Heq & Hk). rewrite elem_of_remove_dups in Hk.
      injection Heq as -> -> ->. split_and!; [exact Hk|reflexivity..].
    + intros (Hsku & -> & ->). exists sku. split; [done|].
      by apply elem_of_remove_dups.
  - rewrite <- list_fmap_compose. simpl.
    apply (group_totals_conserved st_sku st_available_stock).
    + apply NoDup_remove_dups.
    + intros a Ha. apply elem_of_remove_dups. by apply list_elem_of_fmap_2.
  - rewrite <- list_fmap_compose. simpl.
    apply (group_totals_conserved st_sku st_reserved_stock).
    + apply NoDup_remove_dups.
    + intros a Ha. apply elem_of_remove_dups. by apply list_elem_of_fmap_2.
Qed.

(** The demand-spike query returns the SKUs whose orders of the day add
    up to more than 1000 units, once each, with that sum. *)
Theorem demand_spike_query_spec ol :
  NoDup (fst <$> demand_spike_query ol)
  ∧ (∀ sku q, (sku, q) ∈ demand_spike_query ol
              ↔ sku ∈ ol_sku <$> ol
                ∧ q = aggregated_orders ol sku ∧ 1000 < q).
Proof.
  unfold demand_spike_query, Sql.group_by. split.
  - rewrite filter_fmap, <- list_fmap_compose. simpl.
    rewrite (list_fmap_ext _ id) by done. rewrite list_fmap_id.
    apply NoDup_filter, NoDup_remove_dups.
  - intros sku q. rewrite list_elem_of_filter, list_elem_of_fmap. simpl. split.
    + intros (Hq & k & Heq & Hk). rewrite elem_of_remove_dups in Hk.
      injection Heq as -> ->. split_and!; [exact Hk|reflexivity|exact Hq].
    + intros (Hsku & -> & Hq). split; [done|]. exists sku. split; [done|].
      by apply elem_of_remove_dups.
Qed.

(* ===================================================================== *)
(** * Further properties: the findings of the quality task *)
(* ===================================================================== *)

Lemma show_integer_no_LF z :
  count_char PrestoCli.LF (PrestoCli.show_integer z) = 0%nat.
Proof.
  unfold PrestoCli.show_integer. destruct z as [|p|p]; [done|..]; simpl.
  - apply (count_char_digits PrestoCli.LF _ eq_refl).
    apply (show_integer_digits (Z.pos p)). lia.
  - apply (count_char_digits PrestoCli.LF _ eq_refl).
    apply (show_integer_digits (Z.pos p)). lia.
Qed.

Lemma show_integer_no_CR z :
  count_char Py.CR (PrestoCli.show_integer z) = 0%nat.
Proof.
  unfold PrestoCli.show_integer. destruct z as [|p|p]; [done|..]; simpl.
  - apply (count_char_digits Py.CR _ eq_refl).
    apply (show_integer_digits (Z.pos p)). lia.
  - apply (count_char_digits Py.CR _ eq_refl).
    apply (show_integer_digits (Z.pos p)). lia.
Qed.

(** The printed answer of a query with the two columns (sku, total)
    holds a CR only where a SKU holds one. *)
Lemma csv_two_columns_no_CR (rows : list (string * Z)) :
  (∀ row, row ∈ rows → count_char Py.CR row.1 = 0%nat) →
  count_char Py.CR
    (PrestoCli.csv ((λ row, [row.1; PrestoCli.show_integer row.2]) <$> rows))
  = 0%nat.
Proof.
  induction rows as [|[sku q] rows IH]; intros Hrows; [done|].
  rewrite fmap_cons. unfold PrestoCli.csv. cbn [foldr].
  fold (PrestoCli.csv ((λ row, [row.1; PrestoCli.show_integer row.2]) <$> rows)).
  rewrite count_char_app, IH by (intros ??; apply Hrows; by right).
  cbn [PrestoCli.csv_row fst snd]. unfold PrestoCli.csv_field.
  rewrite count_char_app. cbn [count_char].
  rewrite !count_char_app. cbn [count_char].
  rewrite !count_char_escape by done.
  rewrite !count_char_app, !count_char_escape by done.
  pose proof (Hrows (sku, q) ltac:(left)) as Hsku. cbn [fst] in Hsku.
  rewrite show_integer_no_CR, Hsku.
  cbn [count_char]. by rewrite !decide_False by done.
Qed.

Lemma length_split sep s :
  length (Py.split sep s) = S (count_char sep s).
Proof.
  induction s as [|a s IH]; [done|]. cbn [Py.split count_char].
  case_decide; [simpl; by rewrite IH|].
  destruct (Py.split sep s) as [|f fs]; simpl in *; lia.
Qed.

(** Trailing white space ends at a double quote. *)
Lemma rstrip_quoted_line s :
  Py.rstrip (s +:+ String PrestoCli.dquote (String PrestoCli.LF ""))
  = s +:+ String PrestoCli.dquote "".
Proof.
  induction s as [|a s IH]; [done|].
  rewrite !string_app_cons. cbn [Py.rstrip]. rewrite IH.
  by destruct s.
Qed.

(** The printed answer of a query with the two columns (sku, total):
    nothing for no row; otherwise a text from the first opening quote to
    the last closing quote and line feed, with one line feed less inside
    than there are rows and line feeds in the SKUs. *)
Lemma csv_two_columns_shape (rows : list (string * Z)) :
  rows ≠ [] →
  ∃ body,
    PrestoCli.csv ((λ row, [row.1; PrestoCli.show_integer row.2]) <$> rows)
    = String PrestoCli.dquote
        (body +:+ String PrestoCli.dquote (String PrestoCli.LF ""))
    ∧ S (count_char PrestoCli.LF body)
      = (length rows
         + sum_list ((λ row, count_char PrestoCli.LF row.1) <$> rows))%nat.
Proof.
  induction rows as [|[sku q] rows IH]; [done|]. intros _.
  rewrite fmap_cons. unfold PrestoCli.csv. cbn [foldr].
  fold (PrestoCli.csv ((λ row, [row.1; PrestoCli.show_integer row.2]) <$> rows)).
  cbn [PrestoCli.csv_row fst snd]. unfold PrestoCli.csv_field.
  rewrite !string_app_cons, !string_app_assoc, !string_app_cons.
  destruct rows as [|row rows].
  - exists (PrestoCli.escape sku
            +:+ String PrestoCli.dquote
                  (String PrestoCli.comma
                     (String PrestoCli.dquote
                        (PrestoCli.escape (PrestoCli.show_integer q))))).
    split.
    + cbn [PrestoCli.csv fmap list_fmap foldr].
      repeat (rewrite string_app_assoc || rewrite string_app_cons).
      reflexivity.
    + rewrite count_char_app. cbn [count_char].
      rewrite !count_char_escape by done.
      rewrite show_integer_no_LF, !decide_False by done. simpl. lia.
  - destruct IH as (body & -> & Hbody); [done|].
    exists (PrestoCli.escape sku
            +:+ String PrestoCli.dquote
                  (String PrestoCli.comma
                     (String PrestoCli.dquote
                        (PrestoCli.escape (PrestoCli.show_integer q)
                           +:+ String PrestoCli.dquote
                                 (String PrestoCli.LF
                                    (String PrestoCli.dquote body)))))).
    split.
    + repeat (rewrite string_app_assoc || rewrite string_app_cons).
      reflexivity.
    + rewrite count_char_app. cbn [count_char]. rewrite count_char_app.
      cbn [count_char]. rewrite !count_char_escape by done.
      rewrite show_integer_no_LF, !decide_False by done.
      rewrite decide_True by done.
      rewrite (fmap_cons _ (sku, q)). cbn [sum_list sum_list_with length fst].
      simpl in Hbody. simpl. lia.
Qed.

Lemma demand_spike_query_sku ol row :
  row ∈ demand_spike_query ol → row.1 ∈ ol_sku <$> ol.
Proof.
  unfold demand_spike_query, Sql.group_by.
  rewrite list_elem_of_filter, list_elem_of_fmap.
  intros (_ & k & -> & Hk). by rewrite elem_of_remove_dups in Hk.
Qed.

Lemma sum_list_zero {A} (f : A → nat) l :
  (∀ a, a ∈ l → f a = 0%nat) → sum_list (f <$> l) = 0%nat.
Proof.
  induction l as [|a l IH]; intros Hl; [done|].
  rewrite fmap_cons. cbn [sum_list sum_list_with]. rewrite Hl by left.
  rewrite Nat.add_0_l. apply IH. intros ??. apply Hl. by right.
Qed.

(** The number of lines the second check counts: one for an empty answer,
    otherwise one per returned row (when no SKU holds a line feed or a
    carriage return). *)
Lemma demand_spike_lines ol :
  (∀ l, l ∈ ol → count_char PrestoCli.LF (ol_sku l) = 0%nat
                 ∧ count_char Py.CR (ol_sku l) = 0%nat) →
  length (Py.split PrestoCli.LF (Py.strip (demand_spike_stdout ol)))
  = match demand_spike_query ol with
    | [] => 1%nat
    | rows => length rows
    end.
Proof.
  intros Hsku. unfold demand_spike_stdout.
  pose proof (demand_spike_query_sku ol) as Hrows.
  rewrite universal_newlines_id.
  2: { apply csv_two_columns_no_CR. intros r Hr. apply Hrows in Hr.
       apply list_elem_of_fmap in Hr as (l & -> & Hl). by apply Hsku. }
  destruct (demand_spike_query ol) as [|row rows] eqn:Hq; [done|].
  destruct (csv_two_columns_shape (row :: rows)) as (body & -> & Hbody);
    [done|].
  unfold Py.strip.
  rewrite <- string_app_cons, rstrip_quoted_line, string_app_cons.
  cbn [Py.lstrip]. change (Py.is_space PrestoCli.dquote) with false.
  cbv iota. rewrite length_split. cbn [count_char].
  rewrite decide_False by done. rewrite count_char_app. cbn [count_char].
  rewrite decide_False by done.
  rewrite sum_list_zero in Hbody.
  - simpl in *. lia.
  - intros r Hr. apply Hrows in Hr.
    apply list_elem_of_fmap in Hr as (l & -> & Hl). by apply Hsku.
Qed.

(** What the quality task reports, in full: the WARNING exactly when some
    active product has no supplier link, then the INFO exactly when at
    least TWO SKUs were ordered more than 1000 times; and it returns
    [True].  (No SKU of the day holds a line feed or a carriage return,
    which the text mode of [subprocess.run] reads as a line feed.) *)
Theorem validate_data_quality_findings pg hive :
  (∀ l, l ∈ orders hive → count_char PrestoCli.LF (ol_sku l) = 0%nat
                          ∧ count_char Py.CR (ol_sku l) = 0%nat) →
  validate_data_quality pg hive
  = ((if decide (0 < unmapped_skus_query pg) then [WARNING_unmapped] else [])
     ++ (if decide (2 ≤ length (demand_spike_query (orders hive)))%nat
         then [INFO_spike] else []),
     Returned true).
Proof.
  intros Hsku. unfold validate_data_quality.
  rewrite (demand_spike_lines _ Hsku).
  pose proof (unmapped_check_spec pg) as Hspec.
  assert (0 ≤ unmapped_skus_query pg)
    by (unfold unmapped_skus_query, Sql.count_distinct; lia).
  f_equal.
  assert (Py.contains quoted_zero (unmapped_skus_stdout pg)
          = bool_decide (unmapped_skus_query pg = 0)) as ->.
  { destruct (Py.contains _ _).
    - symmetry. apply bool_decide_eq_true. by apply Hspec.
    - symmetry. apply bool_decide_eq_false. intros Hz. apply Hspec in Hz. done. }
  case_bool_decide as Hz; simpl.
  - rewrite decide_False by lia. simpl.
    destruct (demand_spike_query (orders hive)) as [|r1 [|r2 rows]]; done.
  - rewrite decide_True by lia.
    destruct (demand_spike_query (orders hive)) as [|r1 [|r2 rows]];
      [done|done|].
    rewrite decide_True by (simpl; lia). done.
Qed.

Lemma validate_data_quality_findings_witness :
  validate_data_quality Sample.two_products
    (Sample.day [Sample.order "SKU00001" 1500; Sample.order "SKU00002" 1200] [])
  = ([INFO_spike], Returned true).
Proof.
  rewrite (validate_data_quality_findings Sample.two_products).
  - reflexivity.
  - intros l Hl. simpl in Hl.
    apply elem_of_cons in Hl as [->|Hl];
      [|apply list_elem_of_singleton in Hl as ->]; split; reflexivity.
Defined.

(* ===================================================================== *)
(** * Further properties: the seeding scripts *)
(* ===================================================================== *)

Lemma zeros_string_of_uint k d :
  PyGen.zeros k +:+ NilEmpty.string_of_uint d
  = NilEmpty.string_of_uint (Nat.iter k Decimal.D0 d).
Proof.
  induction k as [|k IH]; [done|]. cbn [PyGen.zeros Nat.iter].
  by rewrite string_app_cons, IH.
Qed.

Lemma of_uint_leading_zeros k d :
  Nat.of_uint (Nat.iter k Decimal.D0 d) = Nat.of_uint d.
Proof. induction k as [|k IH]; [done|]. cbn [Nat.iter]. by rewrite <- IH. Qed.

(** The running number can be read back from its padded digits. *)
Lemma format_0d_read_back w n :
  Nat.of_uint <$> NilEmpty.uint_of_string (PyGen.format_0d w n) = Some n.
Proof.
  unfold PyGen.format_0d, PyGen.str_of_nat.
  rewrite zeros_string_of_uint, NilEmpty.usu. simpl.
  by rewrite of_uint_leading_zeros, DecimalNat.Unsigned.of_to.
Qed.

Lemma format_0d_inj w n m :
  PyGen.format_0d w n = PyGen.format_0d w m → n = m.
Proof.
  intros Heq. pose proof (format_0d_read_back w n) as Hn.
  rewrite Heq, format_0d_read_back in Hn. congruence.
Qed.

Lemma string_app_inj_l s t u : s +:+ t = s +:+ u → t = u.
Proof.
  induction s as [|c s IH]; [done|].
  rewrite !string_app_cons. intros [= ?]. by apply IH.
Qed.

(** Codes made of a prefix and the padded running number are distinct. *)
Lemma numbered_codes_NoDup prefix w start len :
  NoDup ((λ i, prefix +:+ PyGen.format_0d w (i + 1)) <$> seq start len).
Proof.
  apply NoDup_fmap_2; [|apply NoDup_seq].
  intros i j Heq%string_app_inj_l%format_0d_inj. lia.
Qed.

Lemma choice_elem {A} draw (d : A) l : l ≠ [] → PyGen.choice draw d l ∈ l.
Proof.
  intros Hl. unfold PyGen.choice. apply list_elem_of_In, nth_In.
  apply Nat.mod_upper_bound. by destruct l.
Qed.

Lemma randint_bounds draw a b :
  a ≤ b → a ≤ PyGen.randint draw a b ≤ b.
Proof.
  intros Hab. unfold PyGen.randint.
  pose proof (Z.mod_pos_bound (Z.of_nat draw) (b - a + 1)). lia.
Qed.

Lemma length_slice_to k s : (String.length (PyGen.slice_to k s) ≤ k)%nat.
Proof.
  unfold PyGen.slice_to. revert s. induction k as [|k IH]; intros [|c s];
    simpl; try lia. specialize (IH s). lia.
Qed.

Section Insert.
Context {A K : Type} `{EqDecision K}.
Variable key : A → K.

Lemma insert_present (table rows : list A) :
  (∀ r, r ∈ rows → key r ∈ key <$> table) →
  insert_on_conflict_do_nothing key table rows = table.
Proof.
  unfold insert_on_conflict_do_nothing.
  induction rows as [|r rows IH]; intros Hrows; [done|].
  cbn [foldl]. rewrite decide_True by (apply Hrows; left).
  apply IH. intros ??. apply Hrows. by right.
Qed.

Lemma insert_fresh (table rows : list A) :
  NoDup (key <$> rows) → (∀ r, r ∈ rows → key r ∉ key <$> table) →
  insert_on_conflict_do_nothing key table rows = table ++ rows.
Proof.
  unfold insert_on_conflict_do_nothing. revert table.
  induction rows as [|r rows IH]; intros table Hnd Hfresh.
  - by rewrite app_nil_r.
  - rewrite fmap_cons in Hnd. apply NoDup_cons in Hnd as [Hr Hnd].
    cbn [foldl]. rewrite decide_False by (apply Hfresh; left).
    rewrite IH, <- app_assoc; [done|done|].
    intros r' Hr'. rewrite fmap_app. intros [?|Hin]%elem_of_app.
    + by apply (Hfresh r'); [right|].
    + apply list_elem_of_singleton in Hin. apply Hr. rewrite <- Hin.
      by apply list_elem_of_fmap_2.
Qed.

(** Whatever is inserted, the keys of the table stay distinct and the
    rows that were there stay in front. *)
Lemma insert_keeps_keys_distinct (table rows : list A) :
  NoDup (key <$> table) →
  NoDup (key <$> insert_on_conflict_do_nothing key table rows)
  ∧ table `prefix_of` insert_on_conflict_do_nothing key table rows.
Proof.
  unfold insert_on_conflict_do_nothing. revert table.
  induction rows as [|r rows IH]; intros table Hnd; [done|].
  cbn [foldl]. case_decide as Hin; [by apply IH|].
  destruct (IH (table ++ [r])) as [? Hpre].
  - rewrite fmap_app. apply NoDup_app. split_and!; [done| |apply NoDup_singleton].
    intros k Hk ->%list_elem_of_singleton. done.
  - split; [done|]. etrans; [|done]. by apply prefix_app_r.
Qed.

Lemma insert_elem_of (table rows : list A) x :
  x ∈ insert_on_conflict_do_nothing key table rows → x ∈ table ∨ x ∈ rows.
Proof.
  unfold insert_on_conflict_do_nothing. revert table.
  induction rows as [|r rows IH]; intros table; [by left|].
  cbn [foldl]. case_decide; intros [Hx|Hx]%IH.
  - by left.
  - right. by right.
  - apply elem_of_app in Hx as [?|Hx]; [by left|].
    apply list_elem_of_singleton in Hx as ->. right. by left.
  - right. by right.
Qed.

Lemma insert_prefix (table rows : list A) :
  table `prefix_of` insert_on_conflict_do_nothing key table rows.
Proof.
  unfold insert_on_conflict_do_nothing. revert table.
  induction rows as [|r rows IH]; intros table; [done|].
  cbn [foldl]. case_decide; [apply IH|].
  etrans; [|apply IH]. by apply prefix_app_r.
Qed.

Lemma insert_covers (table rows : list A) r :
  r ∈ rows → key r ∈ key <$> insert_on_conflict_do_nothing key table rows.
Proof.
  unfold insert_on_conflict_do_nothing. revert table.
  induction rows as [|r' rows IH]; intros table Hr; [by inv Hr|].
  cbn [foldl]. apply elem_of_cons in Hr as [->|Hr].
  - assert (key r' ∈ key <$> (if decide (key r' ∈ key <$> table)
                               then table else table ++ [r'])) as Hin.
    { case_decide; [done|]. rewrite fmap_app. apply elem_of_app. right.
      by left. }
    apply list_elem_of_fmap in Hin as (y & Heq & Hy).
    apply list_elem_of_fmap. exists y. split; [done|].
    destruct (insert_prefix
                (if decide (key r' ∈ key <$> table) then table
                 else table ++ [r']) rows) as [k Hk].
    unfold insert_on_conflict_do_nothing in Hk. rewrite Hk. apply elem_of_app. by left.
  - by apply IH.
Qed.
End Insert.

Lemma seq_subseteq_codes prefix w n m i :
  (m ≤ n)%nat → i ∈ seq 0 m →
  prefix +:+ PyGen.format_0d w (i + 1)
  ∈ (λ i, prefix +:+ PyGen.format_0d w (i + 1)) <$> seq 0 n.
Proof.
  intros Hmn Hi. apply list_elem_of_fmap. exists i. split; [done|].
  apply elem_of_seq in Hi. apply elem_of_seq. lia.
Qed.

Lemma generate_suppliers_codes_distinct rnd num :
  NoDup (sr_supplier_code <$> generate_suppliers rnd num).
Proof.
  unfold generate_suppliers. rewrite <- list_fmap_compose.
  apply (numbered_codes_NoDup "SUP" 3).
Qed.

(** [generate_suppliers] gives the asked number of rows, with pairwise
    distinct codes, all active, a lead time of 1 to 5 days, a phone number
    of at most 20 characters and a name that ends in one of the ten
    supplier types. *)
Theorem generate_suppliers_rows rnd num :
  length (generate_suppliers rnd num) = num
  ∧ NoDup (sr_supplier_code <$> generate_suppliers rnd num)
  ∧ ∀ s, s ∈ generate_suppliers rnd num →
      sr_is_active s = true
      ∧ 1 ≤ sr_lead_time_days s ≤ 5
      ∧ (String.length (sr_contact_phone s) ≤ 20)%nat
      ∧ ∃ company type, type ∈ supplier_types
          ∧ sr_supplier_name s = company +:+ " " +:+ type.
Proof.
  unfold generate_suppliers. split_and!.
  - by rewrite length_fmap, length_seq.
  - apply generate_suppliers_codes_distinct.
  - intros s (i & -> & _)%list_elem_of_fmap. simpl. split_and!.
    + done.
    + by apply randint_bounds.
    + by apply randint_bounds.
    + apply length_slice_to.
    + eexists _, _. split; [|done]. by apply choice_elem.
Qed.

(** Seeding the suppliers is idempotent: into an empty table every
    generated row goes in, and a second run of at most as many suppliers
    adds nothing and changes nothing, whatever names it draws. *)
Theorem seeding_suppliers_twice rnd rnd' n m :
  (m ≤ n)%nat →
  insert_suppliers_to_db [] (generate_suppliers rnd n)
  = generate_suppliers rnd n
  ∧ insert_suppliers_to_db (generate_suppliers rnd n)
      (generate_suppliers rnd' m)
    = generate_suppliers rnd n.
Proof.
  intros Hmn. unfold insert_suppliers_to_db. split.
  - rewrite insert_fresh; [done| |by intros ?? ?%elem_of_nil].
    apply generate_suppliers_codes_distinct.
  - apply insert_present.
    intros s (i & -> & Hi)%list_elem_of_fmap. unfold generate_suppliers.
    rewrite <- list_fmap_compose. simpl.
    by apply (seq_subseteq_codes "SUP" 3 n m).
Qed.

Lemma seeding_suppliers_twice_witness :
  insert_suppliers_to_db
    (generate_suppliers (SeedSample.supplier_draws 0) 10)
    (generate_suppliers (SeedSample.supplier_draws 7) 4)
  = generate_suppliers (SeedSample.supplier_draws 0) 10.
Proof.
  apply (seeding_suppliers_twice (SeedSample.supplier_draws 0)
           (SeedSample.supplier_draws 7) 10 4).
  lia.
Defined.

Lemma subcategories_of_category category :
  category ∈ fst <$> PRODUCT_CATEGORIES →
  ∃ subs, subcategories_of category = Some subs
          ∧ (category, subs) ∈ PRODUCT_CATEGORIES ∧ subs ≠ [].
Proof.
  intros Hc. simpl in Hc. unfold subcategories_of.
  repeat (apply elem_of_cons in Hc as [->|Hc];
          [eexists; split; [reflexivity|]; split; [|done];
           compute_done|]).
  by apply elem_of_nil in Hc.
Qed.

Lemma generate_products_skus_distinct {Price} (rnd : ProductDraws Price) num :
  NoDup (pr_sku <$> generate_products rnd num).
Proof.
  unfold generate_products. rewrite <- list_fmap_compose.
  apply (numbered_codes_NoDup "SKU" 5).
Qed.

(** [generate_products] gives the asked number of rows with pairwise
    distinct SKUs; the category of a row is one of the nine, its
    subcategory is listed under that category and closes its name, and
    its unit is one of the four. *)
Theorem generate_products_rows {Price} (rnd : ProductDraws Price) num :
  length (generate_products rnd num) = num
  ∧ NoDup (pr_sku <$> generate_products rnd num)
  ∧ ∀ p, p ∈ generate_products rnd num →
      (∃ subs, (pr_category p, subs) ∈ PRODUCT_CATEGORIES
               ∧ pr_subcategory p ∈ subs)
      ∧ (∃ company, pr_product_name p = company +:+ " " +:+ pr_subcategory p)
      ∧ pr_unit_of_measure p ∈ ["UNIT"; "KG"; "L"; "PACK"].
Proof.
  split_and!.
  - unfold generate_products. by rewrite length_fmap, length_seq.
  - apply generate_products_skus_distinct.
  - unfold generate_products.
    intros p (i & -> & _)%list_elem_of_fmap.
    cbn [pr_category pr_subcategory pr_product_name pr_unit_of_measure].
    split_and!.
    + destruct (subcategories_of_category
                  (PyGen.choice (draw_category rnd i) ""
                     (fst <$> PRODUCT_CATEGORIES)))
        as (subs & -> & Hin & Hne); [by apply choice_elem|].
      exists subs. split; [done|]. simpl. by apply choice_elem.
    + by eexists.
    + by apply choice_elem.
Qed.

(** Seeding the products is idempotent in the same way: every generated
    row goes into an empty table, and a second run of at most as many
    products adds nothing, so the SKUs of the table stay unique. *)
Theorem seeding_products_twice {Price} (rnd rnd' : ProductDraws Price) n m :
  (m ≤ n)%nat →
  insert_products_to_db [] (generate_products rnd n)
  = generate_products rnd n
  ∧ insert_products_to_db (generate_products rnd n)
      (generate_products rnd' m)
    = generate_products rnd n.
Proof.
  intros Hmn. unfold insert_products_to_db. split.
  - rewrite insert_fresh; [done| |by intros ?? ?%elem_of_nil].
    apply generate_products_skus_distinct.
  - apply insert_present.
    intros s (i & -> & Hi)%list_elem_of_fmap. unfold generate_products.
    rewrite <- list_fmap_compose. simpl.
    by apply (seq_subseteq_codes "SKU" 5 n m).
Qed.

Lemma seeding_products_twice_witness :
  insert_products_to_db
    (generate_products (SeedSample.product_draws 0) 6)
    (generate_products (SeedSample.product_draws 5) 6)
  = generate_products (SeedSample.product_draws 0) 6.
Proof.
  apply (seeding_products_twice (SeedSample.product_draws 0)
           (SeedSample.product_draws 5) 6 6).
  lia.
Defined.

(** [generate_warehouses] gives the asked number of rows with pairwise
    distinct codes, all active; the names come round again after five
    warehouses. *)
Theorem generate_warehouses_rows {Capacity}
    (fake_address : nat → string) (capacity : nat → Capacity) num :
  let warehouses := generate_warehouses fake_address capacity num in
  length warehouses = num
  ∧ NoDup (wr_warehouse_code <$> warehouses)
  ∧ (∀ w, w ∈ warehouses →
       wr_is_active w = true
       ∧ (String.length (wr_location w) ≤ 200)%nat)
  ∧ (∀ i w w', warehouses !! i = Some w →
       warehouses !! (i + 5)%nat = Some w' →
       wr_warehouse_name w' = wr_warehouse_name w).
Proof.
  unfold generate_warehouses. split_and!.
  - by rewrite length_fmap, length_seq.
  - rewrite <- list_fmap_compose. apply (numbered_codes_NoDup "WH" 2).
  - intros w (i & -> & _)%list_elem_of_fmap. simpl.
    split; [done|apply length_slice_to].
  - intros i w w'. rewrite !list_lookup_fmap.
    intros (j & Hj & ->)%fmap_Some (j' & Hj' & ->)%fmap_Some.
    apply lookup_seq in Hj as [-> _], Hj' as [-> _].
    cbn [wr_warehouse_name]. do 2 f_equal.
    change (length warehouse_locations) with 5%nat.
    rewrite !Nat.add_0_l.
    rewrite <- (Nat.Div0.add_mod_idemp_r i 5 5).
    change (5 `mod` 5)%nat with 0%nat. by rewrite Nat.add_0_r.
Qed.

(** ** [random.sample] and the supplier links *)

Lemma length_sample {A} draws (l : list A) k :
  (k ≤ length l)%nat → length (PyGen.sample draws l k) = k.
Proof.
  revert draws l. induction k as [|k IH]; intros draws l Hk; [done|].
  cbn [PyGen.sample].
  assert (draws 0%nat `mod` length l < length l)%nat as Hi
    by (apply Nat.mod_upper_bound; lia).
  destruct (lookup_lt_is_Some_2 l _ Hi) as [x Hx]. rewrite Hx. cbn [length].
  rewrite IH; [done|]. rewrite length_delete by (by eexists). lia.
Qed.

Lemma sample_elem {A} draws (l : list A) k x :
  x ∈ PyGen.sample draws l k → x ∈ l.
Proof.
  revert draws l. induction k as [|k IH]; intros draws l; [by inv 1|].
  cbn [PyGen.sample]. destruct (l !! _) as [y|] eqn:Hy; [|by inv 1].
  intros [->|Hx]%elem_of_cons.
  - by eapply list_elem_of_lookup_2.
  - by eapply list_elem_of_delete_inv, IH.
Qed.

Lemma sample_NoDup {A} draws (l : list A) k :
  NoDup l → NoDup (PyGen.sample draws l k).
Proof.
  revert draws l. induction k as [|k IH]; intros draws l Hl;
    [apply NoDup_nil_2|].
  cbn [PyGen.sample]. destruct (l !! _) as [y|] eqn:Hy; [|apply NoDup_nil_2].
  rewrite (delete_Permutation l _ y Hy) in Hl.
  apply NoDup_cons in Hl as [Hy' Hl]. apply NoDup_cons. split; [|by apply IH].
  intros Hin. by apply Hy', (sample_elem _ _ _ _ Hin).
Qed.

(** The links of one product, as the inner loop builds them: the first
    selected supplier is the primary one. *)
Lemma product_links_primary pid (selected : list Z) :
  filter (λ m, sp_is_primary_supplier m = true)
    (imap (λ idx sid, {| sp_supplier_id := sid; sp_product_id := pid;
                         sp_is_primary_supplier := bool_decide (idx = 0%nat) |})
       selected)
  = match selected with
    | [] => []
    | sid :: _ => [ {| sp_supplier_id := sid; sp_product_id := pid;
                       sp_is_primary_supplier := true |} ]
    end.
Proof.
  destruct selected as [|sid rest]; [done|].
  rewrite imap_cons, filter_cons_True by done. f_equal.
  apply filter_none. intros m (i & y & -> & _)%elem_of_lookup_imap. done.
Qed.

Lemma imap_supplier_ids (b : nat → bool) pid (l : list Z) :
  sp_supplier_id
    <$> imap (λ idx sid, {| sp_supplier_id := sid; sp_product_id := pid;
                            sp_is_primary_supplier := b idx |}) l
  = l.
Proof.
  revert b. induction l as [|x l IH]; intros b; [done|].
  rewrite imap_cons, fmap_cons. simpl. f_equal. apply (IH (b ∘ S)).
Qed.

(** The rows of one product in a list built product by product. *)
Lemma filter_product_join_imap (g : nat → Z → list SupplierProduct) l pid :
  (∀ i p m, m ∈ g i p → sp_product_id m = p) →
  NoDup l → pid ∈ l →
  ∃ i, l !! i = Some pid
       ∧ filter (λ m, sp_product_id m = pid) (mjoin (imap g l)) = g i pid.
Proof.
  revert g. induction l as [|x l IH]; intros g Hg Hnd Hpid; [by inv Hpid|].
  apply NoDup_cons in Hnd as [Hx Hnd].
  rewrite imap_cons.
  change (mjoin (?a :: ?b)) with (a ++ mjoin b). rewrite filter_app.
  apply elem_of_cons in Hpid as [->|Hpid].
  - exists 0%nat. split; [done|].
    rewrite (filter_all _ (g 0%nat x)) by (intros ??; by eapply Hg).
    rewrite filter_none; [by rewrite app_nil_r|].
    intros m (ms & Hm & Hms)%list_elem_of_join Heq.
    apply elem_of_lookup_imap in Hms as (i & p & -> & Hp).
    apply Hg in Hm. apply Hx. rewrite <- Heq, Hm.
    by eapply list_elem_of_lookup_2.
  - destruct (IH (g ∘ S)) as (i & Hi & Heq); [|done|done|].
    { intros i p m. apply Hg. }
    exists (S i). split; [done|].
    rewrite Heq, filter_none; [done|].
    intros m Hm Hmp. apply Hg in Hm. apply Hx. by rewrite <- Hm, Hmp.
Qed.

(** The first run of [link_products_to_suppliers] gives every product one
    or two supplier links, with suppliers from the table, distinct when
    their ids are, and exactly one of the links is the primary one. *)
Theorem link_products_to_suppliers_primary
    draw_count draw_sample product_ids supplier_ids pid :
  NoDup product_ids → supplier_ids ≠ [] → pid ∈ product_ids →
  let links :=
    filter (λ m, sp_product_id m = pid)
      (link_products_to_suppliers draw_count draw_sample
         product_ids supplier_ids) in
  (1 ≤ length links ≤ 2)%nat
  ∧ length (filter (λ m, sp_is_primary_supplier m = true) links) = 1%nat
  ∧ (∀ m, m ∈ links → sp_supplier_id m ∈ supplier_ids)
  ∧ (NoDup supplier_ids → NoDup (sp_supplier_id <$> links)).
Proof.
  intros Hnd Hsup Hpid links. subst links.
  unfold link_products_to_suppliers.
  destruct product_ids as [|p0 ps] eqn:Hps; [by inv Hpid|].
  destruct supplier_ids as [|s0 ss] eqn:Hss; [done|].
  rewrite <- Hps, <- Hss in *. clear Hps.
  edestruct (filter_product_join_imap) as (i & Hi & ->); [|done|done|].
  { intros i p m (idx & sid & -> & _)%elem_of_lookup_imap. done. }
  set (n := Z.to_nat (PyGen.randint (draw_count i) 1 2)).
  assert (1 ≤ n ≤ 2)%nat as Hn.
  { subst n. pose proof (randint_bounds (draw_count i) 1 2). lia. }
  assert (1 ≤ length supplier_ids)%nat by (rewrite Hss; simpl; lia).
  set (k := (n `min` length supplier_ids)%nat).
  assert (1 ≤ k ≤ 2)%nat by lia.
  pose proof (length_sample (draw_sample i) supplier_ids k ltac:(lia)) as Hlen.
  set (selected := PyGen.sample (draw_sample i) supplier_ids k) in *.
  split_and!.
  - rewrite length_imap. lia.
  - rewrite length_imap. lia.
  - rewrite product_links_primary. destruct selected; simpl in *; [lia|done].
  - intros m (idx & sid & -> & Hsid)%elem_of_lookup_imap. simpl.
    eapply sample_elem. by eapply list_elem_of_lookup_2.
  - intros Hnds.
    rewrite (imap_supplier_ids (λ idx, bool_decide (idx = 0%nat))).
    by apply sample_NoDup.
Qed.

Lemma link_products_to_suppliers_primary_witness :
  length
    (filter (λ m, sp_is_primary_supplier m = true)
       (filter (λ m, sp_product_id m = 2)
          (link_products_to_suppliers (λ i, i) (λ i j, (i + j)%nat)
             [1; 2; 3] [7; 8])))
  = 1%nat.
Proof.
  apply (link_products_to_suppliers_primary (λ i, i) (λ i j, (i + j)%nat)
           [1; 2; 3] [7; 8] 2).
  - compute_done.
  - discriminate.
  - right. left.
Defined.

(* ===================================================================== *)
(** * Further properties: [create_hive_tables] *)
(* ===================================================================== *)

Lemma count_char_head c b s : count_char c (String b s) = 0%nat → b ≠ c.
Proof. simpl. case_decide; [lia|done]. Qed.

Lemma count_char_tail c b s :
  count_char c (String b s) = 0%nat → count_char c s = 0%nat.
Proof. simpl. lia. Qed.

(** A text cannot begin across a character it does not hold. *)
Lemma prefix_app_foreign n x c t :
  count_char c n = 0%nat →
  String.prefix n (x +:+ String c t) = String.prefix n x.
Proof.
  revert n. induction x as [|a x IH]; intros [|b n] Hc; try done.
  - change ("" +:+ String c t) with (String c t). rewrite prefix_cons.
    rewrite decide_False by (by eapply count_char_head). done.
  - rewrite string_app_cons, !prefix_cons. case_decide; [|done].
    apply IH. by eapply count_char_tail.
Qed.

Lemma contains_skip_foreign n d s :
  n ≠ "" → foreign_to d n = true →
  Py.contains n (d +:+ s) = Py.contains n s.
Proof.
  intros Hn. induction d as [|c d IH]; [done|].
  cbn [foreign_to]. intros [Hc Hd]%andb_true_iff.
  apply Nat.eqb_eq in Hc. rewrite string_app_cons. cbn [Py.contains].
  rewrite IH by done. destruct n as [|b n]; [done|].
  rewrite prefix_cons, decide_False by (by eapply count_char_head). done.
Qed.

(** A text that shares no character with a non-empty insertion occurs
    around the insertion only where it occurs before or behind it. *)
Lemma contains_app_foreign n p c d s :
  n ≠ "" → foreign_to (String c d) n = true →
  Py.contains n (p +:+ String c d +:+ s)
  = Py.contains n p || Py.contains n s.
Proof.
  intros Hn Hd. induction p as [|a p IH].
  - change ("" +:+ String c d +:+ s) with (String c d +:+ s).
    rewrite (contains_skip_foreign n (String c d)) by done.
    by destruct n.
  - rewrite string_app_cons. cbn [Py.contains]. rewrite IH.
    rewrite <- (prefix_app_foreign n (String a p) c (d +:+ s)).
    + by rewrite orb_assoc.
    + cbn [foreign_to] in Hd. apply andb_true_iff in Hd as [Hc _].
      by apply Nat.eqb_eq in Hc.
Qed.

(** With a date that holds no character of "DROP TABLE" (any date of
    digits and dashes), the two CREATE statements do not contain it. *)
Lemma create_queries_are_not_drops date :
  foreign_to date "DROP TABLE" = true →
  Py.contains "DROP TABLE" (create_orders_table date) = false
  ∧ Py.contains "DROP TABLE" (create_stock_table date) = false.
Proof.
  intros Hd. unfold create_orders_table, create_stock_table.
  destruct date as [|c d]; [split; vm_compute; reflexivity|].
  rewrite !contains_app_foreign by done. split; vm_compute; reflexivity.
Qed.

Section CreateHiveTables.
Context {World : Type}.
Variable subprocess_run : World → list string → World * CompletedProcess.

(** [create_hive_tables] runs the two DROP statements whatever they
    answer, then the CREATE of the orders table and, only if that one
    succeeded, the CREATE of the stock table; it raises with the error
    text of the first CREATE that fails and returns [True] when both
    succeed.  (The date holds no character of "DROP TABLE".) *)
Theorem create_hive_tables_outcome date (s : Sys World) :
  foreign_to date "DROP TABLE" = true →
  let exec q := run World subprocess_run (presto_execute q) in
  let drop1 := exec "DROP TABLE IF EXISTS hive.default.orders" s in
  let drop2 := exec "DROP TABLE IF EXISTS hive.default.stock" drop1.1 in
  let create1 := exec (create_orders_table date) drop2.1 in
  let create2 := exec (create_stock_table date) create1.1 in
  create_hive_tables World subprocess_run date s
  = if decide (returncode create1.2 ≠ 0)
    then (create1.1,
          Raised ("Failed to create tables: " +:+ stderr create1.2))
    else if decide (returncode create2.2 ≠ 0)
    then (create2.1,
          Raised ("Failed to create tables: " +:+ stderr create2.2))
    else (create2.1, Returned true).
Proof.
  intros Hd. destruct (create_queries_are_not_drops date Hd) as [Ho Hs].
  intros exec drop1 drop2 create1 create2.
  unfold create_hive_tables, hive_table_queries.
  cbn [run_table_queries].
  change (Py.contains "DROP TABLE" "DROP TABLE IF EXISTS hive.default.orders")
    with true.
  change (Py.contains "DROP TABLE" "DROP TABLE IF EXISTS hive.default.stock")
    with true.
  rewrite !andb_false_r, Ho, Hs, !andb_true_r.
  fold (exec "DROP TABLE IF EXISTS hive.default.orders" s). fold drop1.
  fold (exec "DROP TABLE IF EXISTS hive.default.stock" drop1.1). fold drop2.
  fold (exec (create_orders_table date) drop2.1). fold create1.
  fold (exec (create_stock_table date) create1.1). fold create2.
  repeat case_bool_decide; repeat case_decide; done.
Qed.
End CreateHiveTables.

Lemma create_hive_tables_outcome_witness :
  foreign_to "2026-01-13" "DROP TABLE" = true
  ∧ (create_hive_tables nat (SubprocessSample.fails_at 1) "2026-01-13"
       (0%nat, [])).2 = Returned true
  ∧ (create_hive_tables nat (SubprocessSample.fails_at 2) "2026-01-13"
       (0%nat, [])).2 = Raised "Failed to create tables: refused".
Proof.
  split; [reflexivity|]. split.
  - pose proof (create_hive_tables_outcome (SubprocessSample.fails_at 1)
                  "2026-01-13" (0%nat, []) eq_refl) as H.
    cbv zeta in H. rewrite H. reflexivity.
  - pose proof (create_hive_tables_outcome (SubprocessSample.fails_at 2)
                  "2026-01-13" (0%nat, []) eq_refl) as H.
    cbv zeta in H. rewrite H. reflexivity.
Defined.

(* ===================================================================== *)
(** * Further properties: the schema and availability tasks *)
(* ===================================================================== *)

Lemma prefix_spec n h : String.prefix n h = true ↔ ∃ q, h = n +:+ q.
Proof.
  revert h. induction n as [|c n IH]; intros h.
  - split; [intros _; by exists h|intros _; by destruct h].
  - destruct h as [|d h].
    + split; [done|by intros [q ?]].
    + rewrite prefix_cons. case_decide as Hcd.
      * subst d. rewrite IH. split; intros [q Hq]; exists q.
        -- by rewrite string_app_cons, <- Hq.
        -- rewrite string_app_cons in Hq. congruence.
      * split; [done|]. intros [q Hq]. rewrite string_app_cons in Hq.
        congruence.
Qed.

(** [needle in hay] holds exactly when the needle lies somewhere in the
    hay. *)
Lemma contains_spec n h :
  Py.contains n h = true ↔ ∃ p q, h = p +:+ n +:+ q.
Proof.
  induction h as [|c h IH]; cbn [Py.contains].
  - rewrite orb_false_r, prefix_spec. split.
    + intros [q Hq]. by exists EmptyString, q.
    + intros (p & q & Hq). destruct p; [by exists q|done].
  - rewrite orb_true_iff, prefix_spec, IH. split.
    + intros [[q Hq]|(p & q & Hq)].
      * by exists EmptyString, q.
      * exists (String c p), q. by rewrite string_app_cons, <- Hq.
    + intros (p & q & Hq). destruct p as [|d p].
      * left. by exists q.
      * right. exists p, q. rewrite string_app_cons in Hq. congruence.
Qed.

Lemma no_space_app a b :
  PyText.no_space (a +:+ b) = PyText.no_space a && PyText.no_space b.
Proof.
  induction a as [|c a IH]; [done|].
  rewrite string_app_cons. cbn [PyText.no_space]. by rewrite IH, andb_assoc.
Qed.

Lemma split_whitespace_word w :
  PyText.no_space w = true → w ≠ EmptyString →
  PyText.split_whitespace w = [w].
Proof.
  induction w as [|c w IH]; [done|]. cbn [PyText.no_space].
  intros [Hc Hw]%andb_true_iff _. apply negb_true_iff in Hc.
  cbn [PyText.split_whitespace]. rewrite Hc.
  destruct w as [|c' w]; [done|]. rewrite IH by done.
  cbn [PyText.no_space] in Hw. apply andb_true_iff in Hw as [Hc' _].
  apply negb_true_iff in Hc'. by rewrite Hc'.
Qed.

Lemma split_whitespace_cons w rest :
  PyText.no_space w = true → w ≠ EmptyString →
  PyText.split_whitespace (w +:+ String " " rest)
  = w :: PyText.split_whitespace rest.
Proof.
  induction w as [|c w IH]; [done|]. cbn [PyText.no_space].
  intros [Hc Hw]%andb_true_iff _. apply negb_true_iff in Hc.
  rewrite string_app_cons. cbn [PyText.split_whitespace]. rewrite Hc.
  destruct w as [|c' w]; [done|]. rewrite string_app_cons.
  rewrite <- (string_app_cons c' w), IH by done.
  cbn [PyText.no_space] in Hw. apply andb_true_iff in Hw as [Hc' _].
  apply negb_true_iff in Hc'. by rewrite Hc'.
Qed.

(** The command line of an HDFS listing is cut into its seven arguments
    when the path holds no white space. *)
Lemma split_hdfs_ls path :
  PyText.no_space path = true → path ≠ EmptyString →
  PyText.split_whitespace ("docker exec hadoop_client hdfs dfs -ls " +:+ path)
  = hdfs_dfs ["-ls"; path].
Proof.
  intros Hp Hne.
  change ("docker exec hadoop_client hdfs dfs -ls " +:+ path)
    with ("docker" +:+ String " " ("exec" +:+ String " "
          ("hadoop_client" +:+ String " " ("hdfs" +:+ String " "
          ("dfs" +:+ String " " ("-ls" +:+ String " " path)))))).
  rewrite !split_whitespace_cons by done.
  by rewrite split_whitespace_word.
Qed.

Section SchemaAndAvailability.
Context {World : Type}.
Variable subprocess_run : World → list string → World * CompletedProcess.

(** [initialize_presto_schema] returns [True] exactly when the CREATE
    SCHEMA command succeeded and the output of SHOW SCHEMAS holds the
    text "default" somewhere; the return code of SHOW SCHEMAS plays no
    part.  Both commands have then been run, in this order. *)
Theorem initialize_presto_schema_outcome (s : Sys World) :
  let created :=
    run World subprocess_run
      (presto_execute "CREATE SCHEMA IF NOT EXISTS hive.default") s in
  let verified :=
    run World subprocess_run
      (presto_execute "SHOW SCHEMAS FROM hive") created.1 in
  ((initialize_presto_schema World subprocess_run s).2 = Returned true
   ↔ returncode created.2 = 0
     ∧ ∃ before behind, stdout verified.2 = before +:+ "default" +:+ behind)
  ∧ ((initialize_presto_schema World subprocess_run s).2 = Returned true →
     (initialize_presto_schema World subprocess_run s).1 = verified.1)
  ∧ (returncode created.2 ≠ 0 →
     initialize_presto_schema World subprocess_run s
     = (created.1,
        Raised ("Failed to create Hive schema: " +:+ stderr created.2))).
Proof.
  intros created verified. unfold initialize_presto_schema.
  fold created. fold verified. rewrite <- contains_spec.
  case_bool_decide as Hrc.
  - split_and!; [|done|done]. split; [done|]. by intros [? _].
  - destruct (Py.contains "default" (stdout verified.2)); cbn [negb].
    + split_and!; [|done|done]. split; [|done]. intros _. split; [|done].
      destruct (decide (returncode created.2 = 0)); done.
    + split_and!; [|done|done]. split; [done|]. by intros [_ ?].
Qed.

(** With a date that holds no white space, [check_data_availability]
    lists the orders directory of the date and raises if that fails;
    only otherwise it lists the stock directory, raises if that fails,
    and returns [True] if not. *)
Theorem check_data_availability_outcome date (s : Sys World) :
  PyText.no_space date = true →
  let orders :=
    run World subprocess_run
      (hdfs_dfs ["-ls"; "/procurement/raw/orders/" +:+ date]) s in
  let stock :=
    run World subprocess_run
      (hdfs_dfs ["-ls"; "/procurement/raw/stock/" +:+ date]) orders.1 in
  check_data_availability World subprocess_run date s
  = if decide (returncode orders.2 ≠ 0)
    then (orders.1, Raised ("Orders data not found for " +:+ date))
    else if decide (returncode stock.2 ≠ 0)
    then (stock.1, Raised ("Stock data not found for " +:+ date))
    else (stock.1, Returned true).
Proof.
  intros Hd orders stock. unfold check_data_availability.
  change ("docker exec hadoop_client hdfs dfs -ls /procurement/raw/orders/"
          +:+ date)
    with ("docker exec hadoop_client hdfs dfs -ls "
          +:+ ("/procurement/raw/orders/" +:+ date)).
  change ("docker exec hadoop_client hdfs dfs -ls /procurement/raw/stock/"
          +:+ date)
    with ("docker exec hadoop_client hdfs dfs -ls "
          +:+ ("/procurement/raw/stock/" +:+ date)).
  rewrite !split_hdfs_ls by (by rewrite ?no_space_app, ?Hd).
  fold orders. fold stock.
  repeat case_bool_decide; repeat case_decide; done.
Qed.
End SchemaAndAvailability.

Lemma check_data_availability_outcome_witness :
  PyText.no_space "2026-01-13" = true
  ∧ (check_data_availability nat (SubprocessSample.fails_at 1) "2026-01-13"
       (0%nat, [])).2 = Raised "Stock data not found for 2026-01-13"
  ∧ (check_data_availability nat (SubprocessSample.fails_at 2) "2026-01-13"
       (0%nat, [])).2 = Returned true.
Proof.
  split; [reflexivity|]. split.
  - pose proof (check_data_availability_outcome (SubprocessSample.fails_at 1)
                  "2026-01-13" (0%nat, []) eq_refl) as H.
    cbv zeta in H. rewrite H. reflexivity.
  - pose proof (check_data_availability_outcome (SubprocessSample.fails_at 2)
                  "2026-01-13" (0%nat, []) eq_refl) as H.
    cbv zeta in H. rewrite H. reflexivity.
Defined.

(* ===================================================================== *)
(** * Further properties: [upload_to_hdfs.py] *)
(* ===================================================================== *)

Lemma all_succeeded rs :
  forallb (λ r, bool_decide (returncode r = 0)) rs = true
  ↔ Forall (λ r, returncode r = 0) rs.
Proof.
  induction rs as [|r rs IH]; [done|]. cbn [forallb].
  rewrite andb_true_iff, bool_decide_eq_true, IH, Forall_cons. done.
Qed.

Lemma some_failed rs :
  forallb (λ r, bool_decide (returncode r = 0)) rs = false
  ↔ Exists (λ r, returncode r ≠ 0) rs.
Proof.
  induction rs as [|r rs IH]; cbn [forallb].
  - split; [done|]. by intros ?%Exists_nil.
  - rewrite andb_false_iff, bool_decide_eq_false, IH, Exists_cons. done.
Qed.

Section UploadToHdfs.
Context {World : Type}.
Variable subprocess_run : World → list string → World * CompletedProcess.

Lemma run_command_log cmd (s : Sys World) :
  ∃ r, (run_command World subprocess_run cmd s).1.2 = s.2 ++ [(cmd, r)]
       ∧ (run_command World subprocess_run cmd s).2
         = bool_decide (returncode r = 0).
Proof. by exists (subprocess_run s.1 cmd).2. Qed.

(** The upload loop runs one [-put] for every file, in the order of the
    files, and ends with [success] still set only if it was set before
    and every [-put] returned 0. *)
Lemma upload_files_log local_path hdfs_path files success (s : Sys World) :
  let out :=
    upload_files World subprocess_run local_path hdfs_path files success s in
  ∃ rs, length rs = length files
    ∧ out.1.2 = s.2 ++ zip (hdfs_put local_path hdfs_path <$> files) rs
    ∧ out.2 = success && forallb (λ r, bool_decide (returncode r = 0)) rs.
Proof.
  revert success s. induction files as [|f files IH]; intros success s.
  - exists []. cbn. by rewrite app_nil_r, andb_true_r.
  - cbn [upload_files].
    destruct (run_command_log (hdfs_put local_path hdfs_path f) s)
      as (r & Hlog & Hok).
    destruct (IH (success
                  && (run_command World subprocess_run
                        (hdfs_put local_path hdfs_path f) s).2)
                 (run_command World subprocess_run
                    (hdfs_put local_path hdfs_path f) s).1)
      as (rs & Hlen & Hlog' & Hok').
    exists (r :: rs). cbn zeta in *. split_and!.
    + cbn. by rewrite Hlen.
    + rewrite Hlog', Hlog, <- app_assoc. done.
    + rewrite Hok', Hok. cbn [forallb]. by rewrite andb_assoc.
Qed.

(** [upload_to_hdfs] runs nothing and returns [False] when a local
    directory is missing.  Otherwise it runs both [-mkdir] commands; if
    one of them failed it stops there with [False].  If not, it runs one
    [-put] for every order file and then for every stock file, whether
    or not earlier ones failed, and returns [False] if any failed; only
    when all succeeded it runs the two listings, whose results it
    ignores, and returns [True]. *)
Theorem upload_to_hdfs_commands date orders_dir stock_dir (s : Sys World) :
  let out :=
    upload_to_hdfs World subprocess_run date orders_dir stock_dir s in
  let hdfs_orders := "/procurement/raw/orders/" +:+ date in
  let hdfs_stock := "/procurement/raw/stock/" +:+ date in
  match orders_dir, stock_dir with
  | Some order_files, Some stock_files =>
      let puts :=
        (hdfs_put ("/data/raw/orders/" +:+ date) hdfs_orders <$> order_files)
        ++ (hdfs_put ("/data/raw/stock/" +:+ date) hdfs_stock <$> stock_files) in
      ∃ made made' tail,
        out.1.2
        = s.2 ++ (hdfs_dfs ["-mkdir"; "-p"; hdfs_orders], made)
                 :: (hdfs_dfs ["-mkdir"; "-p"; hdfs_stock], made') :: tail
        ∧ ((returncode made ≠ 0 ∨ returncode made' ≠ 0)
           ∧ tail = [] ∧ out.2 = false
           ∨ returncode made = 0 ∧ returncode made' = 0
             ∧ ∃ rs, length rs = length puts
                 ∧ (Exists (λ r, returncode r ≠ 0) rs
                    ∧ tail = zip puts rs ∧ out.2 = false
                    ∨ Forall (λ r, returncode r = 0) rs
                      ∧ out.2 = true
                      ∧ ∃ listed listed',
                          tail = zip puts rs
                                 ++ [(hdfs_dfs ["-ls"; hdfs_orders], listed);
                                     (hdfs_dfs ["-ls"; hdfs_stock], listed')]))
  | _, _ => out = (s, false)
  end.
Proof.
  intros out hdfs_orders hdfs_stock.
  destruct orders_dir as [order_files|]; [|done].
  destruct stock_dir as [stock_files|]; [|done].
  intros puts. subst out. unfold upload_to_hdfs.
  fold hdfs_orders. fold hdfs_stock.
  set (local_orders := "/data/raw/orders/" +:+ date) in *.
  set (local_stock := "/data/raw/stock/" +:+ date) in *.
  set (made := run_command World subprocess_run
                 (hdfs_dfs ["-mkdir"; "-p"; hdfs_orders]) s).
  destruct (run_command_log (hdfs_dfs ["-mkdir"; "-p"; hdfs_orders]) s)
    as (r1 & Hlog1 & Hok1).
  fold made in Hlog1, Hok1.
  set (made' := run_command World subprocess_run
                  (hdfs_dfs ["-mkdir"; "-p"; hdfs_stock]) made.1).
  destruct (run_command_log (hdfs_dfs ["-mkdir"; "-p"; hdfs_stock]) made.1)
    as (r2 & Hlog2 & Hok2).
  fold made' in Hlog2, Hok2.
  rewrite Hlog1, <- app_assoc in Hlog2. cbn [app] in Hlog2.
  exists r1, r2. rewrite Hok1, Hok2. cbn [andb].
  destruct (decide (returncode r1 = 0)) as [H1|H1].
  2: { rewrite (bool_decide_eq_false_2 _ H1). cbn [andb negb].
       exists []. split; [done|]. left. split_and!; [by left|done|done]. }
  destruct (decide (returncode r2 = 0)) as [H2|H2].
  2: { rewrite (bool_decide_eq_false_2 _ H2), andb_false_r. cbn [negb].
       exists []. split; [done|]. left. split_and!; [by right|done|done]. }
  rewrite (bool_decide_eq_true_2 _ H1), (bool_decide_eq_true_2 _ H2).
  cbn [andb negb].
  set (put := upload_files World subprocess_run local_orders hdfs_orders
                order_files true made'.1).
  destruct (upload_files_log local_orders hdfs_orders order_files true made'.1)
    as (rs & Hlen & Hlog & Hok).
  fold put in Hlog, Hok.
  set (put' := upload_files World subprocess_run local_stock hdfs_stock
                 stock_files put.2 put.1).
  destruct (upload_files_log local_stock hdfs_stock stock_files put.2 put.1)
    as (rs' & Hlen' & Hlog' & Hok').
  fold put' in Hlog', Hok'.
  assert (Hputs : put'.1.2
    = s.2 ++ (hdfs_dfs ["-mkdir"; "-p"; hdfs_orders], r1)
             :: (hdfs_dfs ["-mkdir"; "-p"; hdfs_stock], r2)
             :: zip puts (rs ++ rs')).
  { rewrite Hlog', Hlog, Hlog2. unfold puts.
    rewrite zip_with_app by (by rewrite length_fmap).
    by rewrite <- !app_assoc. }
  assert (Hall : put'.2
    = forallb (λ r, bool_decide (returncode r = 0)) (rs ++ rs')).
  { by rewrite Hok', Hok, forallb_app. }
  assert (Hlens : length (rs ++ rs') = length puts).
  { unfold puts. rewrite !length_app, !length_fmap. lia. }
  destruct (put'.2) eqn:Hput; cbn [negb].
  - set (listed := run_command World subprocess_run
                     (hdfs_dfs ["-ls"; hdfs_orders]) put'.1).
    destruct (run_command_log (hdfs_dfs ["-ls"; hdfs_orders]) put'.1)
      as (v1 & Hv1 & _).
    fold listed in Hv1.
    destruct (run_command_log (hdfs_dfs ["-ls"; hdfs_stock]) listed.1)
      as (v2 & Hv2 & _).
    eexists. split.
    + etrans; [exact Hv2|]. rewrite Hv1, Hputs.
      rewrite <- !app_assoc. cbn [app]. reflexivity.
    + right. split_and!; [done..|]. exists (rs ++ rs').
      split; [done|]. right. split_and!.
      * by apply all_succeeded.
      * done.
      * by exists v1, v2.
  - exists (zip puts (rs ++ rs')). split; [done|].
    right. split_and!; [done..|]. exists (rs ++ rs').
    split; [done|]. left. split_and!; [|done..].
    by apply some_failed.
Qed.
End UploadToHdfs.

(* ===================================================================== *)
(** * Further properties: [generate_replenishment_rules.py] *)
(* ===================================================================== *)

Lemma generated_rule_product_id rnd i pid :
  r_product_id (generated_rule rnd i pid) = pid.
Proof. reflexivity. Qed.

Lemma generated_rule_case_size rnd i pid :
  r_case_size (generated_rule rnd i pid) ∈ [6; 12; 24].
Proof. by apply choice_elem. Qed.

(** The rows the script hands to the INSERT: one per active product. *)
Lemma elem_of_generated_rules rnd (active : list Product) r :
  r ∈ imap (λ i p, generated_rule rnd i (p_product_id p)) active
  ↔ ∃ i p, active !! i = Some p
           ∧ r = generated_rule rnd i (p_product_id p).
Proof.
  rewrite elem_of_lookup_imap. split; intros (i & p & ? & ?); eauto.
Qed.

Lemma generate_replenishment_rules_insert rnd products table :
  generate_replenishment_rules rnd products table
  = insert_on_conflict_do_nothing r_product_id table
      (imap (λ i p, generated_rule rnd i (p_product_id p))
         (filter (λ p, p_is_active p = true) products)).
Proof.
  unfold generate_replenishment_rules.
  by destruct (filter _ products).
Qed.

(** After [generate_replenishment_rules] every active product has a
    rule; the rules that were in the table are still there, unchanged
    and first; and if the table held at most one rule per product before,
    it does so afterwards. *)
Theorem generate_replenishment_rules_table rnd products table :
  let table' := generate_replenishment_rules rnd products table in
  table `prefix_of` table'
  ∧ (∀ p, p ∈ products → p_is_active p = true →
       p_product_id p ∈ r_product_id <$> table')
  ∧ (NoDup (r_product_id <$> table) → NoDup (r_product_id <$> table')).
Proof.
  intros table'. subst table'. rewrite generate_replenishment_rules_insert.
  split_and!.
  - apply insert_prefix.
  - intros p Hp Hact.
    assert (p ∈ filter (λ p, p_is_active p = true) products) as Hin
      by (by apply list_elem_of_filter).
    apply list_elem_of_lookup in Hin as [i Hi].
    rewrite <- (generated_rule_product_id rnd i (p_product_id p)).
    apply insert_covers, elem_of_generated_rules. eauto.
  - intros Hnd. by apply insert_keeps_keys_distinct.
Qed.

(** Every rule the script adds belongs to an active product and lies in
    the ranges the script draws from: a case size of 6, 12 or 24, a
    minimum order of 1, one or two cases, a maximum order of 500 to
    2000, which is more than the minimum. *)
Theorem generated_rules_ranges rnd products table r :
  r ∈ generate_replenishment_rules rnd products table → r ∉ table →
  (∃ p, p ∈ products ∧ p_is_active p = true
        ∧ r_product_id r = p_product_id p)
  ∧ r_case_size r ∈ [6; 12; 24]
  ∧ r_pack_size r ∈ [1; 4; 6]
  ∧ r_min_order_quantity r ∈ [1; r_case_size r; r_case_size r * 2]
  ∧ 10 ≤ r_safety_stock r ≤ 100
  ∧ 500 ≤ r_max_order_quantity r ≤ 2000
  ∧ 50 ≤ r_reorder_point r ≤ 200
  ∧ r_min_order_quantity r < r_max_order_quantity r.
Proof.
  rewrite generate_replenishment_rules_insert.
  intros [Hr|Hr]%insert_elem_of Hnew; [done|].
  apply elem_of_generated_rules in Hr as (i & p & Hp & ->).
  apply list_elem_of_lookup_2, list_elem_of_filter in Hp as [Hact Hp].
  assert (Hc := generated_rule_case_size rnd i (p_product_id p)).
  assert (Hm : r_min_order_quantity (generated_rule rnd i (p_product_id p))
               ∈ [1; r_case_size (generated_rule rnd i (p_product_id p));
                  r_case_size (generated_rule rnd i (p_product_id p)) * 2])
    by (by apply choice_elem).
  assert (Hmax := randint_bounds
                    (draw_max_order_quantity rnd i) 500 2000 ltac:(lia)).
  split_and!;
    [by exists p|done|by apply choice_elem|done|apply randint_bounds; lia..|].
  change (r_max_order_quantity (generated_rule rnd i (p_product_id p)))
    with (PyGen.randint (draw_max_order_quantity rnd i) 500 2000).
  set (c := r_case_size _) in *. set (m := r_min_order_quantity _) in *.
  rewrite !elem_of_cons, elem_of_nil in Hc, Hm. lia.
Qed.

Lemma generated_rules_ranges_witness :
  r_case_size
    (generated_rule
       {| draw_case_size := λ i, 2%nat; draw_pack_size := λ i, 0%nat;
          draw_safety_stock := λ i, 5%nat;
          draw_min_order_quantity := λ i, 1%nat;
          draw_max_order_quantity := λ i, 0%nat;
          draw_reorder_point := λ i, 0%nat |} 0 1)
  ∈ [6; 12; 24].
Proof.
  set (rnd := {| draw_case_size := λ i, 2%nat; draw_pack_size := λ i, 0%nat;
                 draw_safety_stock := λ i, 5%nat;
                 draw_min_order_quantity := λ i, 1%nat;
                 draw_max_order_quantity := λ i, 0%nat;
                 draw_reorder_point := λ i, 0%nat |}).
  refine (proj1 (proj2 (generated_rules_ranges rnd [Sample.milk] []
                          (generated_rule rnd 0 1) _ _))).
  - vm_compute. left.
  - apply not_elem_of_nil.
Defined.

(** Under a rule the script generated, the order query rounds a demand
    up to full cases, with one exception: with cases of 24, a demand one
    above a multiple of 24 is ordered one short.  (A twentieth of a case
    of 6 or 12 is less than one unit.) *)
Theorem generated_rule_rounding rnd i product_id n :
  0 ≤ n → n + 24 ≤ INTEGER_MAX →
  let c := r_case_size (generated_rule rnd i product_id) in
  order_quantity n c
  = Ok (if decide (c = 24 ∧ n `mod` 24 = 1) then n - 1
        else round_up_to_case n c).
Proof.
  intros Hn Hmax c.
  assert (Hc := generated_rule_case_size rnd i product_id). fold c in Hc.
  clearbody c. rewrite !elem_of_cons, elem_of_nil in Hc.
  assert (1 ≤ c ≤ 24) as Hc' by lia.
  rewrite order_quantity_pos, rounded_case_count by lia.
  pose proof (Z.div_mod n c ltac:(lia)) as Hdm.
  pose proof (Z.mod_pos_bound n c ltac:(lia)) as Hr.
  pose proof (ceil_div_bounds n c ltac:(lia)) as Hk.
  assert (0 ≤ n / c) by (apply Z.div_pos; lia).
  unfold round_up_to_case.
  set (k := ceil_div n c) in *. set (m := n / c) in *.
  assert ((if decide (20 * (n `mod` c) < c) then m else m + 1) * c
          = if decide (c = 24 ∧ n `mod` 24 = 1) then n - 1 else k * c) as ->.
  { destruct (decide (c = 24)) as [->|Hne].
    - set (r := n `mod` 24) in *.
      case_decide as H20; case_decide as H1.
      + lia.
      + assert (k = m) as -> by lia. done.
      + lia.
      + assert (k = m + 1) as -> by lia. done.
    - set (r := n `mod` c) in *.
      rewrite (decide_False (P := c = 24 ∧ _)) by lia.
      case_decide;
        [assert (k = m) as -> by lia|assert (k = m + 1) as -> by lia]; done. }
  unfold cast_as_integer. rewrite decide_True; [done|].
  unfold INTEGER_MIN, INTEGER_MAX in *. case_decide; lia.
Qed.

Lemma generated_rule_rounding_witness :
  order_quantity 25
    (r_case_size
       (generated_rule
          {| draw_case_size := λ i, 2%nat; draw_pack_size := λ i, 0%nat;
             draw_safety_stock := λ i, 5%nat;
             draw_min_order_quantity := λ i, 1%nat;
             draw_max_order_quantity := λ i, 0%nat;
             draw_reorder_point := λ i, 0%nat |} 0 1))
  = Ok 24.
Proof.
  set (rnd := {| draw_case_size := λ i, 2%nat; draw_pack_size := λ i, 0%nat;
                 draw_safety_stock := λ i, 5%nat;
                 draw_min_order_quantity := λ i, 1%nat;
                 draw_max_order_quantity := λ i, 0%nat;
                 draw_reorder_point := λ i, 0%nat |}).
  pose proof (generated_rule_rounding rnd 0 1 25) as H. cbv zeta in H.
  rewrite H; [reflexivity|lia|unfold INTEGER_MAX; lia].
Defined.

(* ===================================================================== *)
(** * Further properties: [generate_stock.py] *)
(* ===================================================================== *)

Lemma sum_fmap_le {A} (f g : A → Z) l :
  (∀ a, a ∈ l → f a ≤ g a) → Sql.sum (f <$> l) ≤ Sql.sum (g <$> l).
Proof.
  induction l as [|a l IH]; intros Hl; [done|].
  rewrite !fmap_cons, !sum_cons.
  pose proof (Hl a ltac:(left)). 
  assert (Sql.sum (f <$> l) ≤ Sql.sum (g <$> l))
    by (apply IH; intros ??; apply Hl; by right).
  lia.
Qed.

Lemma sum_fmap_nonneg {A} (f : A → Z) l :
  (∀ a, a ∈ l → 0 ≤ f a) → 0 ≤ Sql.sum (f <$> l).
Proof.
  intros Hl. rewrite <- (sum_fmap_zero l). by apply sum_fmap_le.
Qed.

Lemma elem_of_generate_stock_snapshot da dr date skus codes file :
  file ∈ generate_stock_snapshot da dr date skus codes →
  ∃ w code, codes !! w = Some code
    ∧ file.1 = code +:+ "_" +:+ date +:+ ".json"
    ∧ st_sku <$> file.2 = skus
    ∧ ∀ r, r ∈ file.2 →
        st_warehouse_code r = code ∧ st_snapshot_date r = date
        ∧ stock_levels_ok r.
Proof.
  unfold generate_stock_snapshot.
  destruct skus as [|sku0 skus]; [by intros ?%elem_of_nil|].
  destruct codes as [|code0 codes]; [by intros ?%elem_of_nil|].
  set (all_skus := sku0 :: skus). set (all_codes := code0 :: codes).
  intros (w & code & -> & Hw)%elem_of_lookup_imap.
  exists w, code. split_and!; [done|done| |].
  - cbn [snd]. generalize (da w) (dr w). clear. intros a b.
    revert a b. induction all_skus as [|s l IH]; intros a b; [done|].
    rewrite imap_cons, fmap_cons. cbn [st_sku]. f_equal.
    apply (IH (a ∘ S) (b ∘ S)).
  - cbn [snd]. intros r (p & sku & -> & _)%elem_of_lookup_imap.
    cbn [st_warehouse_code st_snapshot_date]. split_and!; [done|done|].
    unfold stock_levels_ok. cbn [st_reserved_stock st_available_stock].
    pose proof (randint_bounds (da w p) 0 500 ltac:(lia)) as Ha.
    pose proof (randint_bounds (dr w p) 0
                  (PyGen.randint (da w p) 0 500 `min` 50) ltac:(lia)) as Hr.
    lia.
Qed.

(** [generate_stock_snapshot] writes nothing without products or without
    warehouses.  Otherwise it writes one file per warehouse, named after
    the warehouse and the date, with one record per product, in the
    order of the products; every record carries the warehouse and the
    date of its file, an available stock of 0 to 500 and a reserved
    stock of at most 50 that does not exceed the available stock. *)
Theorem generate_stock_snapshot_files da dr date skus codes :
  let files := generate_stock_snapshot da dr date skus codes in
  (skus = [] ∨ codes = [] → files = [])
  ∧ (skus ≠ [] →
     files.*1 = (λ code, code +:+ "_" +:+ date +:+ ".json") <$> codes)
  ∧ (∀ file, file ∈ files →
       st_sku <$> file.2 = skus
       ∧ ∃ code, code ∈ codes
           ∧ file.1 = code +:+ "_" +:+ date +:+ ".json"
           ∧ ∀ r, r ∈ file.2 →
               st_warehouse_code r = code ∧ st_snapshot_date r = date
               ∧ stock_levels_ok r).
Proof.
  intros files. split_and!.
  - intros [->| ->]; subst files; [done|]. by destruct skus.
  - intros Hs. subst files. unfold generate_stock_snapshot.
    destruct skus as [|sku0 skus]; [done|].
    destruct codes as [|code0 codes]; [done|].
    set (all_codes := code0 :: codes). generalize da dr. clear.
    induction all_codes as [|c l IH]; intros da dr; [done|].
    rewrite imap_cons, !fmap_cons. cbn [fst]. f_equal.
    apply (IH (da ∘ S) (dr ∘ S)).
  - intros file (w & code & Hw & Hname & Hskus & Hrs)%
      elem_of_generate_stock_snapshot.
    split; [done|]. exists code. split_and!; [|done..].
    by eapply list_elem_of_lookup_2.
Qed.

(** With the generated snapshot as the day's stock table, no entry of
    the net-demand table has more stock reserved than available, so the
    net demand of a product never exceeds its orders plus its safety
    stock. *)
Theorem generated_stock_net_demand da dr date skus codes pg ol nd :
  let st := mjoin ((generate_stock_snapshot da dr date skus codes).*2) in
  nd ∈ net_demand_query pg ol st →
  0 ≤ nd_reserved_stock nd ≤ nd_available_stock nd
  ∧ nd_net_demand nd
    ≤ Z.max (nd_aggregated_orders nd + nd_safety_stock nd) 0.
Proof.
  intros st (p & r & -> & _)%elem_of_net_demand_query.
  cbn [net_demand_entry nd_reserved_stock nd_available_stock nd_net_demand
       nd_aggregated_orders nd_safety_stock].
  assert (Hst : ∀ x, x ∈ st → stock_levels_ok x).
  { intros x (records & Hx & (file & -> & Hfile)%list_elem_of_fmap)%
      list_elem_of_join.
    apply elem_of_generate_stock_snapshot in Hfile
      as (w & code & _ & _ & _ & Hrs).
    by apply Hrs. }
  assert (0 ≤ total_reserved st (p_sku p) ≤ total_available st (p_sku p)).
  { unfold total_reserved, total_available. split.
    - apply sum_fmap_nonneg. intros x [_ Hx]%list_elem_of_filter.
      apply Hst in Hx. unfold stock_levels_ok in Hx. lia.
    - apply sum_fmap_le. intros x [_ Hx]%list_elem_of_filter.
      apply Hst in Hx. unfold stock_levels_ok in Hx. lia. }
  lia.
Qed.

Lemma generated_stock_net_demand_witness :
  let st :=
    mjoin ((generate_stock_snapshot (λ w p, 7%nat) (λ w p, 9%nat)
              "2026-01-13" ["SKU00001"] ["WH01"; "WH02"]).*2) in
  let nd := net_demand_entry [] st Sample.milk (Sample.rule 1 20 12) in
  0 ≤ nd_reserved_stock nd ≤ nd_available_stock nd
  ∧ nd_net_demand nd
    ≤ Z.max (nd_aggregated_orders nd + nd_safety_stock nd) 0.
Proof.
  intros st nd.
  apply (generated_stock_net_demand (λ w p, 7%nat) (λ w p, 9%nat)
           "2026-01-13" ["SKU00001"] ["WH01"; "WH02"]
           (Sample.milk_from_acme 12) []).
  apply elem_of_net_demand_query. exists Sample.milk, (Sample.rule 1 20 12).
  split_and!; [reflexivity| | |reflexivity|reflexivity]; vm_compute; left.
Defined.

(* ===================================================================== *)
(** * Further properties: linking products to suppliers a second time *)
(* ===================================================================== *)

Lemma filter_ext_elem {A} (P Q : A → Prop)
    `{!∀ x, Decision (P x), !∀ x, Decision (Q x)} (l : list A) :
  (∀ x, x ∈ l → (P x ↔ Q x)) → filter P l = filter Q l.
Proof.
  induction l as [|a l IH]; intros Hl; [done|].
  rewrite !filter_cons, IH by (intros ??; apply Hl; by right).
  destruct (Hl a ltac:(left)). do 2 case_decide; tauto.
Qed.

(** Rows with distinct keys are inserted exactly when their key is not in
    the table yet. *)
Lemma insert_distinct_rows {A K} `{EqDecision K} (key : A → K)
    (table rows : list A) :
  NoDup (key <$> rows) →
  insert_on_conflict_do_nothing key table rows
  = table ++ filter (λ r, key r ∉ key <$> table) rows.
Proof.
  unfold insert_on_conflict_do_nothing. revert table.
  induction rows as [|r rows IH]; intros table Hnd.
  - by rewrite app_nil_r.
  - rewrite fmap_cons in Hnd. apply NoDup_cons in Hnd as [Hr Hnd].
    cbn [foldl]. rewrite filter_cons. case_decide as Hin.
    + rewrite decide_False by (by intros ?). by apply IH.
    + rewrite decide_True by done. rewrite IH by done.
      rewrite <- app_assoc. cbn [app]. do 2 f_equal.
      apply filter_ext_elem. intros x Hxr. rewrite fmap_app, elem_of_app.
      cbn [fmap list_fmap]. rewrite list_elem_of_singleton. split.
      * intros Hx Hx'. apply Hx. by left.
      * intros Hx [Hx'|Heq]; [done|].
        apply Hr. rewrite <- Heq. by apply list_elem_of_fmap_2.
Qed.

Lemma filter_comm {A} (P Q : A → Prop)
    `{!∀ x, Decision (P x), !∀ x, Decision (Q x)} (l : list A) :
  filter P (filter Q l) = filter Q (filter P l).
Proof.
  rewrite !list_filter_filter. apply list_filter_iff. tauto.
Qed.

(** The rows one iteration of the loop of [link_products_to_suppliers]
    appends. *)
Lemma link_products_to_suppliers_join dc ds product_ids supplier_ids :
  supplier_ids ≠ [] →
  link_products_to_suppliers dc ds product_ids supplier_ids
  = mjoin
      (imap
         (λ i product_id,
            imap
              (λ idx supplier_id,
                 {| sp_supplier_id := supplier_id;
                    sp_product_id := product_id;
                    sp_is_primary_supplier := bool_decide (idx = 0%nat) |})
              (PyGen.sample (ds i) supplier_ids
                 (Z.to_nat (PyGen.randint (dc i) 1 2)
                    `min` length supplier_ids)))
         product_ids).
Proof.
  intros Hs. unfold link_products_to_suppliers.
  destruct product_ids; [done|]. by destruct supplier_ids.
Qed.

Lemma NoDup_keys_join_imap (g : nat → Z → list SupplierProduct) l :
  (∀ i p m, m ∈ g i p → sp_product_id m = p) →
  (∀ i p, NoDup (link_key <$> g i p)) →
  NoDup l → NoDup (link_key <$> mjoin (imap g l)).
Proof.
  revert g. induction l as [|x l IH]; intros g Hg Hk Hnd;
    [apply NoDup_nil_2|].
  apply NoDup_cons in Hnd as [Hx Hnd]. rewrite imap_cons.
  change (mjoin (?a :: ?b)) with (a ++ mjoin b).
  rewrite fmap_app. apply NoDup_app. split_and!.
  - apply Hk.
  - intros k (m & -> & Hm)%list_elem_of_fmap (m' & Heq & Hm')%list_elem_of_fmap.
    apply Hg in Hm.
    apply list_elem_of_join in Hm' as (ms & Hm' & Hms).
    apply elem_of_lookup_imap in Hms as (i & p & -> & Hp).
    apply Hg in Hm'. apply Hx.
    assert (p = x) as <-; [|by eapply list_elem_of_lookup_2].
    unfold link_key in Heq. congruence.
  - apply (IH (g ∘ S)); [intros ???; apply Hg|intros ??; apply Hk|done].
Qed.

Lemma link_keys_NoDup dc ds product_ids supplier_ids :
  NoDup product_ids → NoDup supplier_ids →
  NoDup (link_key
           <$> link_products_to_suppliers dc ds product_ids supplier_ids).
Proof.
  intros Hp Hs. destruct (decide (supplier_ids = [])) as [->|Hne].
  { unfold link_products_to_suppliers. destruct product_ids; apply NoDup_nil_2. }
  rewrite link_products_to_suppliers_join by done.
  apply NoDup_keys_join_imap; [| |done].
  - intros i p m (idx & sid & -> & _)%elem_of_lookup_imap. done.
  - intros i p. apply NoDup_fmap_2_strong.
    + intros m m' (idx & sid & -> & Hsid)%elem_of_lookup_imap
        (idx' & sid' & -> & Hsid')%elem_of_lookup_imap Heq.
      unfold link_key in Heq. cbn in Heq.
      assert (sid = sid') as <- by congruence.
      assert (idx = idx') as <-; [|done].
      eapply NoDup_lookup; [|done..]. by apply sample_NoDup.
    + apply NoDup_alt. intros j j' m Hj Hj'.
      apply list_lookup_imap_Some in Hj as (sid & Hsid & ->).
      apply list_lookup_imap_Some in Hj' as (sid' & Hsid' & Heq).
      assert (sid = sid') as <- by congruence.
      eapply NoDup_lookup; [|done..]. by apply sample_NoDup.
Qed.

(** The links of one product in the list the script builds. *)
Lemma product_links dc ds product_ids supplier_ids pid :
  NoDup product_ids → supplier_ids ≠ [] → pid ∈ product_ids →
  ∃ sid rest,
    filter (λ m, sp_product_id m = pid)
      (link_products_to_suppliers dc ds product_ids supplier_ids)
    = imap (λ idx supplier_id,
              {| sp_supplier_id := supplier_id; sp_product_id := pid;
                 sp_is_primary_supplier := bool_decide (idx = 0%nat) |})
        (sid :: rest).
Proof.
  intros Hnd Hs Hpid. rewrite link_products_to_suppliers_join by done.
  edestruct (filter_product_join_imap) as (i & Hi & ->); [|done|done|].
  { intros i p m (idx & sid & -> & _)%elem_of_lookup_imap. done. }
  set (k := (_ `min` _)%nat).
  assert (1 ≤ k)%nat as Hk.
  { subst k. pose proof (randint_bounds (dc i) 1 2).
    destruct supplier_ids; [done|]. cbn [length]. lia. }
  assert (k ≤ length supplier_ids)%nat by (subst k; lia).
  pose proof (length_sample (ds i) supplier_ids k ltac:(done)) as Hlen.
  destruct (PyGen.sample (ds i) supplier_ids k) as [|sid rest];
    [cbn in Hlen; lia|]. by exists sid, rest.
Qed.

(** Running [link_products_to_suppliers] a second time over the same
    products and suppliers keeps the links of the first run and adds a
    second PRIMARY supplier to a product exactly when the supplier the
    second run picks first for it was not linked to it by the first
    run. *)
Theorem relinking_products_to_suppliers
    dc1 ds1 dc2 ds2 product_ids supplier_ids pid :
  NoDup product_ids → NoDup supplier_ids → supplier_ids ≠ [] →
  pid ∈ product_ids →
  let first := link_products_to_suppliers dc1 ds1 product_ids supplier_ids in
  let second := link_products_to_suppliers dc2 ds2 product_ids supplier_ids in
  let table :=
    insert_supplier_products (insert_supplier_products [] first) second in
  let of_product l := filter (λ m, sp_product_id m = pid) l in
  let primary l :=
    filter (λ m, sp_is_primary_supplier m = true) (of_product l) in
  first `prefix_of` table
  ∧ ∃ s1 s2,
      primary first = [Sample.link s1 pid true]
      ∧ primary second = [Sample.link s2 pid true]
      ∧ primary table
        = if decide (s2 ∈ sp_supplier_id <$> of_product first)
          then [Sample.link s1 pid true]
          else [Sample.link s1 pid true; Sample.link s2 pid true].
Proof.
  intros Hp Hs Hne Hpid first second table of_product primary.
  assert (Htable : table
    = first ++ filter (λ m, link_key m ∉ link_key <$> first) second).
  { subst table. unfold insert_supplier_products.
    rewrite (insert_distinct_rows link_key [] first)
      by (by apply link_keys_NoDup).
    rewrite filter_all by (intros ?? ?%elem_of_nil; done).
    cbn [app]. apply insert_distinct_rows. by apply link_keys_NoDup. }
  split; [rewrite Htable; by apply prefix_app_r|].
  destruct (product_links dc1 ds1 product_ids supplier_ids pid)
    as (s1 & rest1 & H1); [done..|].
  destruct (product_links dc2 ds2 product_ids supplier_ids pid)
    as (s2 & rest2 & H2); [done..|].
  fold first in H1. fold second in H2.
  exists s1, s2.
  assert (Hp1 : primary first = [Sample.link s1 pid true]).
  { subst primary of_product. cbv beta. by rewrite H1, product_links_primary. }
  assert (Hp2 : primary second = [Sample.link s2 pid true]).
  { subst primary of_product. cbv beta. by rewrite H2, product_links_primary. }
  split_and!; [done|done|].
  subst primary of_product. cbv beta in *. rewrite Htable.
  rewrite !filter_app, Hp1.
  rewrite (filter_comm (λ m, sp_product_id m = pid)).
  rewrite (filter_comm (λ m, sp_is_primary_supplier m = true)).
  rewrite Hp2, filter_cons, filter_nil.
  assert (link_key (Sample.link s2 pid true) ∈ link_key <$> first
          ↔ s2 ∈ sp_supplier_id
                   <$> filter (λ m, sp_product_id m = pid) first) as Hiff.
  { rewrite !list_elem_of_fmap. split.
    - intros (m & Heq & Hm). exists m. unfold link_key in Heq. cbn in Heq.
      split; [congruence|]. apply list_elem_of_filter. split; [congruence|done].
    - intros (m & -> & [Hm ?]%list_elem_of_filter). exists m.
      split; [|done]. unfold link_key. cbn. by rewrite Hm. }
  do 2 case_decide; tauto || done.
Qed.

Lemma relinking_products_to_suppliers_witness :
  let first := link_products_to_suppliers (λ i, 0%nat) (λ i j, 0%nat) [1; 2] [7; 8] in
  let second := link_products_to_suppliers (λ i, 0%nat) (λ i j, 1%nat) [1; 2] [7; 8] in
  let table :=
    insert_supplier_products (insert_supplier_products [] first) second in
  first `prefix_of` table
  ∧ ∃ s1 s2,
      filter (λ m, sp_is_primary_supplier m = true)
        (filter (λ m, sp_product_id m = 2) first)
      = [Sample.link s1 2 true]
      ∧ filter (λ m, sp_is_primary_supplier m = true)
          (filter (λ m, sp_product_id m = 2) second)
        = [Sample.link s2 2 true]
      ∧ filter (λ m, sp_is_primary_supplier m = true)
          (filter (λ m, sp_product_id m = 2) table)
        = if decide (s2 ∈ sp_supplier_id
                            <$> filter (λ m, sp_product_id m = 2) first)
          then [Sample.link s1 2 true]
          else [Sample.link s1 2 true; Sample.link s2 2 true].
Proof.
  apply (relinking_products_to_suppliers
           (λ i, 0%nat) (λ i j, 0%nat) (λ i, 0%nat) (λ i j, 1%nat)
           [1; 2] [7; 8] 2).
  - compute_done.
  - compute_done.
  - discriminate.
  - right. left.
Defined.

(* ===================================================================== *)
(** * Further properties: [generate_orders.py] *)
(* ===================================================================== *)

Lemma length_join_bounds {A} (ls : list (list A)) (a b : nat) :
  (∀ l, l ∈ ls → (a ≤ length l ≤ b)%nat) →
  (a * length ls ≤ length (mjoin ls) ≤ b * length ls)%nat.
Proof.
  induction ls as [|l ls IH]; intros Hls; [cbn; lia|].
  change (mjoin (l :: ls)) with (l ++ mjoin ls).
  rewrite length_app. cbn [length].
  pose proof (Hls l ltac:(left)).
  assert (a * length ls ≤ length (mjoin ls) ≤ b * length ls)%nat
    by (apply IH; intros ??; apply Hls; by right).
  lia.
Qed.

Section Orders.
Context {Price Float : Type}.
Variable float : Price → Float.
Variable rnd : OrderDraws.
Variable order_date : string.
Variable products : list (string * Price).

Lemma length_order_items store_id order_num :
  products ≠ [] →
  (1 ≤ length (order_items float rnd order_date products store_id order_num)
   ≤ 5)%nat.
Proof.
  intros Hp. unfold order_items. rewrite length_imap.
  pose proof (randint_bounds (draw_num_items rnd store_id order_num) 1 5
                ltac:(lia)).
  rewrite length_sample by lia.
  destruct products; [done|]. cbn [length]. lia.
Qed.

Lemma elem_of_order_items store_id order_num r :
  r ∈ order_items float rnd order_date products store_id order_num →
  or_order_id r = order_id_of order_date store_id order_num
  ∧ or_pos_store_id r = "POS" +:+ PyGen.format_0d 3 store_id
  ∧ or_order_date r = order_date
  ∧ 1 ≤ or_quantity r ≤ 10
  ∧ ∃ p, p ∈ products ∧ or_sku r = p.1 ∧ or_unit_price r = float p.2.
Proof.
  unfold order_items. intros (j & p & -> & Hp)%elem_of_lookup_imap.
  cbn. split_and!; [done..|apply randint_bounds; lia|apply randint_bounds; lia|].
  exists p. split; [|done].
  eapply sample_elem. by eapply list_elem_of_lookup_2.
Qed.

Lemma elem_of_store_orders store_id r :
  r ∈ store_orders float rnd order_date products store_id →
  ∃ order_num, (order_num < 200)%nat
    ∧ r ∈ order_items float rnd order_date products store_id order_num.
Proof.
  unfold store_orders.
  intros (items & Hr & (order_num & -> & Hn)%list_elem_of_fmap)%
    list_elem_of_join.
  exists order_num. split; [|done]. apply elem_of_seq in Hn.
  pose proof (randint_bounds (draw_num_orders rnd store_id) 50 200 ltac:(lia)).
  lia.
Qed.

Lemma length_store_orders store_id :
  products ≠ [] →
  (50 ≤ length (store_orders float rnd order_date products store_id)
   ≤ 1000)%nat.
Proof.
  intros Hp. unfold store_orders.
  pose proof (randint_bounds (draw_num_orders rnd store_id) 50 200 ltac:(lia))
    as Hn.
  set (n := Z.to_nat _) in *.
  pose proof (length_join_bounds
                (order_items float rnd order_date products store_id
                   <$> seq 0 n) 1 5) as Hb.
  rewrite length_fmap, length_seq in Hb.
  assert (50 ≤ n ≤ 200)%nat by lia.
  destruct Hb as [? ?]; [|lia].
  intros l (order_num & -> & _)%list_elem_of_fmap.
  by apply length_order_items.
Qed.

(** [generate_daily_orders] writes nothing without active products.
    Otherwise it writes one file per store, [POS001] to the number of
    stores, named after the store and the date, with 50 to 1000 lines;
    every line carries the store and the date of its file, a quantity
    of 1 to 10, and the SKU of an active product with the float of its
    price. *)
Theorem generate_daily_orders_files num_stores :
  let files :=
    generate_daily_orders float rnd order_date num_stores products in
  (products = [] → files = [])
  ∧ (products ≠ [] →
     files.*1
     = (λ store_id,
          "POS" +:+ PyGen.format_0d 3 store_id +:+ "_" +:+ order_date
            +:+ ".json") <$> seq 1 (Z.to_nat num_stores))
  ∧ (∀ file, file ∈ files →
       (50 ≤ length file.2 ≤ 1000)%nat
       ∧ ∃ store_id,
           (1 ≤ store_id ≤ Z.to_nat num_stores)%nat
           ∧ file.1 = "POS" +:+ PyGen.format_0d 3 store_id +:+ "_"
                        +:+ order_date +:+ ".json"
           ∧ ∀ r, r ∈ file.2 →
               or_pos_store_id r = "POS" +:+ PyGen.format_0d 3 store_id
               ∧ or_order_date r = order_date
               ∧ 1 ≤ or_quantity r ≤ 10
               ∧ ∃ p, p ∈ products ∧ or_sku r = p.1
                      ∧ or_unit_price r = float p.2).
Proof.
  intros files. subst files. unfold generate_daily_orders. split_and!.
  - by intros ->.
  - intros Hp. destruct products; [done|].
    by rewrite <- list_fmap_compose.
  - intros file Hfile.
    assert (products ≠ []) as Hp by (intros Heq; rewrite Heq in Hfile; inv Hfile).
    assert (file ∈ (λ store_id,
              ("POS" +:+ PyGen.format_0d 3 store_id +:+ "_" +:+ order_date
                 +:+ ".json",
               store_orders float rnd order_date products store_id))
              <$> seq 1 (Z.to_nat num_stores)) as Hin
      by (by destruct products).
    apply list_elem_of_fmap in Hin as (store_id & -> & Hs).
    apply elem_of_seq in Hs. cbn [fst snd].
    split; [by apply length_store_orders|].
    exists store_id. split_and!; [lia|lia|done|].
    intros r (order_num & _ & Hr)%elem_of_store_orders.
    apply elem_of_order_items in Hr as (_ & ? & ? & ? & ?). done.
Qed.
End Orders.

Lemma string_length_app a b :
  String.length (a +:+ b) = (String.length a + String.length b)%nat.
Proof.
  induction a as [|c a IH]; [done|].
  rewrite string_app_cons. cbn [String.length]. by rewrite IH.
Qed.

(** Two texts with endings of the same length agree only if both parts
    agree. *)
Lemma string_app_inj_length a a' b b' :
  String.length b = String.length b' →
  a +:+ b = a' +:+ b' → a = a' ∧ b = b'.
Proof.
  intros Hlen. revert a'. induction a as [|c a IH]; intros [|c' a'] Heq.
  - done.
  - change (EmptyString +:+ b) with b in Heq. rewrite Heq in Hlen.
    rewrite string_length_app in Hlen. cbn [String.length] in Hlen. lia.
  - change (EmptyString +:+ b') with b' in Heq. rewrite <- Heq in Hlen.
    rewrite string_length_app in Hlen. cbn [String.length] in Hlen. lia.
  - rewrite !string_app_cons in Heq. injection Heq as -> Heq.
    destruct (IH _ Heq) as [-> ->]. done.
Qed.

(** The order numbers of a store, 0 to 199, fill exactly the five digits
    of the order id. *)
Lemma length_order_number n :
  (n < 200)%nat → String.length (PyGen.format_0d 5 n) = 5%nat.
Proof.
  intros Hn.
  assert (forallb (λ n, String.length (PyGen.format_0d 5 n) =? 5)%nat
            (seq 0 200) = true) as Hall by (vm_compute; reflexivity).
  rewrite forallb_forall in Hall.
  apply Nat.eqb_eq, Hall, in_seq. lia.
Qed.

Lemma order_id_of_inj date s n s' n' :
  (n < 200)%nat → (n' < 200)%nat →
  order_id_of date s n = order_id_of date s' n' → s = s' ∧ n = n'.
Proof.
  intros Hn Hn' Heq. unfold order_id_of in Heq.
  apply string_app_inj_l, string_app_inj_l in Heq.
  apply string_app_inj_length in Heq as [Hs Ho];
    [|by rewrite !length_order_number].
  split; by eapply format_0d_inj.
Qed.

Lemma sample_fmap {A B} (f : A → B) draws (l : list A) k :
  PyGen.sample draws (f <$> l) k = f <$> PyGen.sample draws l k.
Proof.
  revert draws l. induction k as [|k IH]; intros draws l; [done|].
  cbn [PyGen.sample]. rewrite length_fmap, list_lookup_fmap.
  destruct (l !! _) as [x|]; [|done]. cbn [fmap option_fmap option_map].
  rewrite fmap_cons. f_equal. rewrite <- IH. f_equal.
  by rewrite list_fmap_delete.
Qed.

(** Blocks without repeated keys whose keys tell the blocks apart make a
    list without repeated keys. *)
Lemma NoDup_fmap_join_fmap {A B K} (key : B → K) (f : A → list B) l :
  NoDup l →
  (∀ x, x ∈ l → NoDup (key <$> f x)) →
  (∀ x y b b', x ∈ l → y ∈ l → b ∈ f x → b' ∈ f y →
     key b = key b' → x = y) →
  NoDup (key <$> mjoin (f <$> l)).
Proof.
  induction 1 as [|x l Hx Hl IH]; intros Hin Hsep; [apply NoDup_nil_2|].
  rewrite fmap_cons. change (mjoin (?a :: ?b)) with (a ++ mjoin b).
  rewrite fmap_app. apply NoDup_app. split_and!.
  - apply Hin. by left.
  - intros k (b & -> & Hb)%list_elem_of_fmap (b' & Heq & Hb')%list_elem_of_fmap.
    apply list_elem_of_join in Hb' as (bs & Hb' & (y & -> & Hy)%list_elem_of_fmap).
    apply Hx. rewrite (Hsep x y b b'); [done|by left|by right|done..].
  - apply IH.
    + intros y Hy. apply Hin. by right.
    + intros y z b b' Hy Hz. apply Hsep; by right.
Qed.

Section OrderKeys.
Context {Price Float : Type}.
Variable float : Price → Float.
Variable rnd : OrderDraws.
Variable order_date : string.
Variable products : list (string * Price).

Lemma order_items_skus store_id order_num :
  NoDup products.*1 →
  NoDup (or_sku
           <$> order_items float rnd order_date products store_id order_num).
Proof.
  intros Hnd. unfold order_items.
  set (selected := PyGen.sample _ products _).
  assert (or_sku
            <$> imap
                  (λ j product,
                     {| or_order_id := order_id_of order_date store_id order_num;
                        or_pos_store_id := "POS" +:+ PyGen.format_0d 3 store_id;
                        or_sku := product.1;
                        or_quantity :=
                          PyGen.randint
                            (draw_quantity rnd store_id order_num j) 1 10;
                        or_order_date := order_date;
                        or_unit_price := float product.2 |})
                  selected
          = selected.*1) as ->.
  { generalize (draw_quantity rnd store_id order_num). clear.
    induction selected as [|p l IH]; intros q; [done|].
    rewrite imap_cons, !fmap_cons. cbn [or_sku]. f_equal.
    apply (IH (q ∘ S)). }
  subst selected. rewrite <- sample_fmap. by apply sample_NoDup.
Qed.

(** When the active products have distinct SKUs, no two lines of the
    day's files share both the order id and the SKU: the order id tells
    the store and the order, and an order lists a product once. *)
Theorem generated_order_lines_unique num_stores :
  NoDup products.*1 →
  NoDup ((λ r, (or_order_id r, or_sku r))
           <$> mjoin
                 (generate_daily_orders float rnd order_date num_stores
                    products).*2).
Proof.
  intros Hnd. unfold generate_daily_orders.
  destruct (decide (products = [])) as [Hp|Hp].
  { rewrite Hp. apply NoDup_nil_2. }
  assert ((match products with
           | [] => []
           | _ =>
               (λ store_id,
                  ("POS" +:+ PyGen.format_0d 3 store_id +:+ "_"
                     +:+ order_date +:+ ".json",
                   store_orders float rnd order_date products store_id))
                 <$> seq 1 (Z.to_nat num_stores)
           end).*2
          = store_orders float rnd order_date products
              <$> seq 1 (Z.to_nat num_stores)) as ->.
  { destruct products; [done|]. by rewrite <- list_fmap_compose. }
  apply NoDup_fmap_join_fmap; [apply NoDup_seq| |].
  - intros store_id _. unfold store_orders.
    apply NoDup_fmap_join_fmap; [apply NoDup_seq| |].
    + intros order_num _.
      apply (NoDup_fmap_1 snd). rewrite <- list_fmap_compose.
      by apply order_items_skus.
    + intros o o' b b' Ho Ho' Hb Hb' Heq.
      apply elem_of_seq in Ho, Ho'.
      pose proof (randint_bounds (draw_num_orders rnd store_id) 50 200
                    ltac:(lia)).
      apply elem_of_order_items in Hb as (Hid & _).
      apply elem_of_order_items in Hb' as (Hid' & _).
      injection Heq as Heq _. rewrite Hid, Hid' in Heq.
      apply order_id_of_inj in Heq as [_ ?]; [done|lia..].
  - intros s s' b b' _ _ (o & Ho & Hb)%elem_of_store_orders
      (o' & Ho' & Hb')%elem_of_store_orders Heq.
    apply elem_of_order_items in Hb as (Hid & _).
    apply elem_of_order_items in Hb' as (Hid' & _).
    injection Heq as Heq _. rewrite Hid, Hid' in Heq.
    by apply order_id_of_inj in Heq as [? _].
Qed.
End OrderKeys.

Lemma generated_order_lines_unique_witness :
  NoDup ((λ r, (or_order_id r, or_sku r))
           <$> mjoin
                 (generate_daily_orders (λ price : Z, price)
                    {| draw_num_orders := λ s, s;
                       draw_num_items := λ s o, (s + o)%nat;
                       draw_selected := λ s o j, (s + o + j)%nat;
                       draw_quantity := λ s o j, j |}
                    "2026-01-13" 2
                    [("SKU00001", 199); ("SKU00002", 250)]).*2).
Proof.
  apply (generated_order_lines_unique (λ price : Z, price)).
  compute_done.
Defined.

(* ===================================================================== *)
(** * Further properties: [format_csv_output] *)
(* ===================================================================== *)

Lemma mapM_fmap {A B C} (f : B → option C) (g : A → B) l :
  mapM f (g <$> l) = mapM (f ∘ g) l.
Proof. induction l as [|a l IH]; [done|]. cbn. by rewrite IH. Qed.

Lemma mapM_range_lookup {A B} (h : A → B) (l : list A) :
  mapM (λ i, a ← l !! i; Some (h a)) (seq 0 (length l)) = Some (h <$> l).
Proof.
  induction l as [|a l IH]; [done|].
  cbn [length seq]. rewrite <- fmap_S_seq. cbn [mapM]. cbn [lookup list_lookup].
  cbn [mbind option_bind]. rewrite mapM_fmap.
  rewrite (mapM_ext _ (λ i, a ← l !! i; Some (h a))) by done.
  by rewrite IH.
Qed.

Lemma mapM_range_zip {A B C} (g : B → A → C) (row : list A) (ws : list B) :
  length ws = length row →
  mapM (λ i, s ← row !! i; w ← ws !! i; Some (g w s)) (seq 0 (length row))
  = Some (zip_with g ws row).
Proof.
  revert ws. induction row as [|s row IH]; intros [|w ws] Hlen; try done.
  cbn [length seq]. rewrite <- fmap_S_seq. cbn [mapM]. cbn [lookup list_lookup].
  cbn [mbind option_bind]. rewrite mapM_fmap.
  rewrite (mapM_ext _ (λ i, s ← row !! i; w ← ws !! i; Some (g w s))) by done.
  rewrite IH by (cbn in Hlen; lia). done.
Qed.

Lemma len_app a b : PyText.len (a +:+ b) = (PyText.len a + PyText.len b)%nat.
Proof.
  induction a as [|c a IH]; [done|].
  rewrite string_app_cons. cbn [PyText.len]. rewrite IH. lia.
Qed.

(** A run of one 7-bit character has as many characters as bytes. *)
Lemma len_times c n :
  PyText.is_continuation c = false → PyText.len (PyText.times c n) = n.
Proof.
  intros Hc. induction n as [|n IH]; [done|].
  cbn [PyText.times PyText.len]. by rewrite Hc, IH.
Qed.

Lemma len_ljust w s :
  (PyText.len s ≤ w)%nat → PyText.len (PyText.ljust w s) = w.
Proof.
  intros Hs. unfold PyText.ljust. rewrite len_app, len_times by done. lia.
Qed.

Lemma foldr_max_ge (x : nat) l : x ∈ l → (x ≤ foldr Nat.max 0 l)%nat.
Proof.
  induction l as [|y l IH]; [by intros ?%elem_of_nil|].
  cbn [foldr]. intros [->|Hx%IH]%elem_of_cons; lia.
Qed.

Lemma split_cons sep s : ∃ field fields, Py.split sep s = field :: fields.
Proof.
  pose proof (length_split sep s) as Hlen.
  destruct (Py.split sep s) as [|field fields]; [done|]. eauto.
Qed.

(** The width of column [i] of a table. *)
Lemma col_width_rectangular (rows : list (list string)) n i :
  (∀ row, row ∈ rows → length row = n) → (i < n)%nat →
  col_width rows i
  = Some (foldr Nat.max 0%nat
            ((λ row, PyText.len (nth i row EmptyString)) <$> rows)).
Proof.
  intros Hrows Hi. unfold col_width.
  rewrite (mapM_Some_2 _ rows
             ((λ row, PyText.len (nth i row EmptyString)) <$> rows)); [done|].
  apply Forall2_fmap_r, Forall_Forall2_diag, Forall_forall.
  intros row Hrow. cbn.
  destruct (lookup_lt_is_Some_2 row i) as [s Hs];
    [rewrite (Hrows row Hrow); lia|].
  by rewrite Hs, (nth_lookup_Some _ _ _ _ Hs).
Qed.

Lemma col_width_short_row (rows : list (list string)) row i :
  row ∈ rows → (length row ≤ i)%nat → col_width rows i = None.
Proof.
  intros Hrow Hi. unfold col_width.
  rewrite (mapM_None_2 _ rows); [done|].
  apply Exists_exists. exists row. split; [done|].
  by rewrite lookup_ge_None_2.
Qed.

Lemma print_rows_rectangular ws (data_rows : list (list string)) :
  (∀ row, row ∈ data_rows → length row = length ws) →
  print_rows ws data_rows
  = ((λ row, "  " +:+ PyText.join " | " (zip_with PyText.ljust ws row))
       <$> data_rows,
     Returned ()).
Proof.
  induction data_rows as [|row rest IH]; intros Hrows; [done|].
  cbn [print_rows]. unfold table_line.
  rewrite mapM_range_zip by (symmetry; apply Hrows; left).
  cbn [mbind option_bind]. rewrite IH by (intros ??; apply Hrows; by right).
  done.
Qed.

(** When every line of the data has as many fields as the first one,
    [format_csv_output] raises nothing and prints a table whose columns
    line up: the header, a rule, and at most [max_rows] further rows,
    every cell padded to the width of its column (the number of
    characters of the longest field in it), followed by a notice if rows
    were left out. *)
Theorem format_csv_output_aligned csv_data max_rows :
  csv_data ≠ EmptyString →
  let rows := Py.split "," <$> Py.split PrestoCli.LF (PyText.strip csv_data) in
  Forall (λ row, length row = length (hd [] rows)) rows →
  ∃ widths,
    let cells row := zip_with PyText.ljust widths row in
    let line sep cs := "  " +:+ PyText.join sep cs in
    format_csv_output (Some csv_data) max_rows
    = (String PrestoCli.LF (line " | " (cells (hd [] rows)))
         :: line "-+-" (PyText.times "-" <$> widths)
         :: ((λ row, line " | " (cells row)) <$> take max_rows (drop 1 rows))
         ++ (if decide (max_rows + 1 < length rows)%nat
             then [String PrestoCli.LF
                     ("  ... and "
                        +:+ PyGen.str_of_nat (length rows - max_rows - 1)
                        +:+ " more rows")]
             else []),
       Returned ())
    ∧ PyText.len <$> (PyText.times "-" <$> widths) = widths
    ∧ ∀ row, row ∈ rows → PyText.len <$> cells row = widths.
Proof.
  intros Hne rows Hrect.
  destruct csv_data as [|c0 csv_data']; [done|].
  unfold format_csv_output. cbv iota.
  set (csv_data := String c0 csv_data') in *. fold rows.
  destruct (split_cons PrestoCli.LF (PyText.strip csv_data))
    as (line0 & lines & Hlines).
  assert (Hrows : rows = Py.split "," line0 :: (Py.split "," <$> lines))
    by (subst rows; by rewrite Hlines).
  set (header := Py.split "," line0) in *.
  set (n := length header).
  assert (Hn : ∀ row, row ∈ rows → length row = n).
  { intros row Hrow. rewrite Forall_forall in Hrect.
    rewrite (Hrect row Hrow), Hrows. done. }
  set (widths :=
         (λ i, foldr Nat.max 0%nat
                 ((λ row, PyText.len (nth i row EmptyString)) <$> rows))
           <$> seq 0 n).
  assert (Hwlen : length widths = n)
    by (subst widths; by rewrite length_fmap, length_seq).
  assert (Hw : mapM (col_width rows) (seq 0 n) = Some widths).
  { apply mapM_Some_2, Forall2_fmap_r, Forall_Forall2_diag, Forall_forall.
    intros i Hi%elem_of_seq. cbn.
    apply (col_width_rectangular rows n); [done|lia]. }
  exists widths. cbv zeta.
  assert (Hcells : ∀ row, row ∈ rows →
            PyText.len <$> zip_with PyText.ljust widths row = widths).
  { intros row Hrow. specialize (Hn row Hrow).
    assert (Forall2 (λ w s, (PyText.len s ≤ w)%nat) widths row) as Hle.
    { apply Forall2_same_length_lookup_2; [lia|].
      intros i w s Hwi Hs. subst widths.
      rewrite list_lookup_fmap in Hwi.
      destruct (seq 0 n !! i) as [j|] eqn:Hj; [|done].
      apply lookup_seq in Hj as [-> _]. cbn in Hwi.
      injection Hwi as <-. apply foldr_max_ge.
      apply list_elem_of_fmap. exists row. split; [|done].
      by rewrite (nth_lookup_Some _ _ _ _ Hs). }
    clear -Hle. induction Hle as [|w s ws row Hs _ IH]; [done|].
    cbn [zip_with]. rewrite fmap_cons, IH, len_ljust by done. done. }
  split_and!; [|rewrite <- list_fmap_compose; cbn;
                rewrite (list_fmap_ext _ id widths),
                  list_fmap_id by (intros ???; by apply len_times); done
               |done].
  rewrite Hrows. cbn [hd]. rewrite <- Hrows. fold n. rewrite Hw.
  unfold table_line, rule_line.
  rewrite mapM_range_zip by done. cbn [mbind option_bind].
  replace (length header) with (length widths) by done.
  rewrite mapM_range_lookup. cbn [mbind option_bind].
  rewrite print_rows_rectangular.
  - cbn [fst snd]. case_decide; [done|]. by rewrite app_nil_r.
  - intros row Hrow. rewrite Hwlen. apply Hn.
    by apply subseteq_take, subseteq_drop in Hrow.
Qed.

Lemma format_csv_output_aligned_witness :
  (format_csv_output
     (Some ("sku,total" +:+ String PrestoCli.LF "SKU00001,12"
              +:+ String PrestoCli.LF "SKU00002,7"
              +:+ String PrestoCli.LF "SKU00003,1500")) 2).2
  = Returned ().
Proof.
  destruct (format_csv_output_aligned
              ("sku,total" +:+ String PrestoCli.LF "SKU00001,12"
                 +:+ String PrestoCli.LF "SKU00002,7"
                 +:+ String PrestoCli.LF "SKU00003,1500") 2)
    as (widths & Hout & _); [done|compute_done|].
  by rewrite Hout.
Defined.

(** A line with fewer fields than the first one makes
    [format_csv_output] raise IndexError before it has printed
    anything. *)
Theorem format_csv_output_short_row csv_data max_rows :
  csv_data ≠ EmptyString →
  let rows := Py.split "," <$> Py.split PrestoCli.LF (PyText.strip csv_data) in
  Exists (λ row, (length row < length (hd [] rows))%nat) rows →
  format_csv_output (Some csv_data) max_rows = ([], Raised IndexError).
Proof.
  intros Hne rows (row & Hrow & Hshort)%Exists_exists.
  destruct csv_data as [|c0 csv_data']; [done|].
  unfold format_csv_output. cbv iota.
  set (csv_data := String c0 csv_data') in *. fold rows.
  destruct rows as [|header rest] eqn:Hrows; [by inv Hrow|].
  cbn [hd] in Hshort.
  rewrite (mapM_None_2 _ (seq 0 (length header))); [done|].
  apply Exists_exists. exists (length row). split.
  - apply elem_of_seq. lia.
  - by apply (col_width_short_row _ row).
Qed.

Lemma format_csv_output_short_row_witness :
  format_csv_output
    (Some ("sku,total" +:+ String PrestoCli.LF "SKU00001,12"
             +:+ String PrestoCli.LF "SKU00002")) 10
  = ([], Raised IndexError).
Proof.
  apply format_csv_output_short_row; [done|compute_done].
Defined.
